(** * Goiabada authorization server: repository layer, seeding and logout

    A shallow embedding of the sources

    - [internal/data] (the [Database] repository over gorm, and [seed]),
    - [internal/server/handler_account_logout.go] and the route table of
      [internal/server/routes.go],
    - the helpers of [cmd/integration_tests/common.go],
    - the registration form of the frontend,

    together with the properties that the design document states about
    them.  Tables are lists of rows, a gorm call is a step of a small state
    monad over the [World] (database, scheduled driver outcomes, entropy
    counter, audit log), and Go's [(value, error)] results are pairs of
    options, [None] standing for [nil].  Log lines ([slog]) are left out;
    audit records are kept. *)

From Stdlib Require Import String Ascii List NArith Bool Lia Arith.
Import ListNotations.
Open Scope string_scope.
Open Scope N_scope.

Set Implicit Arguments.

(** ** Go values *)

(** Go's [uint]; identifiers are assigned by the database, the code only
    compares them. *)
Definition uint := N.

Definition bytes := list Byte.byte.

(** Go's [error] values as the sources build them. *)
Inductive error : Type :=
| ErrRecordNotFound                          (* gorm.ErrRecordNotFound *)
| DriverError (msg : string)                 (* reported by the SQL driver *)
| errors_New (msg : string)                  (* errors.New *)
| errors_Wrap (cause : error) (msg : string) (* errors.Wrap *).

Definition is_ErrRecordNotFound (e : error) : bool :=
  match e with ErrRecordNotFound => true | _ => false end.

(** ** Enumerations (package [enums]) *)

Inductive AcrLevel := AcrLevel1 | AcrLevel2 | AcrLevel3.

Inductive PasswordPolicy :=
  PasswordPolicyNone | PasswordPolicyLow | PasswordPolicyMedium | PasswordPolicyHigh.

Inductive KeyState := KeyStateCurrent | KeyStateNext | KeyStatePrevious.

(** Modelled from the spec: package [enums] is not part of the sources; the
    data model names the three states [previous], [current] and [next]. *)
Definition KeyState_String (s : KeyState) : string :=
  match s with
  | KeyStateCurrent => "current"
  | KeyStateNext => "next"
  | KeyStatePrevious => "previous"
  end.

(** ** Entities (package [entities])

    Only the columns that the sources read or write are kept.  Association
    fields ([RedirectURIs], [Permissions], [Resource], [Client], [User]) hold
    Go's zero value in a stored row and are filled by [Preload]. *)

Record Resource := {
  Resource_Id : uint;
  Resource_ResourceIdentifier : string;
  Resource_Description : string }.

Record Permission := {
  Permission_Id : uint;
  Permission_PermissionIdentifier : string;
  Permission_Description : string;
  Permission_ResourceId : uint;
  Permission_Resource : option Resource }.

Record RedirectURI := {
  RedirectURI_Id : uint;
  RedirectURI_URI : string;
  RedirectURI_ClientId : uint }.

Record Client := {
  Client_Id : uint;
  Client_ClientIdentifier : string;
  Client_Description : string;
  Client_Enabled : bool;
  Client_ConsentRequired : bool;
  Client_IsPublic : bool;
  Client_AuthorizationCodeEnabled : bool;
  Client_DefaultAcrLevel : AcrLevel;
  Client_ClientCredentialsEnabled : bool;
  Client_ClientSecretEncrypted : bytes;
  Client_RedirectURIs : list RedirectURI;
  Client_Permissions : list Permission }.

Record User := {
  User_Id : uint;
  User_Subject : string;
  User_Username : string;
  User_Email : string;
  User_EmailVerified : bool;
  User_PasswordHash : string;
  User_Enabled : bool;
  User_OTPEnabled : bool;
  User_OTPSecret : string;
  User_Permissions : list Permission }.

Record UserConsent := {
  UserConsent_Id : uint;
  UserConsent_ClientId : uint;
  UserConsent_UserId : uint;
  UserConsent_Scope : string;
  UserConsent_GrantedAt : N;
  UserConsent_Client : Client;
  UserConsent_User : User }.

Record UserSession := {
  UserSession_Id : uint;
  UserSession_SessionIdentifier : string;
  UserSession_UserId : uint;
  UserSession_Started : N;
  UserSession_LastAccessed : N;
  UserSession_AcrLevel : string;
  UserSession_AuthMethods : string;
  UserSession_User : User }.

(** [Code_Code] is the column [code] that [GetCode] filters on;
    [Code_CodeHash] is the column behind [GetCodeByCodeHash], which the
    integration tests call. *)
Record Code := {
  Code_Id : uint;
  Code_Code : string;
  Code_CodeHash : string;
  Code_ClientId : uint;
  Code_UserId : uint;
  Code_Scope : string;
  Code_State : string;
  Code_Nonce : string;
  Code_AcrLevel : string;
  Code_AuthMethods : string;
  Code_RedirectURI : string;
  Code_CodeChallenge : string;
  Code_CodeChallengeMethod : string;
  Code_IssuedAt : N;
  Code_ExpiresAt : N;
  Code_Used : bool;
  Code_Client : Client;
  Code_User : User }.

Record KeyPair := {
  KeyPair_Id : uint;
  KeyPair_State : string;
  KeyPair_KeyIdentifier : string;
  KeyPair_Type : string;
  KeyPair_Algorithm : string;
  KeyPair_PrivateKeyPEM : bytes;
  KeyPair_PublicKeyPEM : bytes;
  KeyPair_PublicKeyASN1_DER : bytes;
  KeyPair_PublicKeyJWK : bytes }.

Record Settings := {
  Settings_Id : uint;
  Settings_AppName : string;
  Settings_Issuer : string;
  Settings_SelfRegistrationEnabled : bool;
  Settings_SelfRegistrationRequiresEmailVerification : bool;
  Settings_PasswordPolicy : PasswordPolicy;
  Settings_SessionAuthenticationKey : bytes;
  Settings_SessionEncryptionKey : bytes;
  Settings_AESEncryptionKey : bytes;
  Settings_TokenExpirationInSeconds : N;
  Settings_UserSessionIdleTimeoutInSeconds : N;
  Settings_UserSessionMaxLifetimeInSeconds : N }.

Record Role := {
  Role_Id : uint;
  Role_RoleIdentifier : string;
  Role_Description : string }.

Record PreRegistration := {
  PreRegistration_Id : uint;
  PreRegistration_Email : string;
  PreRegistration_PasswordHash : string;
  PreRegistration_VerificationCode : string }.

(** Modelled from the spec: no refresh-token entity exists in the sources
    ([migrate] registers none).  The data model lists [jti], user, client
    and [revoked?]; the session under which the token was issued is kept so
    that the logout rule of section 4.5 can be stated. *)
Record RefreshToken := {
  RefreshToken_Id : uint;
  RefreshToken_Jti : string;
  RefreshToken_UserId : uint;
  RefreshToken_ClientId : uint;
  RefreshToken_SessionIdentifier : string;
  RefreshToken_Revoked : bool }.

(** ** The database *)

Record Database := {
  clients : list Client;
  redirect_uris : list RedirectURI;
  resources : list Resource;
  permissions : list Permission;
  clients_permissions : list (uint * uint);      (* client_id, permission_id *)
  users : list User;
  users_permissions : list (uint * uint);        (* user_id, permission_id *)
  user_consents : list UserConsent;
  user_sessions : list UserSession;
  codes : list Code;
  key_pairs : list KeyPair;
  settings : list Settings;
  roles : list Role;
  pre_registrations : list PreRegistration;
  users_roles : list (uint * uint);              (* user_id, role_id *)
  refresh_tokens : list RefreshToken }.

Definition emptyDatabase : Database :=
  {| clients := []; redirect_uris := []; resources := []; permissions := [];
     clients_permissions := []; users := []; users_permissions := [];
     user_consents := []; user_sessions := []; codes := []; key_pairs := [];
     settings := []; roles := []; pre_registrations := []; users_roles := [];
     refresh_tokens := [] |}.

(** Audit records written by [lib.LogAudit]. *)
Inductive AuditEvent :=
| AuditDeletedUserSession (userId userSessionId : uint) (loggedInUser : string)
| AuditLogout (userId : uint) (loggedInUser : string).

(** The state a request or the boot sequence runs against.  [faults] holds
    the outcome the driver will give to each of the next gorm calls ([None]:
    the statement runs; [Some msg]: it fails with that message; past the end
    of the list every statement runs).  [rng] counts the draws made from the
    random source, so that successive draws are distinct inputs of the
    external generators. *)
Record World := {
  db : Database;
  faults : list (option string);
  rng : nat;
  audit : list AuditEvent }.

Definition with_db (f : Database -> Database) (w : World) : World :=
  {| db := f (db w); faults := faults w; rng := rng w; audit := audit w |}.

Definition with_faults (fs : list (option string)) (w : World) : World :=
  {| db := db w; faults := fs; rng := rng w; audit := audit w |}.

(** A database on which no statement fails. *)
Definition healthy (w : World) : Prop := Forall (fun f => f = None) (faults w).

(** ** The monad of the embedding *)

(** A Go call returns, or panics (a nil dereference); effects made before a
    panic stay. *)
Inductive Outcome (A : Type) : Type :=
| Returned (a : A)
| Panicked (msg : string).
Arguments Panicked {A} msg.

Definition M (A : Type) : Type := World -> Outcome A * World.

Definition ret {A} (a : A) : M A := fun w => (Returned a, w).

Definition bind {A B} (c : M A) (k : A -> M B) : M B :=
  fun w => match c w with
           | (Returned a, w') => k a w'
           | (Panicked msg, w') => (Panicked msg, w')
           end.

Definition panic {A} (msg : string) : M A := fun w => (Panicked msg, w).

Notation "x <- c ;; k" := (bind c (fun x => k))
  (at level 61, c at next level, right associativity).
Notation "' pat <- c ;; k" := (bind c (fun x => match x with pat => k end))
  (at level 61, pat pattern, c at next level, right associativity).
Notation "c ;;; k" := (bind c (fun _ => k))
  (at level 61, right associativity).

Definition get_db : M Database := fun w => (Returned (db w), w).
Definition modify_db (f : Database -> Database) : M unit :=
  fun w => (Returned tt, with_db f w).

(** One statement handed to the driver. *)
Definition driver : M (option error) :=
  fun w => (Returned (match hd None (faults w) with
                      | None => None
                      | Some msg => Some (DriverError msg)
                      end),
            with_faults (tl (faults w)) w).

(** One draw from the random source: the index of the draw. *)
Definition draw : M nat :=
  fun w => (Returned (rng w),
            {| db := db w; faults := faults w; rng := S (rng w); audit := audit w |}).

Definition LogAudit (e : AuditEvent) : M unit :=
  fun w => (Returned tt,
            {| db := db w; faults := faults w; rng := rng w; audit := audit w ++ [e] |}).

(** ** Tables *)

(** A table of the schema: where its rows live in the [Database], the
    primary key of a row, the part of an entity that is stored in its own
    row ([columns] resets the association fields), and Go's zero value of
    the entity. *)
Record Table (A : Type) := {
  rows : Database -> list A;
  put : list A -> Database -> Database;
  pk : A -> uint;
  set_pk : uint -> A -> A;
  columns : A -> A;
  zero : A }.

Definition zero_Resource : Resource :=
  {| Resource_Id := 0; Resource_ResourceIdentifier := ""; Resource_Description := "" |}.

Definition zero_Permission : Permission :=
  {| Permission_Id := 0; Permission_PermissionIdentifier := "";
     Permission_Description := ""; Permission_ResourceId := 0;
     Permission_Resource := None |}.

Definition zero_RedirectURI : RedirectURI :=
  {| RedirectURI_Id := 0; RedirectURI_URI := ""; RedirectURI_ClientId := 0 |}.

Definition zero_Client : Client :=
  {| Client_Id := 0; Client_ClientIdentifier := ""; Client_Description := "";
     Client_Enabled := false; Client_ConsentRequired := false;
     Client_IsPublic := false; Client_AuthorizationCodeEnabled := false;
     Client_DefaultAcrLevel := AcrLevel1; Client_ClientCredentialsEnabled := false;
     Client_ClientSecretEncrypted := []; Client_RedirectURIs := [];
     Client_Permissions := [] |}.

Definition zero_User : User :=
  {| User_Id := 0; User_Subject := ""; User_Username := ""; User_Email := "";
     User_EmailVerified := false; User_PasswordHash := ""; User_Enabled := false;
     User_OTPEnabled := false; User_OTPSecret := ""; User_Permissions := [] |}.

Definition zero_UserConsent : UserConsent :=
  {| UserConsent_Id := 0; UserConsent_ClientId := 0; UserConsent_UserId := 0;
     UserConsent_Scope := ""; UserConsent_GrantedAt := 0;
     UserConsent_Client := zero_Client; UserConsent_User := zero_User |}.

Definition zero_UserSession : UserSession :=
  {| UserSession_Id := 0; UserSession_SessionIdentifier := "";
     UserSession_UserId := 0; UserSession_Started := 0;
     UserSession_LastAccessed := 0; UserSession_AcrLevel := "";
     UserSession_AuthMethods := ""; UserSession_User := zero_User |}.

Definition zero_Code : Code :=
  {| Code_Id := 0; Code_Code := ""; Code_CodeHash := ""; Code_ClientId := 0;
     Code_UserId := 0; Code_Scope := ""; Code_State := ""; Code_Nonce := "";
     Code_AcrLevel := ""; Code_AuthMethods := ""; Code_RedirectURI := "";
     Code_CodeChallenge := ""; Code_CodeChallengeMethod := "";
     Code_IssuedAt := 0; Code_ExpiresAt := 0; Code_Used := false;
     Code_Client := zero_Client; Code_User := zero_User |}.

Definition zero_KeyPair : KeyPair :=
  {| KeyPair_Id := 0; KeyPair_State := ""; KeyPair_KeyIdentifier := "";
     KeyPair_Type := ""; KeyPair_Algorithm := ""; KeyPair_PrivateKeyPEM := [];
     KeyPair_PublicKeyPEM := []; KeyPair_PublicKeyASN1_DER := [];
     KeyPair_PublicKeyJWK := [] |}.

Definition zero_Settings : Settings :=
  {| Settings_Id := 0; Settings_AppName := ""; Settings_Issuer := "";
     Settings_SelfRegistrationEnabled := false;
     Settings_SelfRegistrationRequiresEmailVerification := false;
     Settings_PasswordPolicy := PasswordPolicyNone;
     Settings_SessionAuthenticationKey := []; Settings_SessionEncryptionKey := [];
     Settings_AESEncryptionKey := []; Settings_TokenExpirationInSeconds := 0;
     Settings_UserSessionIdleTimeoutInSeconds := 0;
     Settings_UserSessionMaxLifetimeInSeconds := 0 |}.

Definition zero_Role : Role :=
  {| Role_Id := 0; Role_RoleIdentifier := ""; Role_Description := "" |}.

Definition zero_PreRegistration : PreRegistration :=
  {| PreRegistration_Id := 0; PreRegistration_Email := "";
     PreRegistration_PasswordHash := ""; PreRegistration_VerificationCode := "" |}.

Definition zero_RefreshToken : RefreshToken :=
  {| RefreshToken_Id := 0; RefreshToken_Jti := ""; RefreshToken_UserId := 0;
     RefreshToken_ClientId := 0; RefreshToken_SessionIdentifier := "";
     RefreshToken_Revoked := false |}.

(** One table replaced, the others kept. *)
Definition put_clients l d :=
  {| clients := l; redirect_uris := redirect_uris d; resources := resources d;
     permissions := permissions d; clients_permissions := clients_permissions d;
     users := users d; users_permissions := users_permissions d;
     user_consents := user_consents d; user_sessions := user_sessions d;
     codes := codes d; key_pairs := key_pairs d; settings := settings d;
     roles := roles d; pre_registrations := pre_registrations d;
     users_roles := users_roles d; refresh_tokens := refresh_tokens d |}.

Definition put_redirect_uris l d :=
  {| clients := clients d; redirect_uris := l; resources := resources d;
     permissions := permissions d; clients_permissions := clients_permissions d;
     users := users d; users_permissions := users_permissions d;
     user_consents := user_consents d; user_sessions := user_sessions d;
     codes := codes d; key_pairs := key_pairs d; settings := settings d;
     roles := roles d; pre_registrations := pre_registrations d;
     users_roles := users_roles d; refresh_tokens := refresh_tokens d |}.

Definition put_resources l d :=
  {| clients := clients d; redirect_uris := redirect_uris d; resources := l;
     permissions := permissions d; clients_permissions := clients_permissions d;
     users := users d; users_permissions := users_permissions d;
     user_consents := user_consents d; user_sessions := user_sessions d;
     codes := codes d; key_pairs := key_pairs d; settings := settings d;
     roles := roles d; pre_registrations := pre_registrations d;
     users_roles := users_roles d; refresh_tokens := refresh_tokens d |}.

Definition put_permissions l d :=
  {| clients := clients d; redirect_uris := redirect_uris d;
     resources := resources d; permissions := l;
     clients_permissions := clients_permissions d; users := users d;
     users_permissions := users_permissions d; user_consents := user_consents d;
     user_sessions := user_sessions d; codes := codes d; key_pairs := key_pairs d;
     settings := settings d; roles := roles d;
     pre_registrations := pre_registrations d; users_roles := users_roles d;
     refresh_tokens := refresh_tokens d |}.

Definition put_clients_permissions l d :=
  {| clients := clients d; redirect_uris := redirect_uris d;
     resources := resources d; permissions := permissions d;
     clients_permissions := l; users := users d;
     users_permissions := users_permissions d; user_consents := user_consents d;
     user_sessions := user_sessions d; codes := codes d; key_pairs := key_pairs d;
     settings := settings d; roles := roles d;
     pre_registrations := pre_registrations d; users_roles := users_roles d;
     refresh_tokens := refresh_tokens d |}.

Definition put_users l d :=
  {| clients := clients d; redirect_uris := redirect_uris d;
     resources := resources d; permissions := permissions d;
     clients_permissions := clients_permissions d; users := l;
     users_permissions := users_permissions d; user_consents := user_consents d;
     user_sessions := user_sessions d; codes := codes d; key_pairs := key_pairs d;
     settings := settings d; roles := roles d;
     pre_registrations := pre_registrations d; users_roles := users_roles d;
     refresh_tokens := refresh_tokens d |}.

Definition put_users_permissions l d :=
  {| clients := clients d; redirect_uris := redirect_uris d;
     resources := resources d; permissions := permissions d;
     clients_permissions := clients_permissions d; users := users d;
     users_permissions := l; user_consents := user_consents d;
     user_sessions := user_sessions d; codes := codes d; key_pairs := key_pairs d;
     settings := settings d; roles := roles d;
     pre_registrations := pre_registrations d; users_roles := users_roles d;
     refresh_tokens := refresh_tokens d |}.

Definition put_user_consents l d :=
  {| clients := clients d; redirect_uris := redirect_uris d;
     resources := resources d; permissions := permissions d;
     clients_permissions := clients_permissions d; users := users d;
     users_permissions := users_permissions d; user_consents := l;
     user_sessions := user_sessions d; codes := codes d; key_pairs := key_pairs d;
     settings := settings d; roles := roles d;
     pre_registrations := pre_registrations d; users_roles := users_roles d;
     refresh_tokens := refresh_tokens d |}.

Definition put_user_sessions l d :=
  {| clients := clients d; redirect_uris := redirect_uris d;
     resources := resources d; permissions := permissions d;
     clients_permissions := clients_permissions d; users := users d;
     users_permissions := users_permissions d; user_consents := user_consents d;
     user_sessions := l; codes := codes d; key_pairs := key_pairs d;
     settings := settings d; roles := roles d;
     pre_registrations := pre_registrations d; users_roles := users_roles d;
     refresh_tokens := refresh_tokens d |}.

Definition put_codes l d :=
  {| clients := clients d; redirect_uris := redirect_uris d;
     resources := resources d; permissions := permissions d;
     clients_permissions := clients_permissions d; users := users d;
     users_permissions := users_permissions d; user_consents := user_consents d;
     user_sessions := user_sessions d; codes := l; key_pairs := key_pairs d;
     settings := settings d; roles := roles d;
     pre_registrations := pre_registrations d; users_roles := users_roles d;
     refresh_tokens := refresh_tokens d |}.

Definition put_key_pairs l d :=
  {| clients := clients d; redirect_uris := redirect_uris d;
     resources := resources d; permissions := permissions d;
     clients_permissions := clients_permissions d; users := users d;
     users_permissions := users_permissions d; user_consents := user_consents d;
     user_sessions := user_sessions d; codes := codes d; key_pairs := l;
     settings := settings d; roles := roles d;
     pre_registrations := pre_registrations d; users_roles := users_roles d;
     refresh_tokens := refresh_tokens d |}.

Definition put_settings l d :=
  {| clients := clients d; redirect_uris := redirect_uris d;
     resources := resources d; permissions := permissions d;
     clients_permissions := clients_permissions d; users := users d;
     users_permissions := users_permissions d; user_consents := user_consents d;
     user_sessions := user_sessions d; codes := codes d; key_pairs := key_pairs d;
     settings := l; roles := roles d; pre_registrations := pre_registrations d;
     users_roles := users_roles d; refresh_tokens := refresh_tokens d |}.

Definition put_roles l d :=
  {| clients := clients d; redirect_uris := redirect_uris d;
     resources := resources d; permissions := permissions d;
     clients_permissions := clients_permissions d; users := users d;
     users_permissions := users_permissions d; user_consents := user_consents d;
     user_sessions := user_sessions d; codes := codes d; key_pairs := key_pairs d;
     settings := settings d; roles := l; pre_registrations := pre_registrations d;
     users_roles := users_roles d; refresh_tokens := refresh_tokens d |}.

Definition put_pre_registrations l d :=
  {| clients := clients d; redirect_uris := redirect_uris d;
     resources := resources d; permissions := permissions d;
     clients_permissions := clients_permissions d; users := users d;
     users_permissions := users_permissions d; user_consents := user_consents d;
     user_sessions := user_sessions d; codes := codes d; key_pairs := key_pairs d;
     settings := settings d; roles := roles d; pre_registrations := l;
     users_roles := users_roles d; refresh_tokens := refresh_tokens d |}.

Definition put_users_roles l d :=
  {| clients := clients d; redirect_uris := redirect_uris d;
     resources := resources d; permissions := permissions d;
     clients_permissions := clients_permissions d; users := users d;
     users_permissions := users_permissions d; user_consents := user_consents d;
     user_sessions := user_sessions d; codes := codes d; key_pairs := key_pairs d;
     settings := settings d; roles := roles d;
     pre_registrations := pre_registrations d; users_roles := l;
     refresh_tokens := refresh_tokens d |}.

(** Assignments to the association fields. *)
Definition set_Permission_Resource (r : option Resource) (p : Permission) : Permission :=
  {| Permission_Id := Permission_Id p;
     Permission_PermissionIdentifier := Permission_PermissionIdentifier p;
     Permission_Description := Permission_Description p;
     Permission_ResourceId := Permission_ResourceId p;
     Permission_Resource := r |}.

Definition set_Permission_ResourceId (i : uint) (p : Permission) : Permission :=
  {| Permission_Id := Permission_Id p;
     Permission_PermissionIdentifier := Permission_PermissionIdentifier p;
     Permission_Description := Permission_Description p;
     Permission_ResourceId := i;
     Permission_Resource := Permission_Resource p |}.

Definition set_RedirectURI_ClientId (i : uint) (r : RedirectURI) : RedirectURI :=
  {| RedirectURI_Id := RedirectURI_Id r; RedirectURI_URI := RedirectURI_URI r;
     RedirectURI_ClientId := i |}.

Definition set_Client_assoc (uris : list RedirectURI) (perms : list Permission)
    (c : Client) : Client :=
  {| Client_Id := Client_Id c;
     Client_ClientIdentifier := Client_ClientIdentifier c;
     Client_Description := Client_Description c;
     Client_Enabled := Client_Enabled c;
     Client_ConsentRequired := Client_ConsentRequired c;
     Client_IsPublic := Client_IsPublic c;
     Client_AuthorizationCodeEnabled := Client_AuthorizationCodeEnabled c;
     Client_DefaultAcrLevel := Client_DefaultAcrLevel c;
     Client_ClientCredentialsEnabled := Client_ClientCredentialsEnabled c;
     Client_ClientSecretEncrypted := Client_ClientSecretEncrypted c;
     Client_RedirectURIs := uris;
     Client_Permissions := perms |}.

Definition set_User_Permissions (perms : list Permission) (u : User) : User :=
  {| User_Id := User_Id u; User_Subject := User_Subject u;
     User_Username := User_Username u; User_Email := User_Email u;
     User_EmailVerified := User_EmailVerified u;
     User_PasswordHash := User_PasswordHash u; User_Enabled := User_Enabled u;
     User_OTPEnabled := User_OTPEnabled u; User_OTPSecret := User_OTPSecret u;
     User_Permissions := perms |}.

Definition set_Code_assoc (cl : Client) (u : User) (c : Code) : Code :=
  {| Code_Id := Code_Id c; Code_Code := Code_Code c; Code_CodeHash := Code_CodeHash c;
     Code_ClientId := Code_ClientId c; Code_UserId := Code_UserId c;
     Code_Scope := Code_Scope c; Code_State := Code_State c;
     Code_Nonce := Code_Nonce c; Code_AcrLevel := Code_AcrLevel c;
     Code_AuthMethods := Code_AuthMethods c; Code_RedirectURI := Code_RedirectURI c;
     Code_CodeChallenge := Code_CodeChallenge c;
     Code_CodeChallengeMethod := Code_CodeChallengeMethod c;
     Code_IssuedAt := Code_IssuedAt c; Code_ExpiresAt := Code_ExpiresAt c;
     Code_Used := Code_Used c; Code_Client := cl; Code_User := u |}.

Definition set_Code_Used (b : bool) (c : Code) : Code :=
  {| Code_Id := Code_Id c; Code_Code := Code_Code c; Code_CodeHash := Code_CodeHash c;
     Code_ClientId := Code_ClientId c; Code_UserId := Code_UserId c;
     Code_Scope := Code_Scope c; Code_State := Code_State c;
     Code_Nonce := Code_Nonce c; Code_AcrLevel := Code_AcrLevel c;
     Code_AuthMethods := Code_AuthMethods c; Code_RedirectURI := Code_RedirectURI c;
     Code_CodeChallenge := Code_CodeChallenge c;
     Code_CodeChallengeMethod := Code_CodeChallengeMethod c;
     Code_IssuedAt := Code_IssuedAt c; Code_ExpiresAt := Code_ExpiresAt c;
     Code_Used := b; Code_Client := Code_Client c; Code_User := Code_User c |}.

Definition set_UserSession_User (u : User) (s : UserSession) : UserSession :=
  {| UserSession_Id := UserSession_Id s;
     UserSession_SessionIdentifier := UserSession_SessionIdentifier s;
     UserSession_UserId := UserSession_UserId s;
     UserSession_Started := UserSession_Started s;
     UserSession_LastAccessed := UserSession_LastAccessed s;
     UserSession_AcrLevel := UserSession_AcrLevel s;
     UserSession_AuthMethods := UserSession_AuthMethods s;
     UserSession_User := u |}.

Definition set_UserConsent_assoc (cl : Client) (u : User) (c : UserConsent)
    : UserConsent :=
  {| UserConsent_Id := UserConsent_Id c;
     UserConsent_ClientId := UserConsent_ClientId c;
     UserConsent_UserId := UserConsent_UserId c;
     UserConsent_Scope := UserConsent_Scope c;
     UserConsent_GrantedAt := UserConsent_GrantedAt c;
     UserConsent_Client := cl; UserConsent_User := u |}.

Definition Clients : Table Client :=
  {| columns := set_Client_assoc [] [];
     rows := clients; put := put_clients; pk := Client_Id; zero := zero_Client;
     set_pk := fun i c =>
       {| Client_Id := i; Client_ClientIdentifier := Client_ClientIdentifier c;
          Client_Description := Client_Description c; Client_Enabled := Client_Enabled c;
          Client_ConsentRequired := Client_ConsentRequired c;
          Client_IsPublic := Client_IsPublic c;
          Client_AuthorizationCodeEnabled := Client_AuthorizationCodeEnabled c;
          Client_DefaultAcrLevel := Client_DefaultAcrLevel c;
          Client_ClientCredentialsEnabled := Client_ClientCredentialsEnabled c;
          Client_ClientSecretEncrypted := Client_ClientSecretEncrypted c;
          Client_RedirectURIs := Client_RedirectURIs c;
          Client_Permissions := Client_Permissions c |} |}.

Definition RedirectURIs : Table RedirectURI :=
  {| columns := fun r => r;
     rows := redirect_uris; put := put_redirect_uris; pk := RedirectURI_Id;
     zero := zero_RedirectURI;
     set_pk := fun i r =>
       {| RedirectURI_Id := i; RedirectURI_URI := RedirectURI_URI r;
          RedirectURI_ClientId := RedirectURI_ClientId r |} |}.

Definition Resources : Table Resource :=
  {| columns := fun r => r;
     rows := resources; put := put_resources; pk := Resource_Id;
     zero := zero_Resource;
     set_pk := fun i r =>
       {| Resource_Id := i;
          Resource_ResourceIdentifier := Resource_ResourceIdentifier r;
          Resource_Description := Resource_Description r |} |}.

Definition Permissions : Table Permission :=
  {| columns := set_Permission_Resource None;
     rows := permissions; put := put_permissions; pk := Permission_Id;
     zero := zero_Permission;
     set_pk := fun i p =>
       {| Permission_Id := i;
          Permission_PermissionIdentifier := Permission_PermissionIdentifier p;
          Permission_Description := Permission_Description p;
          Permission_ResourceId := Permission_ResourceId p;
          Permission_Resource := Permission_Resource p |} |}.

Definition Users : Table User :=
  {| columns := set_User_Permissions [];
     rows := users; put := put_users; pk := User_Id; zero := zero_User;
     set_pk := fun i u =>
       {| User_Id := i; User_Subject := User_Subject u;
          User_Username := User_Username u; User_Email := User_Email u;
          User_EmailVerified := User_EmailVerified u;
          User_PasswordHash := User_PasswordHash u; User_Enabled := User_Enabled u;
          User_OTPEnabled := User_OTPEnabled u; User_OTPSecret := User_OTPSecret u;
          User_Permissions := User_Permissions u |} |}.

Definition UserConsents : Table UserConsent :=
  {| columns := set_UserConsent_assoc zero_Client zero_User;
     rows := user_consents; put := put_user_consents; pk := UserConsent_Id;
     zero := zero_UserConsent;
     set_pk := fun i c =>
       {| UserConsent_Id := i; UserConsent_ClientId := UserConsent_ClientId c;
          UserConsent_UserId := UserConsent_UserId c;
          UserConsent_Scope := UserConsent_Scope c;
          UserConsent_GrantedAt := UserConsent_GrantedAt c;
          UserConsent_Client := UserConsent_Client c;
          UserConsent_User := UserConsent_User c |} |}.

Definition UserSessions : Table UserSession :=
  {| columns := set_UserSession_User zero_User;
     rows := user_sessions; put := put_user_sessions; pk := UserSession_Id;
     zero := zero_UserSession;
     set_pk := fun i s =>
       {| UserSession_Id := i;
          UserSession_SessionIdentifier := UserSession_SessionIdentifier s;
          UserSession_UserId := UserSession_UserId s;
          UserSession_Started := UserSession_Started s;
          UserSession_LastAccessed := UserSession_LastAccessed s;
          UserSession_AcrLevel := UserSession_AcrLevel s;
          UserSession_AuthMethods := UserSession_AuthMethods s;
          UserSession_User := UserSession_User s |} |}.

Definition Codes : Table Code :=
  {| columns := set_Code_assoc zero_Client zero_User;
     rows := codes; put := put_codes; pk := Code_Id; zero := zero_Code;
     set_pk := fun i c =>
       {| Code_Id := i; Code_Code := Code_Code c; Code_CodeHash := Code_CodeHash c;
          Code_ClientId := Code_ClientId c; Code_UserId := Code_UserId c;
          Code_Scope := Code_Scope c; Code_State := Code_State c;
          Code_Nonce := Code_Nonce c; Code_AcrLevel := Code_AcrLevel c;
          Code_AuthMethods := Code_AuthMethods c;
          Code_RedirectURI := Code_RedirectURI c;
          Code_CodeChallenge := Code_CodeChallenge c;
          Code_CodeChallengeMethod := Code_CodeChallengeMethod c;
          Code_IssuedAt := Code_IssuedAt c; Code_ExpiresAt := Code_ExpiresAt c;
          Code_Used := Code_Used c; Code_Client := Code_Client c;
          Code_User := Code_User c |} |}.

Definition KeyPairs : Table KeyPair :=
  {| columns := fun k => k;
     rows := key_pairs; put := put_key_pairs; pk := KeyPair_Id;
     zero := zero_KeyPair;
     set_pk := fun i k =>
       {| KeyPair_Id := i; KeyPair_State := KeyPair_State k;
          KeyPair_KeyIdentifier := KeyPair_KeyIdentifier k;
          KeyPair_Type := KeyPair_Type k; KeyPair_Algorithm := KeyPair_Algorithm k;
          KeyPair_PrivateKeyPEM := KeyPair_PrivateKeyPEM k;
          KeyPair_PublicKeyPEM := KeyPair_PublicKeyPEM k;
          KeyPair_PublicKeyASN1_DER := KeyPair_PublicKeyASN1_DER k;
          KeyPair_PublicKeyJWK := KeyPair_PublicKeyJWK k |} |}.

Definition SettingsT : Table Settings :=
  {| columns := fun x => x;
     rows := settings; put := put_settings; pk := Settings_Id;
     zero := zero_Settings;
     set_pk := fun i s =>
       {| Settings_Id := i; Settings_AppName := Settings_AppName s;
          Settings_Issuer := Settings_Issuer s;
          Settings_SelfRegistrationEnabled := Settings_SelfRegistrationEnabled s;
          Settings_SelfRegistrationRequiresEmailVerification :=
            Settings_SelfRegistrationRequiresEmailVerification s;
          Settings_PasswordPolicy := Settings_PasswordPolicy s;
          Settings_SessionAuthenticationKey := Settings_SessionAuthenticationKey s;
          Settings_SessionEncryptionKey := Settings_SessionEncryptionKey s;
          Settings_AESEncryptionKey := Settings_AESEncryptionKey s;
          Settings_TokenExpirationInSeconds := Settings_TokenExpirationInSeconds s;
          Settings_UserSessionIdleTimeoutInSeconds :=
            Settings_UserSessionIdleTimeoutInSeconds s;
          Settings_UserSessionMaxLifetimeInSeconds :=
            Settings_UserSessionMaxLifetimeInSeconds s |} |}.

Definition Roles : Table Role :=
  {| columns := fun r => r;
     rows := roles; put := put_roles; pk := Role_Id; zero := zero_Role;
     set_pk := fun i r =>
       {| Role_Id := i; Role_RoleIdentifier := Role_RoleIdentifier r;
          Role_Description := Role_Description r |} |}.

Definition PreRegistrations : Table PreRegistration :=
  {| columns := fun r => r;
     rows := pre_registrations; put := put_pre_registrations;
     pk := PreRegistration_Id; zero := zero_PreRegistration;
     set_pk := fun i r =>
       {| PreRegistration_Id := i; PreRegistration_Email := PreRegistration_Email r;
          PreRegistration_PasswordHash := PreRegistration_PasswordHash r;
          PreRegistration_VerificationCode := PreRegistration_VerificationCode r |} |}.

(** ** gorm

    The calls of gorm that the repository makes, over lists of rows.  Every
    finisher ([First], [Find], [Create], [Save], [Delete], an association
    operation) is one statement handed to the [driver]. *)

(** [*gorm.DB] as the callers read it. *)
Record Result := { Error : option error; RowsAffected : N }.

Inductive Order := Asc | Desc.

Section Gorm.
Variable A : Type.
Variable T : Table A.

(** The row with the least primary key, the one [ORDER BY id LIMIT 1]
    gives. *)
Fixpoint least (l : list A) : option A :=
  match l with
  | [] => None
  | x :: r => match least r with
              | None => Some x
              | Some y => if pk T x <=? pk T y then Some x else Some y
              end
  end.

(** The row with the greatest primary key ([ORDER BY id DESC LIMIT 1]). *)
Fixpoint greatest (l : list A) : option A :=
  match l with
  | [] => None
  | x :: r => match greatest r with
              | None => Some x
              | Some y => if pk T y <=? pk T x then Some x else Some y
              end
  end.

Definition pick (o : Order) (l : list A) : option A :=
  match o with Asc => least l | Desc => greatest l end.

(** [Where(cond).Order(o).First(&dest)] with the [Preload]s given by
    [load]: [dest] is written only when a row is found;
    [ErrRecordNotFound] is reported when none is. *)
Definition gorm_First (load : Database -> A -> A) (cond : A -> bool)
    (o : Order) (dest : A) : M (Result * A) :=
  f <- driver ;;
  match f with
  | Some e => ret ({| Error := Some e; RowsAffected := 0 |}, dest)
  | None =>
      d <- get_db ;;
      match pick o (filter cond (rows T d)) with
      | None => ret ({| Error := Some ErrRecordNotFound; RowsAffected := 0 |}, dest)
      | Some r => ret ({| Error := None; RowsAffected := 1 |}, load d r)
      end
  end.

(** [Where(cond).Find(&dest)]. *)
Definition gorm_Find (load : Database -> A -> A) (cond : A -> bool)
    : M (Result * list A) :=
  f <- driver ;;
  match f with
  | Some e => ret ({| Error := Some e; RowsAffected := 0 |}, [])
  | None =>
      d <- get_db ;;
      let found := filter cond (rows T d) in
      ret ({| Error := None; RowsAffected := N.of_nat (length found) |},
           map (load d) found)
  end.

(** The next value of the auto-increment column. *)
Definition next_id (l : list A) : uint :=
  1 + fold_right (fun x m => N.max (pk T x) m) 0 l.

(** How gorm writes the associations of a row in the same call:
    [before] saves what the row refers to and sets its foreign key,
    [after] saves what refers to the row. *)
Variable before : A -> Database -> Database * A.
Variable after : A -> Database -> Database.

(** The row stored under a fresh identifier when it has none. *)
Definition insert (row : A) (d : Database) : Database * A :=
  let row' := if pk T row =? 0 then set_pk T (next_id (rows T d)) row else row in
  (put T (rows T d ++ [columns T row']) d, row').

(** The row with the identifier of [row] replaced by it, or [row] inserted
    when there is none. *)
Definition upsert (row : A) (d : Database) : Database * A :=
  if (pk T row =? 0) || negb (existsb (fun x => pk T x =? pk T row) (rows T d))
  then insert row d
  else (put T (map (fun x => if pk T x =? pk T row then columns T row else x)
                   (rows T d)) d, row).

(** [Create(&row)]: the row is inserted, under a fresh identifier when it
    has none, and the identifier is written back to the caller's value. *)
Definition gorm_Create (row : A) : M (Result * A) :=
  f <- driver ;;
  match f with
  | Some e => ret ({| Error := Some e; RowsAffected := 0 |}, row)
  | None =>
      d <- get_db ;;
      let '(d1, row1) := before row d in
      let '(d2, row2) := insert row1 d1 in
      modify_db (fun _ => after row2 d2) ;;;
      ret ({| Error := None; RowsAffected := 1 |}, row2)
  end.

(** [Save(&row)]: an insert for a row without identifier, else an update
    of the row with that identifier (an insert when there is none). *)
Definition gorm_Save (row : A) : M (Result * A) :=
  f <- driver ;;
  match f with
  | Some e => ret ({| Error := Some e; RowsAffected := 0 |}, row)
  | None =>
      d <- get_db ;;
      let '(d1, row1) := before row d in
      let '(d2, row2) := upsert row1 d1 in
      modify_db (fun _ => after row2 d2) ;;;
      ret ({| Error := None; RowsAffected := 1 |}, row2)
  end.

(** [Unscoped().Where(cond).Delete(&A{})]: the rows are removed for good. *)
Definition gorm_Delete (cond : A -> bool) : M Result :=
  f <- driver ;;
  match f with
  | Some e => ret {| Error := Some e; RowsAffected := 0 |}
  | None =>
      d <- get_db ;;
      modify_db (put T (filter (fun x => negb (cond x)) (rows T d))) ;;;
      ret {| Error := None;
             RowsAffected := N.of_nat (length (filter cond (rows T d))) |}
  end.
End Gorm.

(** No preload. *)
Definition plain {A} (_ : Database) (x : A) : A := x.

(** No association to write. *)
Definition no_before {A} (x : A) (d : Database) : Database * A := (d, x).
Definition no_after {A} (_ : A) (d : Database) : Database := d.

(** The associations that [Create] and [Save] write. *)

(** Has-many: the redirect URIs of a client are stored with its identifier. *)
Definition save_RedirectURIs (c : Client) (d : Database) : Database :=
  fold_left
    (fun d r =>
       fst (upsert RedirectURIs (set_RedirectURI_ClientId (Client_Id c) r) d))
    (Client_RedirectURIs c) d.

(** Many-to-many: a permission that is not stored yet is inserted, a stored
    one is left as it is ([ON CONFLICT DO NOTHING]); the pair is added to the
    join table unless it is there. *)
Definition save_Permissions (jrows : Database -> list (uint * uint))
    (jput : list (uint * uint) -> Database -> Database)
    (owner : uint) (perms : list Permission) (d : Database) : Database :=
  fold_left
    (fun d p =>
       let '(d1, p1) :=
         if (Permission_Id p =? 0)
            || negb (existsb (fun x => Permission_Id x =? Permission_Id p) (permissions d))
         then insert Permissions p d else (d, p) in
       if existsb (fun j => (fst j =? owner) && (snd j =? Permission_Id p1)) (jrows d1)
       then d1 else jput (jrows d1 ++ [(owner, Permission_Id p1)])%list d1)
    perms d.

Definition after_Client (c : Client) (d : Database) : Database :=
  save_Permissions clients_permissions put_clients_permissions (Client_Id c)
    (Client_Permissions c) (save_RedirectURIs c d).

Definition after_User (u : User) (d : Database) : Database :=
  save_Permissions users_permissions put_users_permissions (User_Id u)
    (User_Permissions u) d.

(** Belongs-to: the resource of a permission is stored first when it is not
    yet, and the permission takes its identifier as foreign key. *)
Definition before_Permission (p : Permission) (d : Database) : Database * Permission :=
  match Permission_Resource p with
  | None => (d, p)
  | Some r =>
      let '(d1, r1) :=
        if (Resource_Id r =? 0)
           || negb (existsb (fun x => Resource_Id x =? Resource_Id r) (resources d))
        then insert Resources r d else (d, r) in
      (d1, set_Permission_ResourceId (Resource_Id r1)
             (set_Permission_Resource (Some r1) p))
  end.

(** [result.Error != nil && result.Error != gorm.ErrRecordNotFound]. *)
Definition failed (result : Result) : option error :=
  match Error result with
  | Some e => if is_ErrRecordNotFound e then None else Some e
  | None => None
  end.

(** ** Preloads *)

Definition or_zero {A} (T : Table A) (o : option A) : A :=
  match o with Some x => x | None => zero T end.

Definition by_id {A} (T : Table A) (d : Database) (id : uint) : option A :=
  least T (filter (fun x => pk T x =? id) (rows T d)).

(** [Preload("Resource")] on a permission. *)
Definition preload_Resource (d : Database) (p : Permission) : Permission :=
  set_Permission_Resource (by_id Resources d (Permission_ResourceId p)) p.

(** The permissions joined to an owner through a join table. *)
Definition joined (join : list (uint * uint)) (owner : uint) (d : Database)
    : list Permission :=
  filter (fun p => existsb (fun j => (fst j =? owner) && (snd j =? Permission_Id p)) join)
         (permissions d).

(** [Preload("RedirectURIs")], [Preload("Permissions")] and
    [Preload("Permissions.Resource")] on a client; for a client this is also
    what [Preload(clause.Associations)] with [Preload("Permissions.Resource")]
    loads. *)
Definition preload_Client (d : Database) (c : Client) : Client :=
  set_Client_assoc
    (filter (fun r => RedirectURI_ClientId r =? Client_Id c) (redirect_uris d))
    (map (preload_Resource d) (joined (clients_permissions d) (Client_Id c) d))
    c.

(** [Preload(clause.Associations)] on a user. *)
Definition preload_User (d : Database) (u : User) : User :=
  set_User_Permissions (joined (users_permissions d) (User_Id u) d) u.

(** [Preload(clause.Associations)] on a permission. *)
Definition preload_Permission := preload_Resource.

(** [Preload("Client")], [Preload("User")], [Preload("User.Permissions")] on
    a code. *)
Definition preload_Code (d : Database) (c : Code) : Code :=
  set_Code_assoc
    (or_zero Clients (by_id Clients d (Code_ClientId c)))
    (preload_User d (or_zero Users (by_id Users d (Code_UserId c))))
    c.

(** [Preload("User")] on a session. *)
Definition preload_UserSession (d : Database) (s : UserSession) : UserSession :=
  set_UserSession_User (or_zero Users (by_id Users d (UserSession_UserId s))) s.

(** [Preload("Client")], [Preload("User")] on a consent. *)
Definition preload_UserConsent (d : Database) (c : UserConsent) : UserConsent :=
  set_UserConsent_assoc
    (or_zero Clients (by_id Clients d (UserConsent_ClientId c)))
    (or_zero Users (by_id Users d (UserConsent_UserId c)))
    c.

(** [Preload("Client")] alone on a consent. *)
Definition preload_UserConsent_Client (d : Database) (c : UserConsent) : UserConsent :=
  set_UserConsent_assoc
    (or_zero Clients (by_id Clients d (UserConsent_ClientId c)))
    (UserConsent_User c)
    c.

(** ** The repository ([Database] methods of package [data]) *)

Definition GetClientByClientIdentifier (clientIdentifier : string)
    : M (option Client * option error) :=
  '(result, client) <-
     gorm_First Clients preload_Client
       (fun c => Client_ClientIdentifier c =? clientIdentifier)%string Asc zero_Client ;;
  match failed result with
  | Some e => ret (None, Some (errors_Wrap e "unable to fetch client from database"))
  | None =>
      if RowsAffected result =? 0 then ret (None, None)
      else ret (Some client, None)
  end.

Definition GetUserByUsername (username : string) : M (option User * option error) :=
  '(result, user) <-
     gorm_First Users preload_User
       (fun u => User_Username u =? username)%string Asc zero_User ;;
  match failed result with
  | Some e => ret (None, Some (errors_Wrap e "unable to fetch user from database"))
  | None =>
      if RowsAffected result =? 0 then ret (None, None)
      else ret (Some user, None)
  end.

Definition GetUserById (id : uint) : M (option User * option error) :=
  '(result, user) <-
     gorm_First Users preload_User (fun u => User_Id u =? id) Asc zero_User ;;
  match failed result with
  | Some e => ret (None, Some (errors_Wrap e "unable to fetch user from database"))
  | None =>
      if RowsAffected result =? 0 then ret (None, None)
      else ret (Some user, None)
  end.

Definition GetUserBySubject (subject : string) : M (option User * option error) :=
  '(result, user) <-
     gorm_First Users preload_User
       (fun u => User_Subject u =? subject)%string Asc zero_User ;;
  match failed result with
  | Some e => ret (None, Some (errors_Wrap e "unable to fetch user from database"))
  | None =>
      if RowsAffected result =? 0 then ret (None, None)
      else ret (Some user, None)
  end.

Definition GetUserByEmail (email : string) : M (option User * option error) :=
  '(result, user) <-
     gorm_First Users preload_User
       (fun u => User_Email u =? email)%string Asc zero_User ;;
  match failed result with
  | Some e => ret (None, Some (errors_Wrap e "unable to fetch user from database"))
  | None =>
      if RowsAffected result =? 0 then ret (None, None)
      else ret (Some user, None)
  end.

Definition CreateCode (code : Code) : M (option Code * option error) :=
  '(result, code) <- gorm_Create Codes no_before no_after code ;;
  match Error result with
  | Some e => ret (None, Some (errors_Wrap e "unable to create code in database"))
  | None => ret (Some code, None)
  end.

Definition GetCode (code : string) (used : bool) : M (option Code * option error) :=
  '(result, c) <-
     gorm_First Codes preload_Code
       (fun c => (Code_Code c =? code)%string && Bool.eqb (Code_Used c) used)
       Asc zero_Code ;;
  match failed result with
  | Some e => ret (None, Some (errors_Wrap e "unable to fetch code from database"))
  | None =>
      if RowsAffected result =? 0 then ret (None, None)
      else ret (Some c, None)
  end.

Definition GetSigningKey : M (option KeyPair * option error) :=
  '(result, c) <-
     gorm_First KeyPairs (@plain KeyPair) (fun _ => true) Desc zero_KeyPair ;; (* most recent *)
  match failed result with
  | Some e => ret (None, Some (errors_Wrap e "unable to fetch keypair from database"))
  | None =>
      if RowsAffected result =? 0 then ret (None, None)
      else ret (Some c, None)
  end.

Definition GetSettings : M (option Settings * option error) :=
  '(result, settings) <-
     gorm_First SettingsT (@plain Settings) (fun _ => true) Asc zero_Settings ;;
  match failed result with
  | Some e => ret (None, Some (errors_Wrap e "unable to fetch settings from database"))
  | None =>
      if RowsAffected result =? 0 then ret (None, None)
      else ret (Some settings, None)
  end.

Definition GetAllResources : M (option (list Resource) * option error) :=
  '(result, resources) <- gorm_Find Resources (@plain Resource) (fun _ => true) ;;
  match failed result with
  | Some e => ret (None, Some (errors_Wrap e "unable to fetch resources from database"))
  | None =>
      if RowsAffected result =? 0 then ret (Some [], None)
      else ret (Some resources, None)
  end.

Definition GetResourceById (id : uint) : M (option Resource * option error) :=
  '(result, res) <-
     gorm_First Resources (@plain Resource) (fun r => Resource_Id r =? id)
       Asc zero_Resource ;;
  match failed result with
  | Some e => ret (None, Some (errors_Wrap e "unable to fetch resource from database"))
  | None =>
      if RowsAffected result =? 0 then ret (None, None)
      else ret (Some res, None)
  end.

Definition GetResourceByResourceIdentifier (resourceIdentifier : string)
    : M (option Resource * option error) :=
  '(result, res) <-
     gorm_First Resources (@plain Resource)
       (fun r => Resource_ResourceIdentifier r =? resourceIdentifier)%string
       Asc zero_Resource ;;
  match failed result with
  | Some e => ret (None, Some (errors_Wrap e "unable to fetch resource from database"))
  | None =>
      if RowsAffected result =? 0 then ret (None, None)
      else ret (Some res, None)
  end.

(** A listing method: no row gives the empty slice, not [nil]. *)
Definition GetResourcePermissions (resourceId : uint)
    : M (option (list Permission) * option error) :=
  '(result, permissions) <-
     gorm_Find Permissions (@plain Permission)
       (fun p => Permission_ResourceId p =? resourceId) ;;
  match failed result with
  | Some e =>
      ret (None, Some (errors_Wrap e "unable to fetch resource permissions from database"))
  | None =>
      if RowsAffected result =? 0 then ret (Some [], None)
      else ret (Some permissions, None)
  end.

Definition GetUserSessionBySessionIdentifier (sessionIdentifier : string)
    : M (option UserSession * option error) :=
  '(result, userSession) <-
     gorm_First UserSessions preload_UserSession
       (fun s => UserSession_SessionIdentifier s =? sessionIdentifier)%string
       Asc zero_UserSession ;;
  match failed result with
  | Some e =>
      ret (None, Some (errors_Wrap e "unable to fetch user session from database"))
  | None =>
      if RowsAffected result =? 0 then ret (None, None)
      else ret (Some userSession, None)
  end.

Definition GetUserSessionsByUserId (userId : uint)
    : M (option (list UserSession) * option error) :=
  '(result, userSessions) <-
     gorm_Find UserSessions preload_UserSession
       (fun s => UserSession_UserId s =? userId) ;;
  match failed result with
  | Some e =>
      ret (None, Some (errors_Wrap e "unable to fetch user sessions from database"))
  | None =>
      if RowsAffected result =? 0 then ret (Some [], None)
      else ret (Some userSessions, None)
  end.

Definition UpdateUserSession (userSession : UserSession)
    : M (option UserSession * option error) :=
  '(result, userSession) <- gorm_Save UserSessions no_before no_after userSession ;;
  match Error result with
  | Some e =>
      ret (None, Some (errors_Wrap e "unable to update user session in database"))
  | None => ret (Some userSession, None)
  end.

Definition CreateUserSession (userSession : UserSession)
    : M (option UserSession * option error) :=
  '(result, userSession) <- gorm_Save UserSessions no_before no_after userSession ;;
  match Error result with
  | Some e =>
      ret (None, Some (errors_Wrap e "unable to create user session in database"))
  | None => ret (Some userSession, None)
  end.

Definition UpdateUser (user : User) : M (option User * option error) :=
  '(result, user) <- gorm_Save Users no_before after_User user ;;
  match Error result with
  | Some e => ret (None, Some (errors_Wrap e "unable to update user in database"))
  | None => ret (Some user, None)
  end.

(** Here the destination is a nil pointer that gorm allocates when it finds
    a row. *)
Definition GetUserConsent (userId clientId : uint)
    : M (option UserConsent * option error) :=
  '(result, consent) <-
     gorm_First UserConsents preload_UserConsent
       (fun c => (UserConsent_UserId c =? userId) && (UserConsent_ClientId c =? clientId))
       Asc zero_UserConsent ;;
  match failed result with
  | Some e =>
      ret (None, Some (errors_Wrap e "unable to fetch user consent from database"))
  | None =>
      if RowsAffected result =? 0 then ret (None, None)
      else ret (Some consent, None)
  end.

Definition GetUserConsents (userId : uint)
    : M (option (list UserConsent) * option error) :=
  '(result, consents) <-
     gorm_Find UserConsents preload_UserConsent_Client
       (fun c => UserConsent_UserId c =? userId) ;;
  match failed result with
  | Some e =>
      ret (None, Some (errors_Wrap e "unable to fetch user consents from database"))
  | None =>
      if RowsAffected result =? 0 then ret (Some [], None)
      else ret (Some consents, None)
  end.

Definition DeleteUserConsent (consentId : uint) : M (option error) :=
  result <- gorm_Delete UserConsents (fun c => UserConsent_Id c =? consentId) ;;
  match Error result with
  | Some e => ret (Some (errors_Wrap e "unable to delete user consent from database"))
  | None => ret None
  end.

Definition DeleteUserSession (userSessionId : uint) : M (option error) :=
  result <- gorm_Delete UserSessions (fun s => UserSession_Id s =? userSessionId) ;;
  match Error result with
  | Some e => ret (Some (errors_Wrap e "unable to delete user session from database"))
  | None => ret None
  end.

Definition SaveUserConsent (userConsent : UserConsent)
    : M (option UserConsent * option error) :=
  '(result, userConsent) <- gorm_Save UserConsents no_before no_after userConsent ;;
  match Error result with
  | Some e =>
      ret (None, Some (errors_Wrap e "unable to update user consent in database"))
  | None => ret (Some userConsent, None)
  end.

Definition UpdateCode (code : Code) : M (option Code * option error) :=
  '(result, code) <- gorm_Save Codes no_before no_after code ;;
  match Error result with
  | Some e => ret (None, Some (errors_Wrap e "unable to update code in database"))
  | None => ret (Some code, None)
  end.

Definition CreatePreRegistration (preRegistration : PreRegistration)
    : M (option PreRegistration * option error) :=
  '(result, preRegistration) <-
     gorm_Create PreRegistrations no_before no_after preRegistration ;;
  match Error result with
  | Some e =>
      ret (None, Some (errors_Wrap e "unable to create pre registration in database"))
  | None => ret (Some preRegistration, None)
  end.

Definition GetPreRegistrationByEmail (email : string)
    : M (option PreRegistration * option error) :=
  '(result, preRegistration) <-
     gorm_First PreRegistrations (@plain PreRegistration)
       (fun r => PreRegistration_Email r =? email)%string Asc zero_PreRegistration ;;
  match failed result with
  | Some e =>
      ret (None, Some (errors_Wrap e "unable to fetch pre registration from database"))
  | None =>
      if RowsAffected result =? 0 then ret (None, None)
      else ret (Some preRegistration, None)
  end.

Definition CreateUser (user : User) : M (option User * option error) :=
  '(result, user) <- gorm_Save Users no_before after_User user ;;
  match Error result with
  | Some e => ret (None, Some (errors_Wrap e "unable to create user in database"))
  | None => ret (Some user, None)
  end.

Definition DeletePreRegistration (preRegistrationId : uint) : M (option error) :=
  result <-
    gorm_Delete PreRegistrations (fun r => PreRegistration_Id r =? preRegistrationId) ;;
  match Error result with
  | Some e =>
      ret (Some (errors_Wrap e "unable to delete pre registration from database"))
  | None => ret None
  end.

Definition GetClients : M (option (list Client) * option error) :=
  '(result, clients) <- gorm_Find Clients (@plain Client) (fun _ => true) ;;
  match failed result with
  | Some e => ret (None, Some (errors_Wrap e "unable to fetch clients from database"))
  | None =>
      if RowsAffected result =? 0 then ret (Some [], None)
      else ret (Some clients, None)
  end.

Definition GetClientById (id : uint) : M (option Client * option error) :=
  '(result, client) <-
     gorm_First Clients preload_Client (fun c => Client_Id c =? id) Asc zero_Client ;;
  match failed result with
  | Some e => ret (None, Some (errors_Wrap e "unable to fetch client from database"))
  | None =>
      if RowsAffected result =? 0 then ret (None, None)
      else ret (Some client, None)
  end.

Definition UpdateClient (client : Client) : M (option Client * option error) :=
  '(result, client) <- gorm_Save Clients no_before after_Client client ;;
  match Error result with
  | Some e => ret (None, Some (errors_Wrap e "unable to update client in database"))
  | None => ret (Some client, None)
  end.

Definition CreateRedirectURI (redirectURI : RedirectURI)
    : M (option RedirectURI * option error) :=
  '(result, redirectURI) <- gorm_Create RedirectURIs no_before no_after redirectURI ;;
  match Error result with
  | Some e =>
      ret (None, Some (errors_Wrap e "unable to create redirect uri in database"))
  | None => ret (Some redirectURI, None)
  end.

Definition DeleteRedirectURI (redirectURIId : uint) : M (option error) :=
  result <- gorm_Delete RedirectURIs (fun r => RedirectURI_Id r =? redirectURIId) ;;
  match Error result with
  | Some e => ret (Some (errors_Wrap e "unable to delete redirect uri from database"))
  | None => ret None
  end.

Definition GetPermissionById (id : uint) : M (option Permission * option error) :=
  '(result, permission) <-
     gorm_First Permissions preload_Permission (fun p => Permission_Id p =? id)
       Asc zero_Permission ;;
  match failed result with
  | Some e =>
      ret (None, Some (errors_Wrap e "unable to fetch permission from database"))
  | None =>
      if RowsAffected result =? 0 then ret (None, None)
      else ret (Some permission, None)
  end.

(** [Model(&client).Association("Permissions")]: the pairs of the join
    table [clients_permissions].  The sources do not say what gorm does for
    a nil client or a nil permission; the model stops there, and
    [DeleteClient] never gets there. *)
Definition Association_Permissions_Delete (client : option Client)
    (permission : option Permission) : M (option error) :=
  match client, permission with
  | Some c, Some p =>
      f <- driver ;;
      match f with
      | Some e => ret (Some e)
      | None =>
          modify_db (fun d =>
            put_clients_permissions
              (filter (fun j => negb ((fst j =? Client_Id c) && (snd j =? Permission_Id p)))
                      (clients_permissions d)) d) ;;;
          ret None
      end
  | _, _ => panic "gorm: association on a nil value"
  end.

Definition Association_Permissions_Append (client : option Client)
    (permission : option Permission) : M (option error) :=
  match client, permission with
  | Some c, Some p =>
      f <- driver ;;
      match f with
      | Some e => ret (Some e)
      | None =>
          modify_db (save_Permissions clients_permissions put_clients_permissions
                       (Client_Id c) [p]) ;;;
          ret None
      end
  | _, _ => panic "gorm: association on a nil value"
  end.

Definition DeleteClientPermission (clientId permissionId : uint) : M (option error) :=
  '(client, err) <- GetClientById clientId ;;
  match err with
  | Some e => ret (Some e)
  | None =>
      '(permission, err) <- GetPermissionById permissionId ;;
      match err with
      | Some e => ret (Some e)
      | None =>
          err <- Association_Permissions_Delete client permission ;;
          match err with
          | Some e =>
              ret (Some (errors_Wrap e "unable to delete client permission from database"))
          | None => ret None
          end
      end
  end.

Definition AddClientPermission (clientId permissionId : uint) : M (option error) :=
  '(client, err) <- GetClientById clientId ;;
  match err with
  | Some e => ret (Some e)
  | None =>
      '(permission, err) <- GetPermissionById permissionId ;;
      match err with
      | Some e => ret (Some e)
      | None =>
          err <- Association_Permissions_Append client permission ;;
          match err with
          | Some e =>
              ret (Some (errors_Wrap e "unable to append client permission in database"))
          | None => ret None
          end
      end
  end.

(** [for _, x := range l { err = body(x); if err != nil { return err } }]. *)
Fixpoint for_range {A} (l : list A) (body : A -> M (option error)) : M (option error) :=
  match l with
  | [] => ret None
  | x :: rest =>
      err <- body x ;;
      match err with
      | Some e => ret (Some e)
      | None => for_range rest body
      end
  end.

Definition DeleteClient (clientId : uint) : M (option error) :=
  (* delete user consents *)
  result <- gorm_Delete UserConsents (fun c => UserConsent_ClientId c =? clientId) ;;
  match Error result with
  | Some e =>
      ret (Some (errors_Wrap e
        "unable to delete user consents from database (to delete a client)"))
  | None =>
  (* delete redirect uris *)
  result <- gorm_Delete RedirectURIs (fun r => RedirectURI_ClientId r =? clientId) ;;
  match Error result with
  | Some e =>
      ret (Some (errors_Wrap e
        "unable to delete redirect uris from database (to delete a client)"))
  | None =>
  (* delete codes *)
  result <- gorm_Delete Codes (fun c => Code_ClientId c =? clientId) ;;
  match Error result with
  | Some e =>
      ret (Some (errors_Wrap e
        "unable to delete codes from database (to delete a client)"))
  | None =>
  (* delete permissions assigned to client *)
  '(client, err) <- GetClientById clientId ;;
  match err with
  | Some e => ret (Some e)
  | None =>
  match client with
  | None => panic "invalid memory address or nil pointer dereference"
  | Some client =>
  err <- for_range (Client_Permissions client)
           (fun permission => DeleteClientPermission clientId (Permission_Id permission)) ;;
  match err with
  | Some e => ret (Some e)
  | None =>
  (* delete client *)
  result <- gorm_Delete Clients (fun c => Client_Id c =? clientId) ;;
  match Error result with
  | Some e => ret (Some (errors_Wrap e "unable to delete client from database"))
  | None => ret None
  end end end end end end end.

Definition CreateClient (client : Client) : M (option Client * option error) :=
  '(result, client) <- gorm_Create Clients no_before after_Client client ;;
  match Error result with
  | Some e => ret (None, Some (errors_Wrap e "unable to create client in database"))
  | None => ret (Some client, None)
  end.

Definition UpdateResource (resource : Resource) : M (option Resource * option error) :=
  '(result, resource) <- gorm_Save Resources no_before no_after resource ;;
  match Error result with
  | Some e => ret (None, Some (errors_Wrap e "unable to update resource in database"))
  | None => ret (Some resource, None)
  end.

Definition GetPermissionByPermissionIdentifier (permissionIdentifier : string)
    : M (option Permission * option error) :=
  '(result, permission) <-
     gorm_First Permissions preload_Permission
       (fun p => Permission_PermissionIdentifier p =? permissionIdentifier)%string
       Asc zero_Permission ;;
  match failed result with
  | Some e =>
      ret (None, Some (errors_Wrap e "unable to fetch permission from database"))
  | None =>
      if RowsAffected result =? 0 then ret (None, None)
      else ret (Some permission, None)
  end.

Definition CreatePermission (permission : Permission)
    : M (option Permission * option error) :=
  '(result, permission) <- gorm_Create Permissions before_Permission no_after permission ;;
  match Error result with
  | Some e =>
      ret (None, Some (errors_Wrap e "unable to create permission in database"))
  | None => ret (Some permission, None)
  end.

Definition UpdatePermission (permission : Permission)
    : M (option Permission * option error) :=
  '(result, permission) <- gorm_Save Permissions before_Permission no_after permission ;;
  match Error result with
  | Some e =>
      ret (None, Some (errors_Wrap e "unable to update permission in database"))
  | None => ret (Some permission, None)
  end.

(** [Exec("DELETE FROM <join table> WHERE permission_id = ?")]. *)
Definition gorm_Exec (f : Database -> Database) : M Result :=
  fl <- driver ;;
  match fl with
  | Some e => ret {| Error := Some e; RowsAffected := 0 |}
  | None => modify_db f ;;; ret {| Error := None; RowsAffected := 0 |}
  end.

Definition without_permission (permissionId : uint) (join : list (uint * uint))
    : list (uint * uint) :=
  filter (fun j => negb (snd j =? permissionId)) join.

(** The table [groups_permissions] is not part of the model; its statement
    is still handed to the driver. *)
Definition DeletePermission (permissionId : uint) : M (option error) :=
  result <- gorm_Exec (fun d =>
    put_users_permissions (without_permission permissionId (users_permissions d)) d) ;;
  match Error result with
  | Some e =>
      ret (Some (errors_Wrap e "unable to delete user permissions from database"))
  | None =>
  result <- gorm_Exec (fun d => d) ;;
  match Error result with
  | Some e =>
      ret (Some (errors_Wrap e "unable to delete group permissions from database"))
  | None =>
  result <- gorm_Exec (fun d =>
    put_clients_permissions (without_permission permissionId (clients_permissions d)) d) ;;
  match Error result with
  | Some e =>
      ret (Some (errors_Wrap e "unable to delete client permissions from database"))
  | None =>
  result <- gorm_Delete Permissions (fun p => Permission_Id p =? permissionId) ;;
  match Error result with
  | Some e => ret (Some (errors_Wrap e "unable to delete permission from database"))
  | None => ret None
  end end end end.

Definition DeleteResource (resourceId : uint) : M (option error) :=
  '(permissions, err) <- GetResourcePermissions resourceId ;;
  match err with
  | Some e => ret (Some e)
  | None =>
      err <- for_range (match permissions with Some l => l | None => [] end)
               (fun permission => DeletePermission (Permission_Id permission)) ;;
      match err with
      | Some e => ret (Some e)
      | None =>
          result <- gorm_Delete Resources (fun r => Resource_Id r =? resourceId) ;;
          match Error result with
          | Some e => ret (Some (errors_Wrap e "unable to delete resource from database"))
          | None => ret None
          end
      end
  end.

Definition GetAllRoles : M (option (list Role) * option error) :=
  '(result, roles) <- gorm_Find Roles (@plain Role) (fun _ => true) ;;
  match failed result with
  | Some e => ret (None, Some (errors_Wrap e "unable to fetch roles from database"))
  | None =>
      if RowsAffected result =? 0 then ret (Some [], None)
      else ret (Some roles, None)
  end.

Definition GetRoleById (id : uint) : M (option Role * option error) :=
  '(result, role) <-
     gorm_First Roles (@plain Role) (fun r => Role_Id r =? id) Asc zero_Role ;;
  match failed result with
  | Some e => ret (None, Some (errors_Wrap e "unable to fetch role from database"))
  | None =>
      if RowsAffected result =? 0 then ret (None, None)
      else ret (Some role, None)
  end.

Definition GetRoleByRoleIdentifier (roleIdentifier : string)
    : M (option Role * option error) :=
  '(result, role) <-
     gorm_First Roles (@plain Role)
       (fun r => Role_RoleIdentifier r =? roleIdentifier)%string Asc zero_Role ;;
  match failed result with
  | Some e => ret (None, Some (errors_Wrap e "unable to fetch role from database"))
  | None =>
      if RowsAffected result =? 0 then ret (None, None)
      else ret (Some role, None)
  end.

Definition UpdateRole (role : Role) : M (option Role * option error) :=
  '(result, role) <- gorm_Save Roles no_before no_after role ;;
  match Error result with
  | Some e => ret (None, Some (errors_Wrap e "unable to update role in database"))
  | None => ret (Some role, None)
  end.

Definition CreateResource (resource : Resource) : M (option Resource * option error) :=
  '(result, resource) <- gorm_Create Resources no_before no_after resource ;;
  match Error result with
  | Some e => ret (None, Some (errors_Wrap e "unable to create resource in database"))
  | None => ret (Some resource, None)
  end.

Definition CreateRole (role : Role) : M (option Role * option error) :=
  '(result, role) <- gorm_Create Roles no_before no_after role ;;
  match Error result with
  | Some e => ret (None, Some (errors_Wrap e "unable to create role in database"))
  | None => ret (Some role, None)
  end.

(** [Model(&user).Association("Roles")]: a role that is not stored yet is
    inserted, and the pair goes to the join table [users_roles] unless it is
    there. *)
Definition AddUserToRole (user : User) (role : Role) : M (option error) :=
  f <- driver ;;
  match f with
  | Some e => ret (Some (errors_Wrap e "unable to append user to role in database"))
  | None =>
      modify_db (fun d =>
        let '(d1, role1) :=
          if (Role_Id role =? 0)
             || negb (existsb (fun x => Role_Id x =? Role_Id role) (roles d))
          then insert Roles role d else (d, role) in
        if existsb (fun j => (fst j =? User_Id user) && (snd j =? Role_Id role1))
                   (users_roles d1)
        then d1
        else put_users_roles (users_roles d1 ++ [(User_Id user, Role_Id role1)]) d1) ;;;
      ret None
  end.

Definition RemoveUserFromRole (user : User) (role : Role) : M (option error) :=
  f <- driver ;;
  match f with
  | Some e => ret (Some (errors_Wrap e "unable to remove user from role in database"))
  | None =>
      modify_db (fun d =>
        put_users_roles
          (filter (fun j => negb ((fst j =? User_Id user) && (snd j =? Role_Id role)))
                  (users_roles d)) d) ;;;
      ret None
  end.

(** ** What the sources call outside the repository

    Configuration ([viper]), the random source ([securecookie], [uuid],
    [lib.GenerateSecureRandomString], RSA key generation) and the
    cryptographic helpers of package [lib] are not in the sources.  They are
    the fields of [Externals]; a generator takes the index of the draw it is
    given by [draw]. *)

Definition PrivateKey := bytes.
Definition PublicKey := bytes.

Record Externals := {
  viper_GetString : string -> string;
  lib_GetBaseUrl : string;
  securecookie_GenerateRandomKey : nat -> nat -> bytes;
  lib_GenerateSecureRandomString : nat -> nat -> string;
  uuid_New : nat -> string;
  lib_EncryptText : string -> bytes -> bytes * option error;
  lib_DecryptText : bytes -> bytes -> string * option error;
  lib_HashPassword : string -> string * option error;
  lib_HashString : string -> string * option error;
  lib_GeneratePrivateKey : nat -> nat -> option PrivateKey * option error;
  PrivateKey_PublicKey : PrivateKey -> PublicKey;
  lib_EncodePrivateKeyToPEM : PrivateKey -> bytes;
  x509_MarshalPKIXPublicKey : PublicKey -> bytes * option error;
  pem_EncodeToMemory : string -> bytes -> bytes;
  lib_MarshalRSAPublicKeyToJWK : PublicKey -> string -> bytes * option error }.

(** [errors.Is(err, gorm.ErrRecordNotFound)]. *)
Fixpoint errors_Is_ErrRecordNotFound (e : error) : bool :=
  match e with
  | ErrRecordNotFound => true
  | errors_Wrap cause _ => errors_Is_ErrRecordNotFound cause
  | _ => false
  end.

Definition isDbEmpty : M bool :=
  '(result, _) <-
     gorm_First SettingsT (@plain Settings) (fun _ => true) Asc zero_Settings ;;
  match Error result with
  | Some err => ret (errors_Is_ErrRecordNotFound err)
  | None => ret false
  end.

(** [AutoMigrate] creates the tables; it changes no row. *)
Definition migrate : M (option error) :=
  f <- driver ;;
  match f with
  | Some err => ret (Some (errors_Wrap err "unable to migrate entities"))
  | None => ret None
  end.

Definition defaultAdminEmail : string := "admin@example.com".
Definition defaultAdminPassword : string := "admin123".

Section Boot.
Variable X : Externals.

Definition GenerateRandomKey (length : nat) : M bytes :=
  n <- draw ;; ret (securecookie_GenerateRandomKey X n length).

Definition GenerateSecureRandomString (length : nat) : M string :=
  n <- draw ;; ret (lib_GenerateSecureRandomString X n length).

Definition uuid_New_String : M string :=
  n <- draw ;; ret (uuid_New X n).

Definition GeneratePrivateKey (bits : nat) : M (option PrivateKey * option error) :=
  n <- draw ;; ret (lib_GeneratePrivateKey X n bits).

(** The block of [seed] that builds one key pair in the given state and
    stores it; [seed] has it twice, for [current] and for [next].
    The result of [Create] is not looked at. *)
Definition seed_key_pair (state : KeyState) : M (option error) :=
  '(privateKey, err) <- GeneratePrivateKey 4096 ;;
  match err with
  | Some e => ret (Some (errors_Wrap e "unable to generate a private key"))
  | None =>
  match privateKey with
  | None => panic "invalid memory address or nil pointer dereference"
  | Some privateKey =>
  let privateKeyPEM := lib_EncodePrivateKeyToPEM X privateKey in
  let '(publicKeyASN1_DER, err) :=
    x509_MarshalPKIXPublicKey X (PrivateKey_PublicKey X privateKey) in
  match err with
  | Some e => ret (Some (errors_Wrap e "unable to marshal public key to PKIX"))
  | None =>
  let publicKeyPEM := pem_EncodeToMemory X "RSA PUBLIC KEY" publicKeyASN1_DER in
  kid <- uuid_New_String ;;
  let '(publicKeyJWK, err) :=
    lib_MarshalRSAPublicKeyToJWK X (PrivateKey_PublicKey X privateKey) kid in
  match err with
  | Some e => ret (Some e)
  | None =>
  let keyPair :=
    {| KeyPair_Id := 0;
       KeyPair_State := KeyState_String state;
       KeyPair_KeyIdentifier := kid;
       KeyPair_Type := "RSA";
       KeyPair_Algorithm := "RS256";
       KeyPair_PrivateKeyPEM := privateKeyPEM;
       KeyPair_PublicKeyPEM := publicKeyPEM;
       KeyPair_PublicKeyASN1_DER := publicKeyASN1_DER;
       KeyPair_PublicKeyJWK := publicKeyJWK |} in
  gorm_Create KeyPairs no_before no_after keyPair ;;;
  ret None
  end end end end.

Definition seed : M (option error) :=
  empty <- isDbEmpty ;;
  if empty then
    encryptionKey <- GenerateRandomKey 32 ;;

    clientSecret <- GenerateSecureRandomString 60 ;;
    let '(clientSecretEncrypted, _) := lib_EncryptText X clientSecret encryptionKey in

    let client1 :=
      {| Client_Id := 0;
         Client_ClientIdentifier := "system-website";
         Client_Description := "Website client (system-level)";
         Client_Enabled := true;
         Client_ConsentRequired := false;
         Client_IsPublic := false;
         Client_AuthorizationCodeEnabled := true;
         Client_DefaultAcrLevel := AcrLevel2;
         Client_ClientCredentialsEnabled := false;
         Client_ClientSecretEncrypted := clientSecretEncrypted;
         Client_RedirectURIs :=
           [ {| RedirectURI_Id := 0;
                RedirectURI_URI := lib_GetBaseUrl X ++ "/auth/callback";
                RedirectURI_ClientId := 0 |} ];
         Client_Permissions := [] |} in
    gorm_Create Clients no_before after_Client client1 ;;;

    let adminEmail := viper_GetString X "AdminEmail" in
    let adminEmail :=
      if Nat.eqb (String.length adminEmail) 0 then defaultAdminEmail else adminEmail in

    let adminPassword := viper_GetString X "AdminPassword" in
    let adminPassword :=
      if Nat.eqb (String.length adminPassword) 0 then defaultAdminPassword
      else adminPassword in

    let '(passwordHash, _) := lib_HashPassword X adminPassword in

    subject <- uuid_New_String ;;
    let user :=
      {| User_Id := 0;
         User_Subject := subject;
         User_Username := "";
         User_Email := adminEmail;
         User_EmailVerified := true;
         User_PasswordHash := passwordHash;
         User_Enabled := true;
         User_OTPEnabled := false;
         User_OTPSecret := "";
         User_Permissions := [] |} in

    let resource :=
      {| Resource_Id := 0;
         Resource_ResourceIdentifier := "authserver";
         Resource_Description := "Authorization server (system-level)" |} in
    '(_, resource) <- gorm_Create Resources no_before no_after resource ;;

    let permission1 :=
      {| Permission_Id := 0;
         Permission_PermissionIdentifier := "account";
         Permission_Description :=
           "View and update user account data for the current user";
         Permission_ResourceId := 0;
         Permission_Resource := Some resource |} in
    '(_, permission1) <- gorm_Create Permissions before_Permission no_after permission1 ;;

    let permission2 :=
      {| Permission_Id := 0;
         Permission_PermissionIdentifier := "admin-website";
         Permission_Description :=
           "Manage the authorization server settings via the web interface";
         Permission_ResourceId := 0;
         Permission_Resource := Some resource |} in
    '(_, permission2) <- gorm_Create Permissions before_Permission no_after permission2 ;;

    let user := set_User_Permissions [permission1; permission2] user in
    gorm_Create Users no_before after_User user ;;;

    let permission3 :=
      {| Permission_Id := 0;
         Permission_PermissionIdentifier := "admin-rest-api";
         Permission_Description :=
           "Manage the authorization server settings via the REST API";
         Permission_ResourceId := 0;
         Permission_Resource := Some resource |} in
    gorm_Create Permissions before_Permission no_after permission3 ;;;

    (* key pair (current) *)
    err <- seed_key_pair KeyStateCurrent ;;
    match err with
    | Some e => ret (Some e)
    | None =>
    (* key pair (next) *)
    err <- seed_key_pair KeyStateNext ;;
    match err with
    | Some e => ret (Some e)
    | None =>
    sessionAuthenticationKey <- GenerateRandomKey 64 ;;
    sessionEncryptionKey <- GenerateRandomKey 32 ;;
    let settings :=
      {| Settings_Id := 0;
         Settings_AppName := "Goiabada";
         Settings_Issuer := "https://goiabada.dev";
         Settings_SelfRegistrationEnabled := true;
         Settings_SelfRegistrationRequiresEmailVerification := true;
         Settings_PasswordPolicy := PasswordPolicyLow;
         Settings_SessionAuthenticationKey := sessionAuthenticationKey;
         Settings_SessionEncryptionKey := sessionEncryptionKey;
         Settings_AESEncryptionKey := encryptionKey;
         Settings_TokenExpirationInSeconds := 300;
         Settings_UserSessionIdleTimeoutInSeconds := 1800;
         Settings_UserSessionMaxLifetimeInSeconds := 86400 |} in
    gorm_Create SettingsT no_before no_after settings ;;;
    ret None
    end end
  else ret None.

(** [NewDatabase] after the connection is open: migrate, then seed. *)
Definition NewDatabase : M (option error) :=
  err <- migrate ;;
  match err with
  | Some e => ret (Some e)
  | None => seed
  end.

(** [getClientSecret] of the integration tests: the stored secret of a
    client, decrypted with the AES key of the settings.  The test fails on
    an error; a nil client or nil settings is a nil dereference. *)
Definition getClientSecret (clientIdentifier : string) : M (option string) :=
  '(client, err) <- GetClientByClientIdentifier clientIdentifier ;;
  match err with
  | Some _ => ret None  (* t.Fatal(err) *)
  | None =>
  '(settings, err) <- GetSettings ;;
  match err with
  | Some _ => ret None
  | None =>
  match client, settings with
  | Some client, Some settings =>
      let '(secret, err) :=
        lib_DecryptText X (Client_ClientSecretEncrypted client)
          (Settings_AESEncryptionKey settings) in
      match err with
      | Some _ => ret None
      | None => ret (Some secret)
      end
  | _, _ => panic "invalid memory address or nil pointer dereference"
  end end end.
End Boot.

(** ** Helpers of the integration tests ([common.go])

    A helper ends the test with [t.Fatal] or goes on. *)

Inductive Checked (A : Type) : Type :=
| Went (a : A)
| Fatal (e : error).
Arguments Fatal {A} e.

(** [database.DB.Exec("DELETE FROM user_consents")]. *)
Definition deleteAllUserConsents : M (Checked unit) :=
  result <- gorm_Exec (put_user_consents []) ;;
  match Error result with
  | Some err => ret (Fatal err)
  | None => ret (Went tt)
  end.

(** [now] is what [time.Now().UTC()] gives. *)
Definition grantConsent (now : N) (clientIdentifier email scope : string)
    : M (Checked unit) :=
  '(client, err) <- GetClientByClientIdentifier clientIdentifier ;;
  match err with
  | Some err => ret (Fatal err)
  | None =>
  match client with
  | None =>
      ret (Fatal (errors_New ("can't grant consent because client " ++ clientIdentifier
                              ++ " does not exist")))
  | Some client =>
  '(user, err) <- GetUserByEmail email ;;
  match err with
  | Some err => ret (Fatal err)
  | None =>
  match user with
  | None =>
      ret (Fatal (errors_New ("can't grant consent because user " ++ email
                              ++ " does not exist")))
  | Some user =>
  let consent :=
    {| UserConsent_Id := 0;
       UserConsent_ClientId := Client_Id client;
       UserConsent_UserId := User_Id user;
       UserConsent_Scope := scope;
       UserConsent_GrantedAt := now;
       UserConsent_Client := zero_Client;
       UserConsent_User := zero_User |} in
  '(result, _) <- gorm_Create UserConsents no_before no_after consent ;;
  match Error result with
  | Some err => ret (Fatal err)
  | None => ret (Went tt)
  end end end end end.

(** Here [ErrRecordNotFound] ends the test like any other error. *)
Definition getAnyUserWithOtpDisabled : M (Checked User) :=
  '(result, user) <-
     gorm_First Users preload_User
       (fun u => Bool.eqb (User_Enabled u) true && Bool.eqb (User_OTPEnabled u) false)
       Desc zero_User ;;
  match Error result with
  | Some err => ret (Fatal err)
  | None => ret (Went user)
  end.

(** ** The routes ([initRoutes]) *)

(** A handler as it is registered: its name, and whether [withJwt] wraps
    it. *)
Record Handler := { handler_name : string; behind_jwt : bool }.

Definition handler (name : string) : Handler :=
  {| handler_name := name; behind_jwt := false |}.

(** [MiddlewareJwt] around the handler. *)
Definition withJwt (handlerFunc : Handler) : Handler :=
  {| handler_name := handler_name handlerFunc; behind_jwt := true |}.

Inductive Method := GET | POST.

Record Route := { Route_Method : Method; Route_Pattern : string; Route_Handler : Handler }.

Definition router_Get (pattern : string) (h : Handler) : Route :=
  {| Route_Method := GET; Route_Pattern := pattern; Route_Handler := h |}.

Definition router_Post (pattern : string) (h : Handler) : Route :=
  {| Route_Method := POST; Route_Pattern := pattern; Route_Handler := h |}.

(** [router.Route(pattern, fn)]: the routes that [fn] registers, under
    [pattern]. *)
Definition router_Route (pattern : string) (fn : list Route) : list Route :=
  map (fun r => {| Route_Method := Route_Method r;
                   Route_Pattern := pattern ++ Route_Pattern r;
                   Route_Handler := Route_Handler r |}) fn.

Definition initRoutes : list Route :=
  [ router_Get "/" (handler "handleIndexGet");
    router_Get "/unauthorized" (handler "handleUnauthorizedGet");
    router_Get "/forgot-password" (handler "handleForgotPasswordGet");
    router_Post "/forgot-password" (handler "handleForgotPasswordPost");
    router_Get "/reset-password" (handler "handleResetPasswordGet");
    router_Post "/reset-password" (handler "handleResetPasswordPost") ]
  ++
  router_Route "/auth"
    [ router_Get "/authorize" (handler "handleAuthorizeGet");
      router_Get "/pwd" (handler "handleAuthPwdGet");
      router_Post "/pwd" (handler "handleAuthPwdPost");
      router_Get "/otp" (handler "handleAuthOtpGet");
      router_Post "/otp" (handler "handleAuthOtpPost");
      router_Get "/consent" (handler "handleConsentGet");
      router_Post "/consent" (handler "handleConsentPost");
      router_Post "/token" (handler "handleTokenPost");
      router_Post "/callback" (handler "handleAuthCallbackPost");
      router_Get "/logout" (handler "handleAccountLogoutGet") ]
  ++
  router_Route "/account"
    [ router_Get "/" (handler "http.Redirect /account/profile");
      router_Get "/profile" (withJwt (handler "handleAccountProfileGet"));
      router_Post "/profile" (withJwt (handler "handleAccountProfilePost"));
      router_Get "/email" (withJwt (handler "handleAccountEmailGet"));
      router_Post "/email" (withJwt (handler "handleAccountEmailPost"));
      router_Post "/email-send-verification"
        (withJwt (handler "handleAccountEmailSendVerificationPost"));
      router_Get "/email-verify" (withJwt (handler "handleAccountEmailVerifyGet"));
      router_Get "/address" (withJwt (handler "handleAccountAddressGet"));
      router_Post "/address" (withJwt (handler "handleAccountAddressPost"));
      router_Get "/phone" (withJwt (handler "handleAccountPhoneGet"));
      router_Post "/phone" (withJwt (handler "handleAccountPhonePost"));
      router_Post "/phone-send-verification"
        (withJwt (handler "handleAccountPhoneSendVerificationPost"));
      router_Get "/phone-verify" (withJwt (handler "handleAccountPhoneVerifyGet"));
      router_Post "/phone-verify" (withJwt (handler "handleAccountPhoneVerifyPost"));
      router_Get "/change-password" (withJwt (handler "handleAccountChangePasswordGet"));
      router_Post "/change-password" (withJwt (handler "handleAccountChangePasswordPost"));
      router_Get "/otp" (withJwt (handler "handleAccountOtpGet"));
      router_Post "/otp" (withJwt (handler "handleAccountOtpPost"));
      router_Get "/manage-consents" (withJwt (handler "handleAccountManageConsentsGet"));
      router_Post "/manage-consents"
        (withJwt (handler "handleAccountManageConsentsRevokePost"));
      router_Get "/sessions" (withJwt (handler "handleAccountSessionsGet"));
      router_Post "/sessions" (withJwt (handler "handleAccountSessionsEndSesssionPost"));
      router_Get "/register" (handler "handleAccountRegisterGet");
      router_Post "/register" (handler "handleAccountRegisterPost");
      router_Get "/activate" (handler "handleAccountActivateGet") ]
  ++
  router_Route "/admin"
    [ router_Get "/clients" (withJwt (handler "handleAdminClientsGet"));
      router_Get "/clients/{clientID}/settings"
        (withJwt (handler "handleAdminClientManageSettingsGet"));
      router_Post "/clients/{clientID}/settings"
        (withJwt (handler "handleAdminClientManageSettingsPost"));
      router_Get "/clients/{clientID}/authentication"
        (withJwt (handler "handleAdminClientManageAuthenticationGet"));
      router_Post "/clients/{clientID}/authentication"
        (withJwt (handler "handleAdminClientManageAuthenticationPost"));
      router_Get "/clients/{clientID}/oauth2-flows"
        (withJwt (handler "handleAdminClientManageOAuth2Get"));
      router_Post "/clients/{clientID}/oauth2-flows"
        (withJwt (handler "handleAdminClientManageOAuth2Post"));
      router_Get "/clients/{clientID}/redirect-uris"
        (withJwt (handler "handleAdminClientManageRedirectURIsGet"));
      router_Post "/clients/{clientID}/redirect-uris"
        (withJwt (handler "handleAdminClientManageRedirectURIsPost"));
      router_Get "/clients/{clientID}/permissions"
        (withJwt (handler "handleAdminClientManagePermissionsGet"));
      router_Post "/clients/{clientID}/permissions"
        (withJwt (handler "handleAdminClientManagePermissionsPost"));
      router_Get "/clients/generate-new-secret"
        (withJwt (handler "handleGenerateNewSecretGet"));
      router_Get "/clients/get-permissions" (withJwt (handler "handlePermissionsGet"));
      router_Get "/clients/{clientID}/delete"
        (withJwt (handler "handleAdminClientsDeleteGet"));
      router_Post "/clients/{clientID}/delete"
        (withJwt (handler "handleAdminClientsDeletePost"));
      router_Get "/clients/new" (withJwt (handler "handleAdminClientsAddNewGet"));
      router_Post "/clients/new" (withJwt (handler "handleAdminClientsAddNewPost"));

      router_Get "/resources" (withJwt (handler "handleAdminResourcesGet"));
      router_Get "/resources/{resourceID}/settings"
        (withJwt (handler "handleAdminResourceManageSettingsGet"));
      router_Post "/resources/{resourceID}/settings"
        (withJwt (handler "handleAdminResourceManageSettingsPost"));
      router_Get "/resources/{resourceID}/permissions"
        (withJwt (handler "handleAdminResourceManagePermissionsGet"));
      router_Post "/resources/{resourceID}/permissions"
        (withJwt (handler "handleAdminResourceManagePermissionsPost"));
      router_Post "/resources/validate-permission"
        (withJwt (handler "handleValidatePermissionPost"));
      router_Get "/resources/{resourceID}/delete"
        (withJwt (handler "handleAdminResourcesDeleteGet"));
      router_Post "/resources/{resourceID}/delete"
        (withJwt (handler "handleAdminResourcesDeletePost"));
      router_Get "/resources/new" (withJwt (handler "handleAdminResourcesAddNewGet"));
      router_Post "/resources/new" (withJwt (handler "handleAdminResourcesAddNewPost"));

      router_Get "/roles" (withJwt (handler "handleAdminRolesGet"));
      router_Get "/roles/{roleID}/settings"
        (withJwt (handler "handleAdminRoleManageSettingsGet"));
      router_Post "/roles/{roleID}/settings"
        (withJwt (handler "handleAdminRoleManageSettingsPost"));
      router_Get "/roles/{roleID}/users-in-role"
        (withJwt (handler "handleAdminRoleManageUsersInRoleGet"));
      router_Get "/roles/{roleID}/users-in-role/add"
        (withJwt (handler "handleAdminRoleManageUsersInRoleAddGet"));
      router_Post "/roles/{roleID}/users-in-role/add"
        (withJwt (handler "handleAdminRoleManageUsersInRoleAddPost"));
      router_Get "/roles/{roleID}/users-in-role/search"
        (withJwt (handler "handleAdminRoleManageUsersInRoleSearchGet")) ].

(** ** The logout handler ([handleAccountLogoutGet]) *)

(** What the handler reads from a request: the outcome of decoding the
    cookie session ([sessionStore.Get]), the session identifier that the
    middleware left in the request context, the query parameters, the
    subject of the logged-in user ([getLoggedInSubject]), and the outcome of
    writing the cookie back ([sess.Save]). *)
Record Request := {
  sessionStore_Get : list (string * string) * option error;
  ContextKeySessionIdentifier : option string;
  URL_Query : list (string * string);
  getLoggedInSubject : string;
  sess_Save : option error }.

Definition StatusFound : nat := 302.

Inductive Response :=
| internalServerError (err : error)
| http_Redirect (url : string) (code : nat).

(** The response, and the values of the cookie session when it was
    written. *)
Record Reply := {
  response : Response;
  saved_session : option (list (string * string)) }.

Section Handlers.
Variable X : Externals.

Definition handleAccountLogoutGet (r : Request) : M Reply :=
  let fail err := ret {| response := internalServerError err; saved_session := None |} in
  let '(sess, err) := sessionStore_Get r in
  match err with
  | Some err => fail err
  | None =>
  let sessionIdentifier :=
    match ContextKeySessionIdentifier r with
    | Some v => v
    | None => ""
    end in
  let userId := 0 in
  step <-
    (if Nat.ltb 0 (String.length sessionIdentifier) then
       '(userSession, err) <- GetUserSessionBySessionIdentifier sessionIdentifier ;;
       match err with
       | Some err => ret (inl err)
       | None =>
           match userSession with
           | Some userSession =>
               err <- DeleteUserSession (UserSession_Id userSession) ;;
               match err with
               | Some err => ret (inl err)
               | None =>
                   LogAudit (AuditDeletedUserSession
                               (UserSession_UserId userSession)
                               (UserSession_Id userSession)
                               (getLoggedInSubject r)) ;;;
                   ret (inr (UserSession_UserId userSession))
               end
           | None => ret (inr userId)
           end
       end
     else ret (inr userId)) ;;
  match step with
  | inl err => fail err
  | inr userId =>
  (* clear the session state *)
  let sess : list (string * string) := [] in
  match sess_Save r with
  | Some err => fail err
  | None =>
  (if 0 <? userId
   then LogAudit (AuditLogout userId (getLoggedInSubject r))
   else ret tt) ;;;
  ret {| response := http_Redirect (lib_GetBaseUrl X ++ "/account/profile") StatusFound;
         saved_session := Some sess |}
  end end end.
End Handlers.

(** ** The authorization code at the two ends of its life

    The Code Issuer ([core_authorize.CodeIssuer]), the token handler and
    the repository method [GetCodeByCodeHash] are not in the sources; the
    integration tests call the last one.  The three definitions below follow
    the design document. *)

Inductive ResponseMode := response_mode_query | response_mode_fragment.

(** The validated authorize request and the session it is served under, as
    they reach [issue_code]. *)
Record AuthContext := {
  AuthContext_ClientId : uint;
  AuthContext_UserId : uint;
  AuthContext_Scope : string;
  AuthContext_RedirectURI : string;
  AuthContext_CodeChallenge : string;
  AuthContext_CodeChallengeMethod : string;
  AuthContext_Nonce : string;
  AuthContext_State : string;
  AuthContext_AcrLevel : string;
  AuthContext_AuthMethods : string;
  AuthContext_ResponseMode : ResponseMode }.

(** A 302 to the client: the registered redirect URI and the parameters
    added to it, in the query or in the fragment. *)
Record AuthorizeRedirect := {
  redirect_to : string;
  response_mode : ResponseMode;
  params : list (string * string) }.

(** [url.Values.Get]: the first value of the key, or the empty string. *)
Fixpoint url_Values_Get (key : string) (vs : list (string * string)) : string :=
  match vs with
  | [] => ""
  | (k, v) :: rest => if (k =? key)%string then v else url_Values_Get key rest
  end.

(** [redirectLocation.Query()]: the parameters of the query part. *)
Definition Query (rd : AuthorizeRedirect) : list (string * string) :=
  match response_mode rd with
  | response_mode_query => params rd
  | response_mode_fragment => []
  end.

(** [getCodeAndStateFromUrl] of the integration tests, which goes on to
    assert that the code has 128 characters. *)
Definition getCodeAndStateFromUrl (rd : AuthorizeRedirect) : string * string :=
  (url_Values_Get "code" (Query rd), url_Values_Get "state" (Query rd)).

(** Modelled from the spec: the repository method [GetCodeByCodeHash]
    ("Codes: get-by-hash (only if not used)"), in the shape of [GetCode]. *)
Definition GetCodeByCodeHash (codeHash : string) (used : bool)
    : M (option Code * option error) :=
  '(result, c) <-
     gorm_First Codes preload_Code
       (fun c => (Code_CodeHash c =? codeHash)%string && Bool.eqb (Code_Used c) used)
       Asc zero_Code ;;
  match failed result with
  | Some e => ret (None, Some (errors_Wrap e "unable to fetch code from database"))
  | None =>
      if RowsAffected result =? 0 then ret (None, None)
      else ret (Some c, None)
  end.

Section AuthorizationCode.
Variable X : Externals.

(** Modelled from the spec: the Code Issuer (section 4.3, "On reaching
    issue_code"): a 128-character random code, stored as its SHA-256 with
    the fields of the request, never as plaintext, expiring after 60
    seconds, and a redirect that carries [code] and [state] in the chosen
    response mode. *)
Definition IssueCode (ctx : AuthContext) (now : N)
    : M (option AuthorizeRedirect * option error) :=
  code <- GenerateSecureRandomString X 128 ;;
  let '(codeHash, err) := lib_HashString X code in
  match err with
  | Some e => ret (None, Some e)
  | None =>
  let row :=
    {| Code_Id := 0;
       Code_Code := "";
       Code_CodeHash := codeHash;
       Code_ClientId := AuthContext_ClientId ctx;
       Code_UserId := AuthContext_UserId ctx;
       Code_Scope := AuthContext_Scope ctx;
       Code_State := AuthContext_State ctx;
       Code_Nonce := AuthContext_Nonce ctx;
       Code_AcrLevel := AuthContext_AcrLevel ctx;
       Code_AuthMethods := AuthContext_AuthMethods ctx;
       Code_RedirectURI := AuthContext_RedirectURI ctx;
       Code_CodeChallenge := AuthContext_CodeChallenge ctx;
       Code_CodeChallengeMethod := AuthContext_CodeChallengeMethod ctx;
       Code_IssuedAt := now;
       Code_ExpiresAt := now + 60;
       Code_Used := false;
       Code_Client := zero_Client;
       Code_User := zero_User |} in
  '(_, err) <- CreateCode row ;;
  match err with
  | Some e => ret (None, Some e)
  | None =>
  ret (Some {| redirect_to := AuthContext_RedirectURI ctx;
               response_mode := AuthContext_ResponseMode ctx;
               params := [("code", code); ("state", AuthContext_State ctx)] |},
       None)
  end end.

(** The lookup of a presented code, as the integration tests do it and as
    section 4.4 words it: by [SHA-256(presented_code)] and [used = false]. *)
Definition lookup_presented_code (presented : string)
    : M (option Code * option error) :=
  let '(codeHash, err) := lib_HashString X presented in
  match err with
  | Some e => ret (None, Some e)
  | None => GetCodeByCodeHash codeHash false
  end.

(** Modelled from the spec: what the [authorization_code] grant of the
    token endpoint does to the [codes] table (section 4.4): the lookup
    above, then the code is marked used. *)
Definition ExchangeCode (presented : string) : M (option Code * option error) :=
  '(code, err) <- lookup_presented_code presented ;;
  match err with
  | Some e => ret (None, Some e)
  | None =>
      match code with
      | None => ret (None, None)   (* invalid_grant *)
      | Some code => UpdateCode (set_Code_Used true code)
      end
  end.
End AuthorizationCode.

(** ** The registration form of the frontend

    The view with the fields [email], [password] and [confirmPassword],
    validated by Vuelidate. *)

Record Register := {
  Register_email : string;
  Register_password : string;
  Register_confirmPassword : string }.

(** The validators that the view imports from [@vuelidate/validators]; the
    library is not in the sources. *)
Record Vuelidate := {
  validators_required : string -> bool;
  validators_email : string -> bool;
  validators_minLength : nat -> string -> bool;
  validators_sameAs : string -> string -> bool }.

(** [helpers.withMessage(message, validator)]. *)
Definition withMessage (message : string) (validator : string -> bool)
    : string * (string -> bool) :=
  (message, validator).

(** [reactive<Register>({ email: "", password: "", confirmPassword: "" })],
    as [script setup] creates it. *)
Definition formValues : Register :=
  {| Register_email := ""; Register_password := ""; Register_confirmPassword := "" |}.

(** The object [validators] of the view.  It is built once, when [script
    setup] runs: [sameAs(formValues.password)] is given the string that the
    field holds at that time. *)
Definition validators (V : Vuelidate)
    : list ((Register -> string) * list (string * (string -> bool))) :=
  [ (Register_email,
     [ withMessage "Email is required" (validators_required V);
       withMessage "Email is not valid" (validators_email V) ]);
    (Register_password,
     [ withMessage "Password is required" (validators_required V);
       withMessage "Password must be at least 6 characters" (validators_minLength V 6) ]);
    (Register_confirmPassword,
     [ withMessage "Confirm password is required" (validators_required V);
       withMessage "Confirm password must be at least 6 characters"
         (validators_minLength V 6);
       withMessage "Passwords must match"
         (validators_sameAs V (Register_password formValues)) ]) ].

(** [$v.$invalid] for the values [f] of the form: some validator of some
    field rejects the value of the field.  The submit button is disabled
    while it holds. *)
Definition v_invalid (V : Vuelidate) (f : Register) : bool :=
  existsb
    (fun field =>
       existsb (fun validator => negb (snd validator (fst field f))) (snd field))
    (validators V).

(** What the library documents of two of its validators: [required] rejects
    the empty string, and [sameAs(x)] accepts only [x]. *)
Definition vuelidate_contract (V : Vuelidate) : Prop :=
  validators_required V "" = false /\
  (forall x v, validators_sameAs V x v = true -> v = x).

(** Validators with that behaviour. *)
Definition sampleVuelidate : Vuelidate :=
  {| validators_required := fun v => negb (v =? "")%string;
     validators_email := fun v => existsb (Ascii.eqb "@"%char) (list_ascii_of_string v);
     validators_minLength := fun n v => Nat.leb n (String.length v);
     validators_sameAs := fun x v => (v =? x)%string |}.

(** ** A concrete collaborator

    One instance of [Externals], used to run the definitions on concrete
    inputs: a counter-based random source, and stand-ins for the
    cryptographic helpers that keep their contracts (decryption inverts
    encryption, digests have a fixed length, draws of the identifier source
    differ). *)

Definition rev_bytes_of_string (s : string) : bytes := rev (list_byte_of_string s).
Definition string_of_rev_bytes (b : bytes) : string := string_of_list_byte (rev b).

Fixpoint replicate (n : nat) (c : ascii) : string :=
  match n with
  | O => EmptyString
  | S n' => String c (replicate n' c)
  end.

Definition sampleExternals (adminEmail adminPassword : string) : Externals :=
  {| viper_GetString := fun key =>
       if (key =? "AdminEmail")%string then adminEmail
       else if (key =? "AdminPassword")%string then adminPassword
       else "";
     lib_GetBaseUrl := "https://auth.example";
     securecookie_GenerateRandomKey := fun n len => repeat (Byte.x2a) len;
     lib_GenerateSecureRandomString := fun n len => replicate len "k"%char;
     uuid_New := fun n => replicate (S n) "u"%char;
     lib_EncryptText := fun text key => (rev_bytes_of_string text, None);
     lib_DecryptText := fun data key => (string_of_rev_bytes data, None);
     lib_HashPassword := fun pw => ("$2a$" ++ pw, None);
     lib_HashString := fun s => (replicate 64 "0"%char, None);
     lib_GeneratePrivateKey := fun n bits => (Some (repeat Byte.x01 (S n)), None);
     PrivateKey_PublicKey := fun k => k;
     lib_EncodePrivateKeyToPEM := fun k => k;
     x509_MarshalPKIXPublicKey := fun k => (k, None);
     pem_EncodeToMemory := fun _ der => der;
     lib_MarshalRSAPublicKeyToJWK := fun k kid => (k, None) |}.

Definition freshWorld (d : Database) : World :=
  {| db := d; faults := []; rng := 0; audit := [] |}.

(** ** The operations that change the database *)

(** One run of a repository mutator, of the logout handler, of the boot
    sequence, or of one end of the authorization-code life cycle. *)
Inductive Op :=
| OpNewDatabase
| OpLogout (r : Request)
| OpIssueCode (ctx : AuthContext) (now : N)
| OpExchangeCode (presented : string)
| OpCreateCode (code : Code)
| OpUpdateCode (code : Code)
| OpUpdateUserSession (userSession : UserSession)
| OpCreateUserSession (userSession : UserSession)
| OpUpdateUser (user : User)
| OpCreateUser (user : User)
| OpDeleteUserConsent (consentId : uint)
| OpDeleteUserSession (userSessionId : uint)
| OpSaveUserConsent (userConsent : UserConsent)
| OpCreatePreRegistration (preRegistration : PreRegistration)
| OpDeletePreRegistration (preRegistrationId : uint)
| OpUpdateClient (client : Client)
| OpCreateClient (client : Client)
| OpDeleteClient (clientId : uint)
| OpCreateRedirectURI (redirectURI : RedirectURI)
| OpDeleteRedirectURI (redirectURIId : uint)
| OpDeleteClientPermission (clientId permissionId : uint)
| OpAddClientPermission (clientId permissionId : uint)
| OpCreateResource (resource : Resource)
| OpUpdateResource (resource : Resource)
| OpDeleteResource (resourceId : uint)
| OpCreatePermission (permission : Permission)
| OpUpdatePermission (permission : Permission)
| OpDeletePermission (permissionId : uint)
| OpCreateRole (role : Role)
| OpUpdateRole (role : Role)
| OpAddUserToRole (user : User) (role : Role)
| OpRemoveUserFromRole (user : User) (role : Role).

Definition ignore {A} (m : M A) : M unit := m ;;; ret tt.

Definition exec (X : Externals) (op : Op) : M unit :=
  match op with
  | OpNewDatabase => ignore (NewDatabase X)
  | OpLogout r => ignore (handleAccountLogoutGet X r)
  | OpIssueCode ctx now => ignore (IssueCode X ctx now)
  | OpExchangeCode presented => ignore (ExchangeCode X presented)
  | OpCreateCode code => ignore (CreateCode code)
  | OpUpdateCode code => ignore (UpdateCode code)
  | OpUpdateUserSession s => ignore (UpdateUserSession s)
  | OpCreateUserSession s => ignore (CreateUserSession s)
  | OpUpdateUser u => ignore (UpdateUser u)
  | OpCreateUser u => ignore (CreateUser u)
  | OpDeleteUserConsent i => ignore (DeleteUserConsent i)
  | OpDeleteUserSession i => ignore (DeleteUserSession i)
  | OpSaveUserConsent c => ignore (SaveUserConsent c)
  | OpCreatePreRegistration p => ignore (CreatePreRegistration p)
  | OpDeletePreRegistration i => ignore (DeletePreRegistration i)
  | OpUpdateClient c => ignore (UpdateClient c)
  | OpCreateClient c => ignore (CreateClient c)
  | OpDeleteClient i => ignore (DeleteClient i)
  | OpCreateRedirectURI r => ignore (CreateRedirectURI r)
  | OpDeleteRedirectURI i => ignore (DeleteRedirectURI i)
  | OpDeleteClientPermission c p => ignore (DeleteClientPermission c p)
  | OpAddClientPermission c p => ignore (AddClientPermission c p)
  | OpCreateResource r => ignore (CreateResource r)
  | OpUpdateResource r => ignore (UpdateResource r)
  | OpDeleteResource i => ignore (DeleteResource i)
  | OpCreatePermission p => ignore (CreatePermission p)
  | OpUpdatePermission p => ignore (UpdatePermission p)
  | OpDeletePermission i => ignore (DeletePermission i)
  | OpCreateRole r => ignore (CreateRole r)
  | OpUpdateRole r => ignore (UpdateRole r)
  | OpAddUserToRole u r => ignore (AddUserToRole u r)
  | OpRemoveUserFromRole u r => ignore (RemoveUserFromRole u r)
  end.

(** One operation, run while the driver behaves as [fs] says. *)
Definition run_op (X : Externals) (op : Op) (fs : list (option string)) (w : World)
    : World :=
  snd (exec X op (with_faults fs w)).

(** The states that a sequence of operations leads to. *)
Inductive reachable (X : Externals) (w0 : World) : World -> Prop :=
| reach_here : reachable X w0 w0
| reach_step w op fs :
    reachable X w0 w -> reachable X w0 (run_op X op fs w).

(** ** The statements of the design document *)

(** The three outcomes of a lookup of one entity.  The statement fails:
    the value is nil and the error is not.  No row matches: both are nil.
    A row matches: the value is that row with its preloads and the error is
    nil.  A value that is not nil is always such a row.  A lookup changes no
    row. *)
Definition tri_state {A} (T : Table A) (load : Database -> A -> A)
    (cond : A -> bool) (m : M (option A * option error)) : Prop :=
  forall w,
    db (snd (m w)) = db w /\
    (forall msg, hd None (faults w) = Some msg ->
       exists e, fst (m w) = Returned (None, Some e)) /\
    (hd None (faults w) = None ->
       (forall x, In x (rows T (db w)) -> cond x = false) ->
       fst (m w) = Returned (None, None)) /\
    (hd None (faults w) = None ->
       (exists x, In x (rows T (db w)) /\ cond x = true) ->
       exists x, In x (rows T (db w)) /\ cond x = true /\
                 fst (m w) = Returned (Some (load (db w) x), None)) /\
    (forall v e, fst (m w) = Returned (Some v, e) ->
       e = None /\
       exists x, In x (rows T (db w)) /\ cond x = true /\ v = load (db w) x).

(** The body that the lookups of one entity share. *)
Definition fetch {A} (T : Table A) (load : Database -> A -> A) (cond : A -> bool)
    (o : Order) (msg : string) : M (option A * option error) :=
  '(result, x) <- gorm_First T load cond o (zero T) ;;
  match failed result with
  | Some e => ret (None, Some (errors_Wrap e msg))
  | None =>
      if RowsAffected result =? 0 then ret (None, None)
      else ret (Some x, None)
  end.

Definition has_state (s : KeyState) (k : KeyPair) : bool :=
  (KeyPair_State k =? KeyState_String s)%string.

Definition count_state (s : KeyState) (d : Database) : nat :=
  length (filter (has_state s) (key_pairs d)).

(** Section 3: exactly one [current] key pair, at most one [next]. *)
Definition key_state_invariant (d : Database) : Prop :=
  count_state KeyStateCurrent d = 1%nat /\ (count_state KeyStateNext d <= 1)%nat.

(** Section 4.1 as worded: whenever exactly one key pair is [current], the
    signing-key lookup returns it. *)
Definition signs_with_current (w : World) : Prop :=
  forall cur,
    In cur (key_pairs (db w)) -> has_state KeyStateCurrent cur = true ->
    count_state KeyStateCurrent (db w) = 1%nat ->
    fst (GetSigningKey w) = Returned (Some cur, None).

(** Section 4.5 as worded: logout removes the session row and revokes the
    refresh tokens issued under the session. *)
Definition logout_terminates_and_revokes (X : Externals) (r : Request) (w : World)
    : Prop :=
  forall sid us,
    ContextKeySessionIdentifier r = Some sid ->
    fst (GetUserSessionBySessionIdentifier sid w) = Returned (Some us, None) ->
    let w' := snd (handleAccountLogoutGet X r w) in
    (forall s, In s (user_sessions (db w')) -> UserSession_Id s <> UserSession_Id us) /\
    (forall t, In t (refresh_tokens (db w')) ->
               RefreshToken_SessionIdentifier t = sid -> RefreshToken_Revoked t = true).

(** Section 6 as worded: a supplied [post_logout_redirect_uri] is where the
    logout response redirects to. *)
Definition redirects_to_post_logout_uri (X : Externals) (r : Request) (w : World)
    : Prop :=
  forall uri,
    In ("post_logout_redirect_uri", uri) (URL_Query r) ->
    exists rp code,
      fst (handleAccountLogoutGet X r w) = Returned rp /\
      response rp = http_Redirect uri code.

(** Section 4.4 as worded: what is stored for a confidential client is the
    bcrypt hash of its secret ([lib.HashPassword]), and the secret does not
    come back by decryption. *)
Definition client_secret_hashed_at_rest (X : Externals) (clientIdentifier secret : string)
    (w : World) : Prop :=
  (forall c, In c (clients (db w)) ->
             Client_ClientIdentifier c = clientIdentifier ->
             Client_ClientSecretEncrypted c
             = list_byte_of_string (fst (lib_HashPassword X secret))) /\
  fst (getClientSecret X clientIdentifier w) <> Returned (Some secret).



(** Section 3 as worded: after an initial seeding, that is a run of [seed]
    on the empty database that returns nil, every state that the operations
    lead to has exactly one [current] key pair and at most one [next]. *)
Definition key_state_invariant_always (X : Externals) (w0 : World) : Prop :=
  forall w1 w,
    db w0 = emptyDatabase ->
    seed X w0 = (Returned None, w1) ->
    reachable X w1 w ->
    key_state_invariant (db w).

(** Contracts of the collaborators that the statements below rest on. *)

Definition keygen_ok (X : Externals) : Prop :=
  (forall n bits, exists k, lib_GeneratePrivateKey X n bits = (Some k, None)) /\
  (forall k, snd (x509_MarshalPKIXPublicKey X k) = None) /\
  (forall k kid, snd (lib_MarshalRSAPublicKeyToJWK X k kid) = None).

Definition uuid_fresh (X : Externals) : Prop :=
  forall n m, uuid_New X n = uuid_New X m -> n = m.

Definition decrypt_inverts_encrypt (X : Externals) : Prop :=
  forall text key,
    snd (lib_EncryptText X text key) = None /\
    lib_DecryptText X (fst (lib_EncryptText X text key)) key = (text, None).

Definition random_string_length (X : Externals) : Prop :=
  forall n len, String.length (lib_GenerateSecureRandomString X n len) = len.

Definition hashing_succeeds (X : Externals) : Prop :=
  forall s, snd (lib_HashString X s) = None.

(** ** Parts of the database that an operation leaves alone *)

(** Running [m] does not change the part [f] of the database. *)
Definition frames {A B} (f : Database -> B) (m : M A) : Prop :=
  forall w, f (db (snd (m w))) = f (db w).

(** [f] does not read the table [T]. *)
Definition apart {A B} (f : Database -> B) (T : Table A) : Prop :=
  forall l d, f (put T l d) = f d.

(** [g] does not change the part [f]. *)
Definition untouched {B} (f : Database -> B) (g : Database -> Database) : Prop :=
  forall d, f (g d) = f d.

(** ** The rows that [seed] writes

    [n] is the number of draws made from the random source before the
    boot. *)

Definition seeded_admin_email (X : Externals) : string :=
  if Nat.eqb (String.length (viper_GetString X "AdminEmail")) 0
  then defaultAdminEmail else viper_GetString X "AdminEmail".

Definition seeded_admin_password (X : Externals) : string :=
  if Nat.eqb (String.length (viper_GetString X "AdminPassword")) 0
  then defaultAdminPassword else viper_GetString X "AdminPassword".

Definition seeded_client (X : Externals) (n : nat) : Client :=
  {| Client_Id := 1;
     Client_ClientIdentifier := "system-website";
     Client_Description := "Website client (system-level)";
     Client_Enabled := true;
     Client_ConsentRequired := false;
     Client_IsPublic := false;
     Client_AuthorizationCodeEnabled := true;
     Client_DefaultAcrLevel := AcrLevel2;
     Client_ClientCredentialsEnabled := false;
     Client_ClientSecretEncrypted :=
       fst (lib_EncryptText X (lib_GenerateSecureRandomString X (1 + n) 60)
              (securecookie_GenerateRandomKey X n 32));
     Client_RedirectURIs := [];
     Client_Permissions := [] |}.

Definition seeded_user (X : Externals) (n : nat) : User :=
  {| User_Id := 1;
     User_Subject := uuid_New X (2 + n);
     User_Username := "";
     User_Email := seeded_admin_email X;
     User_EmailVerified := true;
     User_PasswordHash := fst (lib_HashPassword X (seeded_admin_password X));
     User_Enabled := true;
     User_OTPEnabled := false;
     User_OTPSecret := "";
     User_Permissions := [] |}.

Definition seeded_key_pair (X : Externals) (state : KeyState) (id : uint) (n : nat)
    : KeyPair :=
  let privateKey :=
    match fst (lib_GeneratePrivateKey X n 4096) with
    | Some k => k
    | None => []
    end in
  let der := fst (x509_MarshalPKIXPublicKey X (PrivateKey_PublicKey X privateKey)) in
  {| KeyPair_Id := id;
     KeyPair_State := KeyState_String state;
     KeyPair_KeyIdentifier := uuid_New X (1 + n);
     KeyPair_Type := "RSA";
     KeyPair_Algorithm := "RS256";
     KeyPair_PrivateKeyPEM := lib_EncodePrivateKeyToPEM X privateKey;
     KeyPair_PublicKeyPEM := pem_EncodeToMemory X "RSA PUBLIC KEY" der;
     KeyPair_PublicKeyASN1_DER := der;
     KeyPair_PublicKeyJWK :=
       fst (lib_MarshalRSAPublicKeyToJWK X (PrivateKey_PublicKey X privateKey)
              (uuid_New X (1 + n))) |}.

Definition seeded_settings (X : Externals) (n : nat) : Settings :=
  {| Settings_Id := 1;
     Settings_AppName := "Goiabada";
     Settings_Issuer := "https://goiabada.dev";
     Settings_SelfRegistrationEnabled := true;
     Settings_SelfRegistrationRequiresEmailVerification := true;
     Settings_PasswordPolicy := PasswordPolicyLow;
     Settings_SessionAuthenticationKey := securecookie_GenerateRandomKey X (7 + n) 64;
     Settings_SessionEncryptionKey := securecookie_GenerateRandomKey X (8 + n) 32;
     Settings_AESEncryptionKey := securecookie_GenerateRandomKey X n 32;
     Settings_TokenExpirationInSeconds := 300;
     Settings_UserSessionIdleTimeoutInSeconds := 1800;
     Settings_UserSessionMaxLifetimeInSeconds := 86400 |}.

Definition seeded_resource : Resource :=
  {| Resource_Id := 1;
     Resource_ResourceIdentifier := "authserver";
     Resource_Description := "Authorization server (system-level)" |}.

Definition seeded_permissions : list Permission :=
  [ {| Permission_Id := 1;
       Permission_PermissionIdentifier := "account";
       Permission_Description := "View and update user account data for the current user";
       Permission_ResourceId := 1;
       Permission_Resource := None |};
    {| Permission_Id := 2;
       Permission_PermissionIdentifier := "admin-website";
       Permission_Description :=
         "Manage the authorization server settings via the web interface";
       Permission_ResourceId := 1;
       Permission_Resource := None |};
    {| Permission_Id := 3;
       Permission_PermissionIdentifier := "admin-rest-api";
       Permission_Description :=
         "Manage the authorization server settings via the REST API";
       Permission_ResourceId := 1;
       Permission_Resource := None |} ].

Definition seeded_redirect_uri (X : Externals) : RedirectURI :=
  {| RedirectURI_Id := 1;
     RedirectURI_URI := lib_GetBaseUrl X ++ "/auth/callback";
     RedirectURI_ClientId := 1 |}.

(** [m] returns a value that satisfies [P], whatever the state. *)
Definition ensures {A} (P : A -> Prop) (m : M A) : Prop :=
  forall w, exists a, fst (m w) = Returned a /\ P a.

(** A join table without one pair. *)
Definition without_pair (cid pid : uint) (join : list (uint * uint)) : list (uint * uint) :=
  filter (fun j => negb ((fst j =? cid) && (snd j =? pid))) join.

(** ** Statements about the rest of the repository *)

(** The body that the listing methods share. *)
Definition listing {A} (T : Table A) (load : Database -> A -> A) (cond : A -> bool)
    (msg : string) : M (option (list A) * option error) :=
  '(result, found) <- gorm_Find T load cond ;;
  match failed result with
  | Some e => ret (None, Some (errors_Wrap e msg))
  | None =>
      if RowsAffected result =? 0 then ret (Some [], None)
      else ret (Some found, None)
  end.

(** What a listing method returns.  The statement fails: nil and the
    driver's error, wrapped.  It runs: a slice that is not nil and holds the
    matching rows, each once and with its preloads.  No row changes. *)
Definition lists_matching {A} (T : Table A) (load : Database -> A -> A)
    (cond : A -> bool) (m : M (option (list A) * option error)) : Prop :=
  forall w,
    db (snd (m w)) = db w /\
    (forall msg, hd None (faults w) = Some msg ->
       exists text, fst (m w) = Returned (None, Some (errors_Wrap (DriverError msg) text))) /\
    (hd None (faults w) = None ->
       exists l,
         fst (m w) = Returned (Some l, None) /\
         length l = length (filter cond (rows T (db w))) /\
         (forall y, In y l <->
                    exists x, In x (rows T (db w)) /\ cond x = true /\ y = load (db w) x)).

(** A table keeps what is put into it, and putting its rows back changes
    nothing. *)
Definition lawful {A} (T : Table A) : Prop :=
  (forall l d, rows T (put T l d) = l) /\ (forall d, put T (rows T d) d = d).

(** The identifier column of a table. *)
Definition keyed {A} (T : Table A) : Prop :=
  (forall l d, rows T (put T l d) = l) /\
  (forall i r, pk T (set_pk T i r) = i) /\
  (forall r, pk T (columns T r) = pk T r).

(** What a delete by identifier does.  The statement fails: the driver's
    error, wrapped, and no row changes.  It runs: nil, the rows with that
    identifier are gone from the table, the other rows and the other tables
    are as before; when no row has the identifier this is still nil, and
    nothing changes. *)
Definition deletes_by_id {A} (T : Table A) (del : uint -> M (option error)) : Prop :=
  forall id w,
    let w' := snd (del id w) in
    (forall msg, hd None (faults w) = Some msg ->
       (exists text,
          fst (del id w) = Returned (Some (errors_Wrap (DriverError msg) text))) /\
       db w' = db w) /\
    (hd None (faults w) = None ->
       fst (del id w) = Returned None /\
       rows T (db w') = filter (fun x => negb (pk T x =? id)) (rows T (db w)) /\
       (forall B (f : Database -> B), apart f T -> f (db w') = f (db w)) /\
       ((forall x, In x (rows T (db w)) -> pk T x <> id) -> db w' = db w)).

(** A row without identifier, stored by [store] while no stored row has
    its key, gets a fresh identifier, and [lookup] by that key then returns
    it, with its preloads. *)
Definition found_again {A} (T : Table A) (load : Database -> A -> A)
    (same_key : A -> A -> bool)
    (store : A -> M (option A * option error))
    (lookup : A -> M (option A * option error)) : Prop :=
  forall row w,
    pk T row = 0 ->
    hd None (faults w) = None -> hd None (tl (faults w)) = None ->
    (forall x, In x (rows T (db w)) -> same_key row x = false) ->
    exists row' w',
      store row w = (Returned (Some row', None), w') /\
      row' = set_pk T (pk T row') row /\
      pk T row' <> 0 /\
      (forall x, In x (rows T (db w)) -> pk T x <> pk T row') /\
      fst (lookup row w') = Returned (Some (load (db w') (columns T row')), None).

(** A write of one row: [Create] or [Save], then the check of the error. *)
Definition writes {A} (T : Table A) (after : A -> Database -> Database) (msg : string)
    (store : A -> M (option A * option error)) : Prop :=
  (forall row,
     store row = ('(result, r) <- gorm_Create T no_before after row ;;
                  match Error result with
                  | Some e => ret (None, Some (errors_Wrap e msg))
                  | None => ret (Some r, None)
                  end)) \/
  (forall row,
     store row = ('(result, r) <- gorm_Save T no_before after row ;;
                  match Error result with
                  | Some e => ret (None, Some (errors_Wrap e msg))
                  | None => ret (Some r, None)
                  end)).

(** A row whose identifier is stored, written by [save]: the stored rows
    with that identifier become the row, the others stay, none is added. *)
Definition replaces_row {A} (T : Table A) (save : A -> M (option A * option error))
    : Prop :=
  forall row w,
    hd None (faults w) = None ->
    pk T row <> 0 ->
    (exists x, In x (rows T (db w)) /\ pk T x = pk T row) ->
    fst (save row w) = Returned (Some row, None) /\
    rows T (db (snd (save row w)))
    = map (fun x => if pk T x =? pk T row then columns T row else x) (rows T (db w)) /\
    length (rows T (db (snd (save row w)))) = length (rows T (db w)).

(** A write whose statement fails returns nil with the driver's error,
    wrapped, and changes no row. *)
Definition fails_cleanly {A} (store : A -> M (option A * option error)) : Prop :=
  forall row w msg,
    hd None (faults w) = Some msg ->
    (exists text,
       fst (store row w) = Returned (None, Some (errors_Wrap (DriverError msg) text))) /\
    db (snd (store row w)) = db w.

(** The database without the permissions whose identifier is in [ids] and
    without the pairs of the join tables that name them. *)
Definition without_permissions (ids : list uint) (d : Database) : Database :=
  put_permissions
    (filter (fun p => negb (existsb (N.eqb (Permission_Id p)) ids)) (permissions d))
    (put_clients_permissions
       (filter (fun j => negb (existsb (N.eqb (snd j)) ids)) (clients_permissions d))
       (put_users_permissions
          (filter (fun j => negb (existsb (N.eqb (snd j)) ids)) (users_permissions d))
          d)).

(** ** Concrete states *)

(** The database right after the first boot, with no administrator
    configured. *)
Definition seededWorld : World :=
  snd (seed (sampleExternals "" "") (freshWorld emptyDatabase)).

Definition sampleSession : UserSession :=
  {| UserSession_Id := 7; UserSession_SessionIdentifier := "sid-7";
     UserSession_UserId := 1; UserSession_Started := 1000;
     UserSession_LastAccessed := 1200; UserSession_AcrLevel := "1";
     UserSession_AuthMethods := "pwd"; UserSession_User := zero_User |}.

Definition sampleRefreshToken : RefreshToken :=
  {| RefreshToken_Id := 1; RefreshToken_Jti := "jti-1"; RefreshToken_UserId := 1;
     RefreshToken_ClientId := 1; RefreshToken_SessionIdentifier := "sid-7";
     RefreshToken_Revoked := false |}.

(** The seeded database with one session of the administrator and one
    refresh token issued under it. *)
Definition loggedInWorld : World :=
  with_db (fun d =>
    {| clients := clients d; redirect_uris := redirect_uris d;
       resources := resources d; permissions := permissions d;
       clients_permissions := clients_permissions d; users := users d;
       users_permissions := users_permissions d; user_consents := user_consents d;
       user_sessions := [sampleSession]; codes := codes d;
       key_pairs := key_pairs d; settings := settings d; roles := roles d;
       pre_registrations := pre_registrations d; users_roles := users_roles d;
       refresh_tokens := [sampleRefreshToken] |}) seededWorld.

Definition logoutRequest : Request :=
  {| sessionStore_Get := ([("sessionIdentifier", "sid-7")], None);
     ContextKeySessionIdentifier := Some "sid-7";
     URL_Query := [("post_logout_redirect_uri", "https://client.example/bye")];
     getLoggedInSubject := "uuu";
     sess_Save := None |}.

(** The seeded client with a consent and a code of its own, and a code of
    another client. *)
Definition clientWorld : World :=
  with_db (fun d =>
    put_codes
      [ set_Code_Used false
          (set_pk Codes 1
             {| Code_Id := 0; Code_Code := ""; Code_CodeHash := replicate 64 "0"%char;
                Code_ClientId := 1; Code_UserId := 1; Code_Scope := "openid";
                Code_State := "a1b2c3"; Code_Nonce := "m9n8b7"; Code_AcrLevel := "1";
                Code_AuthMethods := "pwd"; Code_RedirectURI := "https://c/cb";
                Code_CodeChallenge := ""; Code_CodeChallengeMethod := "S256";
                Code_IssuedAt := 1000; Code_ExpiresAt := 1060; Code_Used := false;
                Code_Client := zero_Client; Code_User := zero_User |});
        set_pk Codes 2
          {| Code_Id := 0; Code_Code := ""; Code_CodeHash := replicate 64 "0"%char;
             Code_ClientId := 2; Code_UserId := 1; Code_Scope := "openid";
             Code_State := "x"; Code_Nonce := "y"; Code_AcrLevel := "1";
             Code_AuthMethods := "pwd"; Code_RedirectURI := "https://d/cb";
             Code_CodeChallenge := ""; Code_CodeChallengeMethod := "S256";
             Code_IssuedAt := 1000; Code_ExpiresAt := 1060; Code_Used := false;
             Code_Client := zero_Client; Code_User := zero_User |} ]
      (put_user_consents
         [ {| UserConsent_Id := 1; UserConsent_ClientId := 1; UserConsent_UserId := 1;
              UserConsent_Scope := "openid"; UserConsent_GrantedAt := 900;
              UserConsent_Client := zero_Client; UserConsent_User := zero_User |} ]
         (put_clients_permissions [(1, 1); (1, 3)] d)))
    seededWorld.

(** Collaborators whose key generation fails once, at the sixth draw: on a
    first boot this is the key of the [next] key pair. *)
Definition interruptedExternals : Externals :=
  let X := sampleExternals "" "" in
  {| viper_GetString := viper_GetString X;
     lib_GetBaseUrl := lib_GetBaseUrl X;
     securecookie_GenerateRandomKey := securecookie_GenerateRandomKey X;
     lib_GenerateSecureRandomString := lib_GenerateSecureRandomString X;
     uuid_New := uuid_New X;
     lib_EncryptText := lib_EncryptText X;
     lib_DecryptText := lib_DecryptText X;
     lib_HashPassword := lib_HashPassword X;
     lib_HashString := lib_HashString X;
     lib_GeneratePrivateKey := fun n bits =>
       if Nat.eqb n 5 then (None, Some (errors_New "crypto/rsa: no entropy"))
       else lib_GeneratePrivateKey X n bits;
     PrivateKey_PublicKey := PrivateKey_PublicKey X;
     lib_EncodePrivateKeyToPEM := lib_EncodePrivateKeyToPEM X;
     x509_MarshalPKIXPublicKey := x509_MarshalPKIXPublicKey X;
     pem_EncodeToMemory := pem_EncodeToMemory X;
     lib_MarshalRSAPublicKeyToJWK := lib_MarshalRSAPublicKeyToJWK X |}.

Definition sampleAuthContext : AuthContext :=
  {| AuthContext_ClientId := 1; AuthContext_UserId := 1;
     AuthContext_Scope := "openid email";
     AuthContext_RedirectURI := "https://c/cb";
     AuthContext_CodeChallenge := "0BnoD4e6xPCPip8rqZ9Zc2RqWOFfvryu9vzXJN4egoY";
     AuthContext_CodeChallengeMethod := "S256";
     AuthContext_Nonce := "m9n8b7"; AuthContext_State := "a1b2c3";
     AuthContext_AcrLevel := "1"; AuthContext_AuthMethods := "pwd";
     AuthContext_ResponseMode := response_mode_query |}.

(** An empty database on which the eighth statement of the first boot, the
    insert of the [current] key pair, fails. *)
Definition lossyWorld : World :=
  with_faults
    [None; None; None; None; None; None; None;
     Some "Error 1213: Deadlock found when trying to get lock"]
    (freshWorld emptyDatabase).


(** * Properties *)

(** ** Running the monad *)

Lemma bind_run {A B} (c : M A) (k : A -> M B) w :
  bind c k w = match c w with
               | (Returned a, w') => k a w'
               | (Panicked msg, w') => (Panicked msg, w')
               end.
Proof. reflexivity. Qed.

(** ** Rows picked by [First] *)

Section Pick.
Variable A : Type.
Variable T : Table A.

Lemma least_None l : least T l = None <-> l = [].
Proof.
  destruct l as [|x r]; simpl; [tauto|].
  destruct (least T r); [destruct (pk T x <=? pk T a)|]; split; congruence.
Qed.

Lemma greatest_None l : greatest T l = None <-> l = [].
Proof.
  destruct l as [|x r]; simpl; [tauto|].
  destruct (greatest T r); [destruct (pk T a <=? pk T x)|]; split; congruence.
Qed.

Lemma least_In l x : least T l = Some x -> In x l.
Proof.
  revert x; induction l as [|y r IH]; simpl; intros x H; [discriminate|].
  destruct (least T r) as [z|].
  - destruct (pk T y <=? pk T z); inversion H; subst; auto.
  - inversion H; auto.
Qed.

Lemma greatest_In l x : greatest T l = Some x -> In x l.
Proof.
  revert x; induction l as [|y r IH]; simpl; intros x H; [discriminate|].
  destruct (greatest T r) as [z|].
  - destruct (pk T z <=? pk T y); inversion H; subst; auto.
  - inversion H; auto.
Qed.

Lemma greatest_max l x :
  greatest T l = Some x -> forall y, In y l -> pk T y <= pk T x.
Proof.
  revert x; induction l as [|z r IH]; simpl; intros x H y Hy; [tauto|].
  destruct (greatest T r) as [m|] eqn:E.
  - destruct (pk T m <=? pk T z) eqn:C; inversion H; subst; clear H.
    + apply N.leb_le in C. destruct Hy as [->|Hy]; [lia|].
      specialize (IH m eq_refl y Hy). lia.
    + apply N.leb_gt in C. destruct Hy as [->|Hy]; [lia|].
      exact (IH x eq_refl y Hy).
  - inversion H; subst. apply greatest_None in E. subst r.
    destruct Hy as [->|[]]. lia.
Qed.

Lemma least_min l x :
  least T l = Some x -> forall y, In y l -> pk T x <= pk T y.
Proof.
  revert x; induction l as [|z r IH]; simpl; intros x H y Hy; [tauto|].
  destruct (least T r) as [m|] eqn:E.
  - destruct (pk T z <=? pk T m) eqn:C; inversion H; subst; clear H.
    + apply N.leb_le in C. destruct Hy as [->|Hy]; [lia|].
      specialize (IH m eq_refl y Hy). lia.
    + apply N.leb_gt in C. destruct Hy as [->|Hy]; [lia|].
      exact (IH x eq_refl y Hy).
  - inversion H; subst. apply least_None in E. subst r.
    destruct Hy as [->|[]]. lia.
Qed.

Lemma pick_None o l : pick T o l = None <-> l = [].
Proof. destruct o; [apply least_None | apply greatest_None]. Qed.

Lemma pick_In o l x : pick T o l = Some x -> In x l.
Proof. destruct o; [apply least_In | apply greatest_In]. Qed.

Lemma pick_filter_None o cond l :
  pick T o (filter cond l) = None <-> (forall x, In x l -> cond x = false).
Proof.
  rewrite pick_None. split.
  - intros H x Hx. destruct (cond x) eqn:C; [|reflexivity].
    assert (In x (filter cond l)) by (apply filter_In; auto).
    rewrite H in *. contradiction.
  - intros H. destruct (filter cond l) as [|x r] eqn:E; [reflexivity|].
    assert (In x (filter cond l)) as Hx by (rewrite E; left; reflexivity).
    apply filter_In in Hx. destruct Hx as [Hx C]. rewrite (H x Hx) in C. discriminate.
Qed.

Lemma pick_filter_Some o cond l x :
  pick T o (filter cond l) = Some x -> In x l /\ cond x = true.
Proof. intros H. apply pick_In in H. apply filter_In in H. exact H. Qed.
End Pick.

(** ** The lookups of one entity *)

Lemma fetch_run {A} (T : Table A) load cond o msg w :
  fetch T load cond o msg w =
  (Returned
     match hd None (faults w) with
     | Some m => (None, Some (errors_Wrap (DriverError m) msg))
     | None =>
         match pick T o (filter cond (rows T (db w))) with
         | None => (None, None)
         | Some r => (Some (load (db w) r), None)
         end
     end,
   with_faults (tl (faults w)) w).
Proof.
  unfold fetch, gorm_First, bind, driver, get_db, ret. simpl.
  destruct (hd None (faults w)); simpl; [reflexivity|].
  destruct (pick T o (filter cond (rows T (db w)))); reflexivity.
Qed.

Lemma fetch_tri_state {A} (T : Table A) load cond o msg :
  tri_state T load cond (fetch T load cond o msg).
Proof.
  intros w. rewrite fetch_run. simpl.
  split; [reflexivity|].
  split; [intros m ->; eauto|].
  split; [intros -> H; apply (proj2 (pick_filter_None T o cond _)) in H; rewrite H; reflexivity|].
  split.
  - intros -> [x [Hx Hc]].
    destruct (pick T o (filter cond (rows T (db w)))) as [r|] eqn:E.
    + apply pick_filter_Some in E. destruct E. exists r. auto.
    + rewrite (proj1 (pick_filter_None T o cond _) E x Hx) in Hc. discriminate.
  - intros v e H.
    destruct (hd None (faults w)); [discriminate|].
    destruct (pick T o (filter cond (rows T (db w)))) as [r|] eqn:E; [|discriminate].
    inversion H; subst. apply pick_filter_Some in E. destruct E.
    split; [reflexivity|]. exists r. auto.
Qed.

(** C5. Every lookup of one entity in the repository has the three
    outcomes of [tri_state]: a non-nil error when its statement fails, nil
    and nil when no row matches, and the matching row (never without one)
    with a nil error otherwise. *)
Theorem repository_lookups_are_tri_state :
  (forall clientIdentifier,
     tri_state Clients preload_Client
       (fun c => Client_ClientIdentifier c =? clientIdentifier)%string
       (GetClientByClientIdentifier clientIdentifier)) /\
  (forall id,
     tri_state Clients preload_Client (fun c => Client_Id c =? id) (GetClientById id)) /\
  (forall username,
     tri_state Users preload_User (fun u => User_Username u =? username)%string
       (GetUserByUsername username)) /\
  (forall id,
     tri_state Users preload_User (fun u => User_Id u =? id) (GetUserById id)) /\
  (forall subject,
     tri_state Users preload_User (fun u => User_Subject u =? subject)%string
       (GetUserBySubject subject)) /\
  (forall email,
     tri_state Users preload_User (fun u => User_Email u =? email)%string
       (GetUserByEmail email)) /\
  (forall code used,
     tri_state Codes preload_Code
       (fun c => (Code_Code c =? code)%string && Bool.eqb (Code_Used c) used)
       (GetCode code used)) /\
  tri_state KeyPairs (@plain KeyPair) (fun _ => true) GetSigningKey /\
  tri_state SettingsT (@plain Settings) (fun _ => true) GetSettings /\
  (forall id,
     tri_state Resources (@plain Resource) (fun r => Resource_Id r =? id)
       (GetResourceById id)) /\
  (forall resourceIdentifier,
     tri_state Resources (@plain Resource)
       (fun r => Resource_ResourceIdentifier r =? resourceIdentifier)%string
       (GetResourceByResourceIdentifier resourceIdentifier)) /\
  (forall sessionIdentifier,
     tri_state UserSessions preload_UserSession
       (fun s => UserSession_SessionIdentifier s =? sessionIdentifier)%string
       (GetUserSessionBySessionIdentifier sessionIdentifier)) /\
  (forall userId clientId,
     tri_state UserConsents preload_UserConsent
       (fun c => (UserConsent_UserId c =? userId) && (UserConsent_ClientId c =? clientId))
       (GetUserConsent userId clientId)) /\
  (forall email,
     tri_state PreRegistrations (@plain PreRegistration)
       (fun r => PreRegistration_Email r =? email)%string
       (GetPreRegistrationByEmail email)) /\
  (forall id,
     tri_state Permissions preload_Permission (fun p => Permission_Id p =? id)
       (GetPermissionById id)) /\
  (forall permissionIdentifier,
     tri_state Permissions preload_Permission
       (fun p => Permission_PermissionIdentifier p =? permissionIdentifier)%string
       (GetPermissionByPermissionIdentifier permissionIdentifier)) /\
  (forall id,
     tri_state Roles (@plain Role) (fun r => Role_Id r =? id) (GetRoleById id)) /\
  (forall roleIdentifier,
     tri_state Roles (@plain Role)
       (fun r => Role_RoleIdentifier r =? roleIdentifier)%string
       (GetRoleByRoleIdentifier roleIdentifier)).
Proof.
  repeat apply conj; intros;
    first
      [ exact (fetch_tri_state _ _ _ Asc "unable to fetch client from database")
      | exact (fetch_tri_state _ _ _ Asc "unable to fetch user from database")
      | exact (fetch_tri_state _ _ _ Asc "unable to fetch code from database")
      | exact (fetch_tri_state _ _ _ Desc "unable to fetch keypair from database")
      | exact (fetch_tri_state _ _ _ Asc "unable to fetch settings from database")
      | exact (fetch_tri_state _ _ _ Asc "unable to fetch resource from database")
      | exact (fetch_tri_state _ _ _ Asc "unable to fetch user session from database")
      | exact (fetch_tri_state _ _ _ Asc "unable to fetch user consent from database")
      | exact (fetch_tri_state _ _ _ Asc "unable to fetch pre registration from database")
      | exact (fetch_tri_state _ _ _ Asc "unable to fetch permission from database")
      | exact (fetch_tri_state _ _ _ Asc "unable to fetch role from database") ].
Qed.

(** ** The signing key *)

Lemma GetSigningKey_fetch :
  GetSigningKey
  = fetch KeyPairs (@plain KeyPair) (fun _ => true) Desc
      "unable to fetch keypair from database".
Proof. reflexivity. Qed.

Lemma filter_all {A} (l : list A) : filter (fun _ => true) l = l.
Proof. induction l; simpl; congruence. Qed.

Lemma NoDup_map_eq {A B} (f : A -> B) (l : list A) x y :
  NoDup (map f l) -> In x l -> In y l -> f x = f y -> x = y.
Proof.
  induction l as [|a l IH]; simpl; intros ND Hx Hy E; [contradiction|].
  inversion ND as [|? ? Hn ND']; subst.
  destruct Hx as [->|Hx], Hy as [->|Hy]; auto.
  - exfalso. apply Hn. rewrite E. apply in_map; assumption.
  - exfalso. apply Hn. rewrite <- E. apply in_map; assumption.
Qed.

(** C1, as the code has it. When the statement does not fail and there is a
    key pair, [GetSigningKey] returns the stored key pair with the greatest
    identifier, the most recent one, whatever its state.  With identifiers
    that are unique, it returns a given [current] key pair exactly when no
    key pair has a greater identifier. *)
Theorem GetSigningKey_most_recent (w : World) :
  hd None (faults w) = None ->
  key_pairs (db w) <> [] ->
  exists k,
    fst (GetSigningKey w) = Returned (Some k, None) /\
    In k (key_pairs (db w)) /\
    (forall k', In k' (key_pairs (db w)) -> KeyPair_Id k' <= KeyPair_Id k) /\
    (forall cur,
       In cur (key_pairs (db w)) ->
       has_state KeyStateCurrent cur = true ->
       NoDup (map KeyPair_Id (key_pairs (db w))) ->
       (k = cur <->
        forall k', In k' (key_pairs (db w)) -> KeyPair_Id k' <= KeyPair_Id cur)).
Proof.
  intros Hf Hne. rewrite GetSigningKey_fetch, fetch_run, Hf. simpl.
  rewrite filter_all.
  destruct (greatest KeyPairs (key_pairs (db w))) as [k|] eqn:E.
  - exists k. split; [reflexivity|].
    pose proof (greatest_In _ _ E) as Hin.
    pose proof (greatest_max _ _ E) as Hmax. simpl in Hmax.
    split; [assumption|]. split; [assumption|].
    intros cur Hcur _ ND. split.
    + intros <-. assumption.
    + intros Hc. apply (NoDup_map_eq KeyPair_Id (key_pairs (db w))); auto.
      specialize (Hmax cur Hcur). specialize (Hc k Hin). lia.
  - apply greatest_None in E. contradiction.
Qed.

Lemma GetSigningKey_most_recent_witness :
  exists k,
    fst (GetSigningKey seededWorld) = Returned (Some k, None) /\
    KeyPair_Id k = 2 /\ KeyPair_State k = "next".
Proof.
  destruct (GetSigningKey_most_recent seededWorld) as [k [H _]].
  - reflexivity.
  - vm_compute. discriminate.
  - exists k. split; [exact H|].
    vm_compute in H. inversion H. split; reflexivity.
Defined.

(** C1, as worded, fails on the database that [seed] leaves: its only
    [current] key pair has identifier 1, and the lookup returns the [next]
    one, which was created after it. *)
Lemma GetSigningKey_not_current_after_seed : ~ signs_with_current seededWorld.
Proof.
  intros H.
  specialize (H (hd zero_KeyPair (key_pairs (db seededWorld)))).
  vm_compute in H.
  specialize (H (or_introl eq_refl) eq_refl eq_refl).
  discriminate H.
Qed.

(** ** Logout *)

Lemma GetUserSessionBySessionIdentifier_fetch sid :
  GetUserSessionBySessionIdentifier sid
  = fetch UserSessions preload_UserSession
      (fun s => UserSession_SessionIdentifier s =? sid)%string Asc
      "unable to fetch user session from database".
Proof. reflexivity. Qed.

Lemma length_pos_ltb (s : string) : s <> "" -> Nat.ltb 0 (String.length s) = true.
Proof. destruct s; [congruence|reflexivity]. Qed.

(** What the handler does when the session resolves and the delete runs. *)
Lemma handleAccountLogoutGet_run X r w sid us :
  snd (sessionStore_Get r) = None ->
  ContextKeySessionIdentifier r = Some sid ->
  sid <> "" ->
  fst (GetUserSessionBySessionIdentifier sid w) = Returned (Some us, None) ->
  hd None (tl (faults w)) = None ->
  handleAccountLogoutGet X r w =
  (Returned
     match sess_Save r with
     | Some e => {| response := internalServerError e; saved_session := None |}
     | None =>
         {| response := http_Redirect (lib_GetBaseUrl X ++ "/account/profile") StatusFound;
            saved_session := Some [] |}
     end,
   {| db := put_user_sessions
              (filter (fun s => negb (UserSession_Id s =? UserSession_Id us))
                      (user_sessions (db w))) (db w);
      faults := tl (tl (faults w));
      rng := rng w;
      audit := (audit w
                ++ [AuditDeletedUserSession (UserSession_UserId us) (UserSession_Id us)
                      (getLoggedInSubject r)]
                ++ match sess_Save r with
                   | Some _ => []
                   | None =>
                       if 0 <? UserSession_UserId us
                       then [AuditLogout (UserSession_UserId us) (getLoggedInSubject r)]
                       else []
                   end)%list |}).
Proof.
  intros Hget Hctx Hsid Hus Hdel.
  unfold handleAccountLogoutGet.
  destruct (sessionStore_Get r) as [sess err]. simpl in Hget. subst err.
  rewrite Hctx, (length_pos_ltb Hsid).
  rewrite GetUserSessionBySessionIdentifier_fetch in *.
  rewrite bind_run, bind_run, fetch_run.
  rewrite fetch_run in Hus. cbn [fst] in Hus.
  destruct (hd None (faults w)); [discriminate|].
  destruct (pick UserSessions Asc _) as [row|]; [|discriminate].
  inversion Hus; subst us; clear Hus.
  unfold DeleteUserSession, gorm_Delete, bind, driver, get_db, modify_db, ret,
    LogAudit, with_db, with_faults; simpl.
  rewrite Hdel. simpl.
  destruct (sess_Save r); simpl.
  - reflexivity.
  - destruct (0 <? UserSession_UserId row); simpl.
    + rewrite <- app_assoc. reflexivity.
    + reflexivity.
Qed.

(** C3, as the code has it. For a request whose session identifier resolves
    to a stored session, when the cookie session decodes and the delete
    statement runs, the handler removes that session row before it answers,
    records the deletion, and leaves every refresh token as it was. *)
Theorem logout_deletes_the_session X r w sid us :
  snd (sessionStore_Get r) = None ->
  ContextKeySessionIdentifier r = Some sid ->
  sid <> "" ->
  fst (GetUserSessionBySessionIdentifier sid w) = Returned (Some us, None) ->
  hd None (tl (faults w)) = None ->
  let w' := snd (handleAccountLogoutGet X r w) in
  (forall s, In s (user_sessions (db w')) -> UserSession_Id s <> UserSession_Id us) /\
  user_sessions (db w')
  = filter (fun s => negb (UserSession_Id s =? UserSession_Id us)) (user_sessions (db w)) /\
  refresh_tokens (db w') = refresh_tokens (db w) /\
  In (AuditDeletedUserSession (UserSession_UserId us) (UserSession_Id us)
        (getLoggedInSubject r)) (audit w') /\
  exists rp, fst (handleAccountLogoutGet X r w) = Returned rp.
Proof.
  intros Hget Hctx Hsid Hus Hdel w'. subst w'.
  rewrite (handleAccountLogoutGet_run X r w Hget Hctx Hsid Hus Hdel). simpl.
  split.
  - intros s Hs. apply filter_In in Hs. destruct Hs as [_ Hs].
    apply negb_true_iff, N.eqb_neq in Hs. exact Hs.
  - split; [reflexivity|]. split; [reflexivity|]. split.
    + apply in_or_app. right. left. reflexivity.
    + eexists. reflexivity.
Qed.

Lemma logout_deletes_the_session_witness :
  user_sessions (db (snd (handleAccountLogoutGet (sampleExternals "" "")
                            logoutRequest loggedInWorld))) = [] /\
  refresh_tokens (db (snd (handleAccountLogoutGet (sampleExternals "" "")
                             logoutRequest loggedInWorld))) = [sampleRefreshToken].
Proof.
  destruct (@logout_deletes_the_session (sampleExternals "" "") logoutRequest
              loggedInWorld "sid-7"
              (preload_UserSession (db loggedInWorld) sampleSession))
    as [_ [H1 [H2 _]]].
  - reflexivity.
  - reflexivity.
  - discriminate.
  - vm_compute. reflexivity.
  - reflexivity.
  - split; [rewrite H1 | rewrite H2]; reflexivity.
Defined.

(** C3, as worded, fails: after logout the refresh token issued under the
    session is still not revoked. *)
Lemma logout_leaves_refresh_tokens :
  ~ logout_terminates_and_revokes (sampleExternals "" "") logoutRequest loggedInWorld.
Proof.
  intros H.
  specialize (H "sid-7" (preload_UserSession (db loggedInWorld) sampleSession)
                eq_refl).
  assert (fst (GetUserSessionBySessionIdentifier "sid-7" loggedInWorld)
          = Returned (Some (preload_UserSession (db loggedInWorld) sampleSession), None))
    as Hres by (vm_compute; reflexivity).
  destruct (H Hres) as [_ Hrev].
  specialize (Hrev sampleRefreshToken).
  assert (RefreshToken_Revoked sampleRefreshToken = true) as Habs.
  { apply Hrev; [vm_compute; left; reflexivity | reflexivity]. }
  discriminate Habs.
Qed.

(** C9, as the code has it. Whatever the query of the request holds, when
    the cookie session decodes and is written back and no statement fails,
    the handler answers 302 to the profile page under the base URL; and a
    redirect of the handler never goes anywhere else. *)
Theorem logout_redirects_to_profile X r w :
  snd (sessionStore_Get r) = None ->
  sess_Save r = None ->
  healthy w ->
  (exists rp,
     fst (handleAccountLogoutGet X r w) = Returned rp /\
     response rp = http_Redirect (lib_GetBaseUrl X ++ "/account/profile") StatusFound /\
     saved_session rp = Some []) /\
  (forall w0 rp url code,
     fst (handleAccountLogoutGet X r w0) = Returned rp ->
     response rp = http_Redirect url code ->
     url = lib_GetBaseUrl X ++ "/account/profile" /\ code = StatusFound).
Proof.
  intros Hget Hsave Hh.
  assert (forall w0 rp,
            fst (handleAccountLogoutGet X r w0) = Returned rp ->
            (exists e, response rp = internalServerError e) \/
            (response rp = http_Redirect (lib_GetBaseUrl X ++ "/account/profile") StatusFound
             /\ saved_session rp = Some [])) as Hshape.
  { intros w0 rp. unfold handleAccountLogoutGet.
    destruct (sessionStore_Get r) as [sess err]. simpl in Hget. subst err.
    rewrite Hsave.
    destruct (Nat.ltb 0 _).
    - rewrite GetUserSessionBySessionIdentifier_fetch.
      rewrite bind_run, bind_run, fetch_run.
      destruct (hd None (faults w0)).
      + simpl. intros E. inversion E. left. eexists. reflexivity.
      + destruct (pick UserSessions Asc _) as [row|].
        * unfold DeleteUserSession, gorm_Delete, bind, driver, get_db, modify_db, ret,
            LogAudit. simpl.
          destruct (hd None (tl (faults w0))); simpl.
          -- intros E. inversion E. left. eexists. reflexivity.
          -- destruct (0 <? UserSession_UserId row); simpl;
               intros E; inversion E; right; split; reflexivity.
        * simpl. intros E. inversion E. right. split; reflexivity.
    - simpl. intros E. inversion E. right. split; reflexivity. }
  split.
  - assert (forall n, nth n (faults w) None = None) as Hn.
    { intros n. unfold healthy in Hh.
      destruct (nth_in_or_default n (faults w) None) as [Hin|Hd]; [|exact Hd].
      rewrite Forall_forall in Hh. apply Hh. exact Hin. }
    assert (hd None (faults w) = None) as H0
      by (specialize (Hn 0%nat); destruct (faults w); exact Hn).
    assert (hd None (tl (faults w)) = None) as H1
      by (specialize (Hn 1%nat); destruct (faults w) as [|? [|? ?]]; try reflexivity; exact Hn).
    revert Hshape. unfold handleAccountLogoutGet.
    destruct (sessionStore_Get r) as [sess err]. simpl in Hget. subst err.
    rewrite Hsave. intros Hshape.
    destruct (Nat.ltb 0 _).
    + rewrite GetUserSessionBySessionIdentifier_fetch.
      rewrite bind_run, bind_run, fetch_run, H0.
      destruct (pick UserSessions Asc _) as [row|].
      * unfold DeleteUserSession, gorm_Delete, bind, driver, get_db, modify_db, ret,
          LogAudit. simpl. rewrite H1. simpl.
        destruct (0 <? UserSession_UserId row); simpl; eexists; repeat split.
      * simpl. eexists; repeat split.
    + simpl. eexists; repeat split.
  - intros w0 rp url code E R.
    destruct (Hshape w0 rp E) as [[e He]|[Hr _]]; rewrite R in *.
    + discriminate.
    + inversion Hr. split; reflexivity.
Qed.

Lemma logout_redirects_to_profile_witness :
  exists rp,
    fst (handleAccountLogoutGet (sampleExternals "" "") logoutRequest loggedInWorld)
    = Returned rp /\
    response rp = http_Redirect "https://auth.example/account/profile" 302.
Proof.
  destruct (@logout_redirects_to_profile (sampleExternals "" "") logoutRequest
              loggedInWorld) as [[rp [H1 [H2 _]]] _].
  - reflexivity.
  - reflexivity.
  - unfold healthy. vm_compute. constructor.
  - exists rp. split; [exact H1 | exact H2].
Defined.

(** C9, as worded, fails: the request names
    [https://client.example/bye] and is sent to the profile page. *)
Lemma logout_ignores_post_logout_redirect_uri :
  ~ redirects_to_post_logout_uri (sampleExternals "" "") logoutRequest loggedInWorld.
Proof.
  intros H.
  destruct (H "https://client.example/bye" (or_introl eq_refl)) as [rp [code [E R]]].
  vm_compute in E. inversion E; subst rp. simpl in R. discriminate R.
Qed.

(** ** Seeding *)

Lemma healthy_hd (fs : list (option string)) (k : nat) :
  Forall (fun f => f = None) fs -> hd None (Nat.iter k (@tl _) fs) = None.
Proof.
  revert fs; induction k as [|k IH]; intros fs H; simpl.
  - destruct H; [reflexivity|assumption].
  - replace (tl (Nat.iter k (@tl _) fs)) with (Nat.iter k (@tl _) (tl fs)).
    + apply IH. destruct H; [constructor|assumption].
    + clear. induction k; simpl; congruence.
Qed.

Lemma healthy_iter (fs : list (option string)) (k : nat) :
  Forall (fun f => f = None) fs -> Forall (fun f => f = None) (Nat.iter k (@tl _) fs).
Proof.
  intros H; induction k as [|k IH]; simpl; [assumption|].
  destruct IH; [constructor|assumption].
Qed.

Ltac run :=
  lazy -[hd tl String.length Nat.eqb
         viper_GetString lib_GetBaseUrl securecookie_GenerateRandomKey
         lib_GenerateSecureRandomString uuid_New lib_EncryptText lib_DecryptText
         lib_HashPassword lib_HashString lib_GeneratePrivateKey PrivateKey_PublicKey
         lib_EncodePrivateKeyToPEM x509_MarshalPKIXPublicKey pem_EncodeToMemory
         lib_MarshalRSAPublicKeyToJWK String.append].

(** What [seed] leaves in an empty database when no statement fails and the
    keys can be generated. *)
Lemma seed_run X w0 :
  db w0 = emptyDatabase -> healthy w0 -> keygen_ok X ->
  exists w1,
    seed X w0 = (Returned None, w1) /\
    clients (db w1) = [seeded_client X (rng w0)] /\
    users (db w1) = [seeded_user X (rng w0)] /\
    key_pairs (db w1)
    = [seeded_key_pair X KeyStateCurrent 1 (3 + rng w0);
       seeded_key_pair X KeyStateNext 2 (5 + rng w0)] /\
    settings (db w1) = [seeded_settings X (rng w0)] /\
    codes (db w1) = [] /\ user_sessions (db w1) = [] /\ user_consents (db w1) = [] /\
    healthy w1.
Proof.
  intros Hdb Hh [Hgen [Hder Hjwk]].
  destruct w0 as [d fs n a]. simpl in Hdb. subst d. unfold healthy in Hh. simpl in Hh.
  pose proof (healthy_hd 0 Hh) as H0. pose proof (healthy_hd 1 Hh) as H1.
  pose proof (healthy_hd 2 Hh) as H2. pose proof (healthy_hd 3 Hh) as H3.
  pose proof (healthy_hd 4 Hh) as H4. pose proof (healthy_hd 5 Hh) as H5.
  pose proof (healthy_hd 6 Hh) as H6. pose proof (healthy_hd 7 Hh) as H7.
  pose proof (healthy_hd 8 Hh) as H8. pose proof (healthy_hd 9 Hh) as H9.
  pose proof (healthy_iter 10 Hh) as H10.
  simpl in H0, H1, H2, H3, H4, H5, H6, H7, H8, H9, H10.
  destruct (Hgen (3 + n)%nat 4096%nat) as [k1 E1].
  destruct (Hgen (5 + n)%nat 4096%nat) as [k2 E2].
  simpl in E1, E2.
  pose proof (Hder (PrivateKey_PublicKey X k1)) as D1.
  pose proof (Hder (PrivateKey_PublicKey X k2)) as D2.
  pose proof (Hjwk (PrivateKey_PublicKey X k1) (uuid_New X (S (S (S (S n)))))) as J1.
  pose proof (Hjwk (PrivateKey_PublicKey X k2)
                (uuid_New X (S (S (S (S (S (S n)))))))) as J2.
  run. rewrite H0. run.
  destruct (lib_EncryptText X _ _) as [enc encerr] eqn:Eenc. run. rewrite H1. run.
  destruct (lib_HashPassword X _) as [ph pherr] eqn:Eph. run. rewrite H2. run.
  rewrite H3. run. rewrite H4. run. rewrite H5. run. rewrite H6. run.
  rewrite E1. run.
  destruct (x509_MarshalPKIXPublicKey X (PrivateKey_PublicKey X k1)) as [der1 e1] eqn:ED1.
  simpl in D1. subst e1. run.
  destruct (lib_MarshalRSAPublicKeyToJWK X (PrivateKey_PublicKey X k1) _) as [jwk1 e1] eqn:EJ1.
  simpl in J1. subst e1. run. rewrite H7. run.
  rewrite E2. run.
  destruct (x509_MarshalPKIXPublicKey X (PrivateKey_PublicKey X k2)) as [der2 e2] eqn:ED2.
  simpl in D2. subst e2. run.
  destruct (lib_MarshalRSAPublicKeyToJWK X (PrivateKey_PublicKey X k2) _) as [jwk2 e2] eqn:EJ2.
  simpl in J2. subst e2. run. rewrite H8. run. rewrite H9. run.
  eexists. split; [reflexivity|]. run.
  unfold seeded_client, seeded_user, seeded_key_pair, seeded_settings,
    seeded_admin_email, seeded_admin_password. run.
  rewrite ?Eenc, ?Eph, ?E1, ?E2. run.
  rewrite ?ED1, ?ED2. run. rewrite ?EJ1, ?EJ2. run.
  repeat split; try reflexivity. exact H10.
Qed.

Lemma healthy_hd0 w : healthy w -> hd None (faults w) = None.
Proof. intros H. exact (healthy_hd 0 H). Qed.

Lemma healthy_hd1 w : healthy w -> hd None (tl (faults w)) = None.
Proof. intros H. exact (healthy_hd 1 H). Qed.

Lemma length_zero_eqb (s : string) : Nat.eqb (String.length s) 0 = true <-> s = "".
Proof. destruct s; simpl; split; congruence. Qed.

(** C10. Seeding an empty database on which no statement fails returns no
    error whatever the administrator variables hold, and stores one user,
    enabled and with a verified email: its email is [admin@example.com] when
    [AdminEmail] is empty (the configured one otherwise), and its password
    hash is that of [admin123] when [AdminPassword] is empty (that of the
    configured one otherwise). *)
Theorem seed_creates_default_admin X w0 :
  db w0 = emptyDatabase -> healthy w0 -> keygen_ok X ->
  exists w1 admin,
    seed X w0 = (Returned None, w1) /\
    users (db w1) = [admin] /\
    (viper_GetString X "AdminEmail" = "" -> User_Email admin = "admin@example.com") /\
    (viper_GetString X "AdminPassword" = "" ->
     User_PasswordHash admin = fst (lib_HashPassword X "admin123")) /\
    (viper_GetString X "AdminEmail" <> "" ->
     User_Email admin = viper_GetString X "AdminEmail") /\
    (viper_GetString X "AdminPassword" <> "" ->
     User_PasswordHash admin
     = fst (lib_HashPassword X (viper_GetString X "AdminPassword"))) /\
    User_EmailVerified admin = true /\
    User_Enabled admin = true.
Proof.
  intros Hdb Hh Hk.
  destruct (seed_run Hdb Hh Hk) as [w1 [Hrun [_ [Hu _]]]].
  exists w1, (seeded_user X (rng w0)).
  split; [exact Hrun|]. split; [exact Hu|].
  unfold seeded_user, seeded_admin_email, seeded_admin_password. simpl.
  repeat split.
  - intros E. rewrite E. reflexivity.
  - intros E. rewrite E. reflexivity.
  - intros E. destruct (Nat.eqb _ 0) eqn:C; [|reflexivity].
    apply length_zero_eqb in C. contradiction.
  - intros E. destruct (Nat.eqb _ 0) eqn:C; [|reflexivity].
    apply length_zero_eqb in C. contradiction.
Qed.

Lemma sample_keygen_ok a p : keygen_ok (sampleExternals a p).
Proof.
  split; [|split].
  - intros n bits. eexists. reflexivity.
  - intros k. reflexivity.
  - intros k kid. reflexivity.
Qed.

Lemma fresh_healthy d : healthy (freshWorld d).
Proof. constructor. Qed.

Lemma seed_creates_default_admin_witness :
  exists admin,
    users (db seededWorld) = [admin] /\
    User_Email admin = "admin@example.com" /\
    User_PasswordHash admin = "$2a$admin123".
Proof.
  destruct (@seed_creates_default_admin (sampleExternals "" "")
              (freshWorld emptyDatabase) eq_refl (fresh_healthy _)
              (sample_keygen_ok "" ""))
    as [w1 [admin [Hrun [Hu [He [Hp _]]]]]].
  exists admin. unfold seededWorld. rewrite Hrun. simpl.
  split; [exact Hu|]. split; [exact (He eq_refl) | exact (Hp eq_refl)].
Defined.

Lemma GetClientByClientIdentifier_fetch clientIdentifier :
  GetClientByClientIdentifier clientIdentifier
  = fetch Clients preload_Client
      (fun c => Client_ClientIdentifier c =? clientIdentifier)%string Asc
      "unable to fetch client from database".
Proof. reflexivity. Qed.

Lemma GetSettings_fetch :
  GetSettings
  = fetch SettingsT (@plain Settings) (fun _ => true) Asc
      "unable to fetch settings from database".
Proof. reflexivity. Qed.

(** C4, as the code has it. The secret of the seeded confidential client is
    stored encrypted by [lib.EncryptText] under the AES key that the settings
    hold, and [lib.DecryptText] with that key gives the secret back, as
    [getClientSecret] of the integration tests does. *)
Theorem seeded_client_secret_is_encrypted X w0 :
  db w0 = emptyDatabase -> healthy w0 -> keygen_ok X -> decrypt_inverts_encrypt X ->
  exists w1 client stored secret,
    seed X w0 = (Returned None, w1) /\
    clients (db w1) = [client] /\
    settings (db w1) = [stored] /\
    Client_ClientIdentifier client = "system-website" /\
    Client_IsPublic client = false /\
    secret = lib_GenerateSecureRandomString X (1 + rng w0) 60 /\
    Client_ClientSecretEncrypted client
    = fst (lib_EncryptText X secret (Settings_AESEncryptionKey stored)) /\
    fst (getClientSecret X "system-website" w1) = Returned (Some secret).
Proof.
  intros Hdb Hh Hk Hdec.
  destruct (seed_run Hdb Hh Hk) as [w1 [Hrun [Hc [_ [_ [Hs [_ [_ [_ Hh1]]]]]]]]].
  exists w1, (seeded_client X (rng w0)), (seeded_settings X (rng w0)),
    (lib_GenerateSecureRandomString X (1 + rng w0) 60).
  repeat (split; [first [assumption | reflexivity]|]).
  unfold getClientSecret.
  rewrite GetClientByClientIdentifier_fetch, GetSettings_fetch.
  rewrite bind_run, fetch_run, (healthy_hd0 Hh1).
  change (rows Clients (db w1)) with (clients (db w1)). rewrite Hc.
  cbn [filter seeded_client Client_ClientIdentifier String.eqb Ascii.eqb Bool.eqb
       pick least].
  cbv iota beta.
  rewrite bind_run, fetch_run. cbn [faults with_faults].
  rewrite (healthy_hd1 Hh1).
  change (rows SettingsT (db (with_faults (tl (faults w1)) w1))) with (settings (db w1)).
  rewrite Hs. cbn [filter pick least plain preload_Client set_Client_assoc
                   Client_ClientSecretEncrypted seeded_settings
                   Settings_AESEncryptionKey seeded_client].
  destruct (Hdec (lib_GenerateSecureRandomString X (1 + rng w0) 60)
                 (securecookie_GenerateRandomKey X (rng w0) 32)) as [_ Hd].
  rewrite Hd. reflexivity.
Qed.

Lemma sample_decrypt_inverts_encrypt a p : decrypt_inverts_encrypt (sampleExternals a p).
Proof.
  intros text key. split; [reflexivity|].
  simpl. unfold string_of_rev_bytes, rev_bytes_of_string.
  rewrite rev_involutive, string_of_list_byte_of_string. reflexivity.
Qed.

Lemma seeded_client_secret_is_encrypted_witness :
  fst (getClientSecret (sampleExternals "" "") "system-website" seededWorld)
  = Returned (Some (replicate 60 "k"%char)).
Proof.
  destruct (@seeded_client_secret_is_encrypted (sampleExternals "" "")
              (freshWorld emptyDatabase) eq_refl (fresh_healthy _)
              (sample_keygen_ok "" "") (sample_decrypt_inverts_encrypt "" ""))
    as [w1 [client [stored [secret [Hrun [_ [_ [_ [_ [Hsec [_ Hget]]]]]]]]]]].
  unfold seededWorld. rewrite Hrun. simpl. rewrite Hget, Hsec. reflexivity.
Defined.

(** C4, as worded, fails on the seeded database: the secret of the
    confidential client [system-website] comes back by decryption, and what
    is stored is not its hash. *)
Lemma seeded_client_secret_is_recoverable :
  ~ client_secret_hashed_at_rest (sampleExternals "" "") "system-website"
      (replicate 60 "k"%char) seededWorld.
Proof.
  intros [_ H]. apply H. vm_compute. reflexivity.
Qed.

(** ** Tables that an operation leaves alone *)

Section Frames.
Context {B : Type} (f : Database -> B).

Lemma frames_ret {A} (a : A) : frames f (ret a).
Proof. intros w. reflexivity. Qed.

Lemma frames_panic {A} msg : frames f (@panic A msg).
Proof. intros w. reflexivity. Qed.

Lemma frames_driver : frames f driver.
Proof. intros w. reflexivity. Qed.

Lemma frames_draw : frames f draw.
Proof. intros w. reflexivity. Qed.

Lemma frames_get_db : frames f get_db.
Proof. intros w. reflexivity. Qed.

Lemma frames_LogAudit e : frames f (LogAudit e).
Proof. intros w. reflexivity. Qed.

Lemma frames_bind {A C} (c : M A) (k : A -> M C) :
  frames f c -> (forall a, frames f (k a)) -> frames f (bind c k).
Proof.
  intros Hc Hk w. unfold bind. specialize (Hc w).
  destruct (c w) as [[a|msg] w']; simpl in *.
  - rewrite Hk. exact Hc.
  - exact Hc.
Qed.

Lemma frames_modify_db g : (forall d, f (g d) = f d) -> frames f (modify_db g).
Proof. intros H w. simpl. apply H. Qed.

Lemma frames_gorm_First {A} (T : Table A) load cond o dest :
  frames f (gorm_First T load cond o dest).
Proof.
  intros w. unfold gorm_First, bind, driver, get_db, ret. simpl.
  destruct (hd None (faults w)); simpl; [reflexivity|].
  destruct (pick T o _); reflexivity.
Qed.

Lemma frames_gorm_Find {A} (T : Table A) load cond :
  frames f (gorm_Find T load cond).
Proof.
  intros w. unfold gorm_Find, bind, driver, get_db, ret. simpl.
  destruct (hd None (faults w)); reflexivity.
Qed.

Lemma frames_fetch {A} (T : Table A) load cond o msg :
  frames f (fetch T load cond o msg).
Proof. intros w. rewrite fetch_run. reflexivity. Qed.

Lemma insert_apart {A} (T : Table A) row d :
  apart f T -> f (fst (insert T row d)) = f d.
Proof. intros H. unfold insert. simpl. apply H. Qed.

Lemma upsert_apart {A} (T : Table A) row d :
  apart f T -> f (fst (upsert T row d)) = f d.
Proof.
  intros H. unfold upsert. destruct (_ || _); [apply insert_apart; exact H|].
  simpl. apply H.
Qed.

Lemma frames_gorm_Create {A} (T : Table A) before after row :
  apart f T ->
  (forall r d, f (fst (before r d)) = f d) ->
  (forall r, untouched f (after r)) ->
  frames f (gorm_Create T before after row).
Proof.
  intros HT Hb Ha w. unfold gorm_Create, bind, driver, get_db, modify_db, ret. simpl.
  destruct (hd None (faults w)); simpl; [reflexivity|].
  specialize (Hb row (db w)).
  destruct (before row (db w)) as [d1 row1]. simpl in Hb.
  pose proof (insert_apart row1 d1 HT) as Hi.
  destruct (insert T row1 d1) as [d2 row2]. simpl in *.
  rewrite Ha. congruence.
Qed.

Lemma frames_gorm_Save {A} (T : Table A) before after row :
  apart f T ->
  (forall r d, f (fst (before r d)) = f d) ->
  (forall r, untouched f (after r)) ->
  frames f (gorm_Save T before after row).
Proof.
  intros HT Hb Ha w. unfold gorm_Save, bind, driver, get_db, modify_db, ret. simpl.
  destruct (hd None (faults w)); simpl; [reflexivity|].
  specialize (Hb row (db w)).
  destruct (before row (db w)) as [d1 row1]. simpl in Hb.
  pose proof (upsert_apart row1 d1 HT) as Hi.
  destruct (upsert T row1 d1) as [d2 row2]. simpl in *.
  rewrite Ha. congruence.
Qed.

Lemma frames_gorm_Delete {A} (T : Table A) cond :
  apart f T -> frames f (gorm_Delete T cond).
Proof.
  intros HT w. unfold gorm_Delete, bind, driver, get_db, modify_db, ret. simpl.
  destruct (hd None (faults w)); simpl; [reflexivity|]. apply HT.
Qed.

Lemma frames_gorm_Exec g : untouched f g -> frames f (gorm_Exec g).
Proof.
  intros Hg w. unfold gorm_Exec, bind, driver, modify_db, ret. simpl.
  destruct (hd None (faults w)); simpl; [reflexivity|]. apply Hg.
Qed.

Lemma frames_for_range {A} (l : list A) body :
  (forall x, frames f (body x)) -> frames f (for_range l body).
Proof.
  intros H. induction l as [|x l IH]; simpl.
  - apply frames_ret.
  - apply frames_bind; [apply H|]. intros [e|]; [apply frames_ret|exact IH].
Qed.

Lemma no_before_apart {A} (r : A) d : f (fst (no_before r d)) = f d.
Proof. reflexivity. Qed.

Lemma no_after_untouched {A} (r : A) : untouched f (no_after r).
Proof. intros d. reflexivity. Qed.

Lemma fold_left_untouched {A} (g : Database -> A -> Database) l :
  (forall x, untouched f (fun d => g d x)) -> untouched f (fun d => fold_left g l d).
Proof.
  intros H. induction l as [|x l IH]; intros d; simpl; [reflexivity|].
  rewrite IH. apply H.
Qed.

Lemma save_RedirectURIs_untouched c :
  apart f RedirectURIs -> untouched f (save_RedirectURIs c).
Proof.
  intros H. unfold save_RedirectURIs. apply fold_left_untouched.
  intros r d. apply upsert_apart. exact H.
Qed.

Lemma save_Permissions_untouched jrows jput owner perms :
  apart f Permissions -> (forall l d, f (jput l d) = f d) ->
  untouched f (save_Permissions jrows jput owner perms).
Proof.
  intros HP HJ. unfold save_Permissions. apply fold_left_untouched.
  intros p d.
  assert (forall d1 p1, f d1 = f d ->
            f (if existsb (fun j => (fst j =? owner) && (snd j =? Permission_Id p1))
                         (jrows d1)
               then d1 else jput (jrows d1 ++ [(owner, Permission_Id p1)])%list d1)
            = f d) as Hj.
  { intros d1 p1 E. destruct (existsb _ _); [exact E|]. rewrite HJ. exact E. }
  destruct (_ || _).
  - pose proof (insert_apart p d HP) as Hi.
    destruct (insert Permissions p d) as [d1 p1]. apply Hj. exact Hi.
  - apply Hj. reflexivity.
Qed.

Lemma after_Client_untouched c :
  apart f RedirectURIs -> apart f Permissions ->
  (forall l d, f (put_clients_permissions l d) = f d) ->
  untouched f (after_Client c).
Proof.
  intros HR HP HJ d. unfold after_Client.
  rewrite save_Permissions_untouched by assumption.
  apply save_RedirectURIs_untouched. exact HR.
Qed.

Lemma after_User_untouched u :
  apart f Permissions ->
  (forall l d, f (put_users_permissions l d) = f d) ->
  untouched f (after_User u).
Proof.
  intros HP HJ d. unfold after_User.
  apply save_Permissions_untouched; assumption.
Qed.

Lemma before_Permission_apart p d :
  apart f Resources -> f (fst (before_Permission p d)) = f d.
Proof.
  intros HR. unfold before_Permission.
  destruct (Permission_Resource p) as [r|]; [|reflexivity].
  destruct (_ || _).
  - pose proof (insert_apart r d HR) as Hi.
    destruct (insert Resources r d) as [d1 r1]. exact Hi.
  - reflexivity.
Qed.
End Frames.

(** Decides [frames f m] for a part [f] given by a projection and an
    operation [m] that does not write it, by following the structure of
    [m]. *)
Ltac apart_tac := first [ intros ? ?; reflexivity | intros ?; reflexivity ].

Ltac hook_tac :=
  first
    [ intros ? ?; reflexivity
    | intros ?; apply no_after_untouched
    | intros ?; apply after_Client_untouched; apart_tac
    | intros ?; apply after_User_untouched; apart_tac
    | intros ? ?; apply before_Permission_apart; apart_tac
    | intros ?; reflexivity ].

Ltac frame_step :=
  first
    [ apply frames_ret
    | apply frames_panic
    | apply frames_driver
    | apply frames_draw
    | apply frames_get_db
    | apply frames_LogAudit
    | apply frames_fetch
    | apply frames_gorm_First
    | apply frames_gorm_Find
    | apply frames_gorm_Create; [apart_tac | hook_tac | hook_tac]
    | apply frames_gorm_Save; [apart_tac | hook_tac | hook_tac]
    | apply frames_gorm_Delete; apart_tac
    | apply frames_gorm_Exec; intros ?; reflexivity
    | apply frames_modify_db; intros ?; reflexivity
    | apply frames_modify_db; apply save_Permissions_untouched; apart_tac
    | apply frames_modify_db; intros ?;
      repeat match goal with
             | |- context [if ?c then _ else _] => destruct c
             | |- context [insert ?T ?r ?d] => unfold insert
             end; reflexivity
    | apply frames_for_range; intros ?
    | apply frames_bind; [|intros ?]
    | match goal with
      | |- frames _ (match ?x with _ => _ end) => destruct x
      end ].

Ltac frame := repeat frame_step.

Ltac unfold_ops :=
  unfold exec, ignore, handleAccountLogoutGet, IssueCode, ExchangeCode,
    lookup_presented_code, GetCodeByCodeHash, CreateCode, UpdateCode,
    UpdateUserSession, CreateUserSession, UpdateUser, CreateUser,
    DeleteUserConsent, DeleteUserSession, SaveUserConsent,
    CreatePreRegistration, DeletePreRegistration, UpdateClient, CreateClient,
    DeleteClient, CreateRedirectURI, DeleteRedirectURI, DeleteClientPermission,
    AddClientPermission, CreateResource, UpdateResource, DeleteResource,
    CreatePermission, UpdatePermission, DeletePermission, CreateRole, UpdateRole,
    AddUserToRole, RemoveUserFromRole,
    GetClientById, GetPermissionById, GetResourcePermissions,
    GetUserSessionBySessionIdentifier, Association_Permissions_Delete,
    Association_Permissions_Append, GenerateSecureRandomString;
  cbv zeta.

(** Every operation but the boot leaves the key pairs and the settings as
    they are. *)
Lemma exec_frames_key_pairs X op :
  op <> OpNewDatabase -> frames key_pairs (exec X op).
Proof. intros H. destruct op; try congruence; unfold_ops; frame. Qed.

Lemma exec_frames_settings X op :
  op <> OpNewDatabase -> frames settings (exec X op).
Proof. intros H. destruct op; try congruence; unfold_ops; frame. Qed.

(** ** The key pairs after seeding *)

(** A boot on a database that has settings writes nothing. *)
Lemma NewDatabase_seeded X w :
  settings (db w) <> [] -> db (snd (NewDatabase X w)) = db w.
Proof.
  intros Hs.
  unfold NewDatabase, migrate, seed, isDbEmpty, gorm_First, bind, driver, get_db, ret.
  simpl.
  destruct (hd None (faults w)); simpl; [reflexivity|].
  destruct (hd None (tl (faults w))); simpl; [reflexivity|].
  rewrite filter_all.
  destruct (least SettingsT (settings (db w))) eqn:E; simpl; [reflexivity|].
  apply least_None in E. contradiction.
Qed.

Lemma run_op_keeps_keys X op fs w :
  settings (db w) <> [] ->
  key_pairs (db (run_op X op fs w)) = key_pairs (db w) /\
  settings (db (run_op X op fs w)) = settings (db w).
Proof.
  intros Hs. unfold run_op.
  destruct op;
    try match goal with
        | |- context [exec X ?o _] =>
            assert (o <> OpNewDatabase) as Hop by discriminate;
            split;
            [ exact (exec_frames_key_pairs X Hop (with_faults fs w))
            | exact (exec_frames_settings X Hop (with_faults fs w)) ]
        end.
  unfold exec, ignore. rewrite bind_run.
  pose proof (@NewDatabase_seeded X (with_faults fs w) Hs) as H.
  destruct (NewDatabase X (with_faults fs w)) as [[r|msg] w']; simpl in *;
    rewrite H; split; reflexivity.
Qed.

Lemma reachable_keeps_keys X w1 w :
  settings (db w1) <> [] -> reachable X w1 w ->
  key_pairs (db w) = key_pairs (db w1) /\ settings (db w) = settings (db w1).
Proof.
  intros Hs R. induction R as [|w op fs R [IHk IHs]].
  - split; reflexivity.
  - assert (settings (db w) <> []) as Hw by (rewrite IHs; exact Hs).
    destruct (@run_op_keeps_keys X op fs w Hw) as [Hk Hse].
    split; congruence.
Qed.

(** C7, as the code has it. Seeding an empty database on which no
    statement fails, with keys that can be generated and an identifier
    source that does not repeat, stores exactly two key pairs, one [current] and one [next], both RSA
    with algorithm RS256 and with distinct identifiers drawn from the UUID
    source; and in every state reached from there by the operations of the
    repository, the logout handler, further boots and the issue and exchange
    of codes, exactly one key pair is [current] and at most one is [next]. *)
Theorem key_state_invariant_after_seeding X w0 :
  db w0 = emptyDatabase -> healthy w0 -> keygen_ok X -> uuid_fresh X ->
  exists w1 cur next,
    seed X w0 = (Returned None, w1) /\
    key_pairs (db w1) = [cur; next] /\
    KeyPair_State cur = "current" /\ KeyPair_State next = "next" /\
    KeyPair_Type cur = "RSA" /\ KeyPair_Type next = "RSA" /\
    KeyPair_Algorithm cur = "RS256" /\ KeyPair_Algorithm next = "RS256" /\
    (exists n m, KeyPair_KeyIdentifier cur = uuid_New X n /\
                 KeyPair_KeyIdentifier next = uuid_New X m) /\
    KeyPair_KeyIdentifier cur <> KeyPair_KeyIdentifier next /\
    forall w, reachable X w1 w ->
              key_state_invariant (db w) /\ key_pairs (db w) = [cur; next].
Proof.
  intros Hdb Hh Hk Hu.
  destruct (@seed_run X w0 Hdb Hh Hk) as [w1 [Hrun [_ [_ [Hkp [Hs _]]]]]].
  exists w1, (seeded_key_pair X KeyStateCurrent 1 (3 + rng w0)),
    (seeded_key_pair X KeyStateNext 2 (5 + rng w0)).
  split; [exact Hrun|]. split; [exact Hkp|].
  repeat (split; [reflexivity|]).
  split; [eexists; eexists; split; reflexivity|].
  split.
  - simpl. intros E. apply Hu in E. lia.
  - intros w R.
    assert (settings (db w1) <> []) as Hne by (rewrite Hs; discriminate).
    destruct (@reachable_keeps_keys X w1 w Hne R) as [Hkeys _].
    split; [|congruence].
    unfold key_state_invariant, count_state. rewrite Hkeys, Hkp.
    split; [reflexivity|]. simpl. lia.
Qed.

Lemma replicate_inj c n m : replicate n c = replicate m c -> n = m.
Proof.
  revert m; induction n as [|n IH]; intros [|m] E; simpl in E;
    try reflexivity; try discriminate.
  inversion E. f_equal. apply IH. assumption.
Qed.

Lemma sample_uuid_fresh a p : uuid_fresh (sampleExternals a p).
Proof.
  intros n m E. simpl in E. inversion E as [E']. apply replicate_inj in E'. exact E'.
Qed.

Lemma key_state_invariant_after_seeding_witness :
  key_state_invariant (db seededWorld) /\
  key_state_invariant
    (db (run_op (sampleExternals "" "") (OpLogout logoutRequest) [] seededWorld)).
Proof.
  destruct (@key_state_invariant_after_seeding (sampleExternals "" "")
              (freshWorld emptyDatabase) eq_refl (fresh_healthy _)
              (sample_keygen_ok "" "") (@sample_uuid_fresh "" ""))
    as [w1 [cur [next [Hrun [_ [_ [_ [_ [_ [_ [_ [_ [_ Hinv]]]]]]]]]]]]].
  assert (seededWorld = w1) as E by (unfold seededWorld; rewrite Hrun; reflexivity).
  rewrite E. split.
  - apply Hinv. constructor.
  - apply Hinv. constructor. constructor.
Defined.

(** C7, as worded, fails: on [lossyWorld] the first boot returns nil and
    stores the settings, but the insert of the [current] key pair has
    failed and its result was not looked at, so the only key pair is the
    [next] one. *)
Lemma seed_can_leave_no_current_key :
  ~ key_state_invariant_always (sampleExternals "" "") lossyWorld.
Proof.
  intros H.
  destruct (H (snd (seed (sampleExternals "" "") lossyWorld))
              (snd (seed (sampleExternals "" "") lossyWorld))) as [Hcur _].
  - reflexivity.
  - vm_compute. reflexivity.
  - apply reach_here.
  - vm_compute in Hcur. discriminate Hcur.
Qed.

(** ** Deleting a client *)

Lemma gorm_Delete_run {A} (T : Table A) cond w :
  gorm_Delete T cond w =
  match hd None (faults w) with
  | Some msg =>
      (Returned {| Error := Some (DriverError msg); RowsAffected := 0 |},
       with_faults (tl (faults w)) w)
  | None =>
      (Returned {| Error := None;
                   RowsAffected := N.of_nat (length (filter cond (rows T (db w)))) |},
       with_db (put T (filter (fun x => negb (cond x)) (rows T (db w))))
         (with_faults (tl (faults w)) w))
  end.
Proof.
  unfold gorm_Delete, bind, driver, get_db, modify_db, ret. simpl.
  destruct (hd None (faults w)); reflexivity.
Qed.

Lemma GetClientById_fetch id :
  GetClientById id
  = fetch Clients preload_Client (fun c => Client_Id c =? id) Asc
      "unable to fetch client from database".
Proof. reflexivity. Qed.

Lemma GetPermissionById_fetch id :
  GetPermissionById id
  = fetch Permissions preload_Permission (fun p => Permission_Id p =? id) Asc
      "unable to fetch permission from database".
Proof. reflexivity. Qed.

(** A successful [DeleteClientPermission] removes the pair from the join
    table. *)
Lemma DeleteClientPermission_ok cid pid w w' :
  DeleteClientPermission cid pid w = (Returned None, w') ->
  clients_permissions (db w') = without_pair cid pid (clients_permissions (db w)).
Proof.
  unfold DeleteClientPermission.
  rewrite GetClientById_fetch, GetPermissionById_fetch.
  rewrite bind_run, fetch_run.
  destruct (hd None (faults w)); [discriminate|].
  destruct (pick Clients Asc _) as [c|] eqn:Ec.
  - rewrite bind_run, fetch_run.
    destruct (hd None (faults (with_faults (tl (faults w)) w))); [discriminate|].
    cbn [db with_faults].
    destruct (pick Permissions Asc _) as [p|] eqn:Ep.
    + apply pick_filter_Some in Ec, Ep.
      destruct Ec as [_ Ec], Ep as [_ Ep].
      apply N.eqb_eq in Ec, Ep.
      unfold Association_Permissions_Delete, bind, driver, modify_db, ret. simpl.
      destruct (hd None (tl (tl (faults w)))); [discriminate|].
      simpl. intros H. inversion H. simpl. rewrite Ec, Ep. reflexivity.
    + simpl. discriminate.
  - rewrite bind_run, fetch_run.
    destruct (hd None (faults (with_faults (tl (faults w)) w))); [discriminate|].
    destruct (pick Permissions Asc _); simpl; discriminate.
Qed.

Lemma frames_DeleteClientPermission {B} (f : Database -> B) cid pid :
  (forall l d, f (put_clients_permissions l d) = f d) ->
  frames f (DeleteClientPermission cid pid).
Proof.
  intros H. unfold DeleteClientPermission, Association_Permissions_Delete.
  rewrite GetClientById_fetch, GetPermissionById_fetch.
  repeat first
    [ apply frames_ret | apply frames_panic | apply frames_driver | apply frames_fetch
    | apply frames_modify_db; intros ?; apply H
    | apply frames_bind; [|intros ?]
    | match goal with |- frames _ (match ?x with _ => _ end) => destruct x end ].
Qed.

(** The loop of [DeleteClient] over the permissions of the client: when it
    ends without error, no pair of the client with one of these permissions
    is left, and no pair was added. *)
Lemma detach_loop cid (l : list Permission) w w' :
  for_range l (fun permission => DeleteClientPermission cid (Permission_Id permission)) w
  = (Returned None, w') ->
  (forall j, In j (clients_permissions (db w')) -> In j (clients_permissions (db w))) /\
  (forall p, In p l -> ~ In (cid, Permission_Id p) (clients_permissions (db w'))).
Proof.
  revert w. induction l as [|p l IH]; intros w H.
  - inversion H; subst. split; [auto|]. intros p [].
  - simpl in H. rewrite bind_run in H.
    destruct (DeleteClientPermission cid (Permission_Id p) w) as [[[e|]|msg] w1] eqn:E;
      try discriminate.
    apply DeleteClientPermission_ok in E.
    destruct (IH w1 H) as [Hsub Hgone].
    assert (forall j, In j (clients_permissions (db w1)) ->
                      In j (clients_permissions (db w)) /\ j <> (cid, Permission_Id p))
      as Hstep.
    { intros j Hj. rewrite E in Hj. apply filter_In in Hj. destruct Hj as [Hj C].
      split; [exact Hj|]. intros ->. simpl in C. rewrite !N.eqb_refl in C. discriminate. }
    split.
    + intros j Hj. apply Hstep. apply Hsub. exact Hj.
    + intros q [<-|Hq].
      * intros Hin. apply Hsub, Hstep in Hin. destruct Hin as [_ Hin]. congruence.
      * apply Hgone. exact Hq.
Qed.

Lemma frames_GetClientById {B} (f : Database -> B) id : frames f (GetClientById id).
Proof. rewrite GetClientById_fetch. apply frames_fetch. Qed.

Lemma In_joined p join owner d :
  In p (joined join owner d) <->
  In p (permissions d) /\ In (owner, Permission_Id p) join.
Proof.
  unfold joined. rewrite filter_In, existsb_exists. split.
  - intros [Hp [[a b] [Hj C]]]. simpl in C.
    apply andb_true_iff in C. destruct C as [C1 C2].
    apply N.eqb_eq in C1, C2. subst. auto.
  - intros [Hp Hj]. split; [exact Hp|]. exists (owner, Permission_Id p).
    split; [exact Hj|]. simpl. rewrite !N.eqb_refl. reflexivity.
Qed.

(** What a run of [DeleteClient] that returns no error has done. *)
Lemma DeleteClient_ok clientId w w' :
  DeleteClient clientId w = (Returned None, w') ->
  user_consents (db w')
  = filter (fun c => negb (UserConsent_ClientId c =? clientId)) (user_consents (db w)) /\
  redirect_uris (db w')
  = filter (fun r => negb (RedirectURI_ClientId r =? clientId)) (redirect_uris (db w)) /\
  codes (db w')
  = filter (fun c => negb (Code_ClientId c =? clientId)) (codes (db w)) /\
  clients (db w')
  = filter (fun c => negb (Client_Id c =? clientId)) (clients (db w)) /\
  (forall p, In p (permissions (db w)) ->
             ~ In (clientId, Permission_Id p) (clients_permissions (db w'))).
Proof.
  unfold DeleteClient.
  rewrite bind_run, gorm_Delete_run.
  destruct (hd None (faults w)); [discriminate|]. cbn [Error].
  set (w1 := with_db _ (with_faults (tl (faults w)) w)).
  rewrite bind_run, gorm_Delete_run.
  destruct (hd None (faults w1)); [discriminate|]. cbn [Error].
  set (w2 := with_db _ (with_faults (tl (faults w1)) w1)).
  rewrite bind_run, gorm_Delete_run.
  destruct (hd None (faults w2)); [discriminate|]. cbn [Error].
  set (w3 := with_db _ (with_faults (tl (faults w2)) w2)).
  rewrite bind_run.
  pose proof (fun B (f : Database -> B) => @frames_GetClientById B f clientId w3) as F4.
  pose proof (proj2 (proj2 (proj2 (proj2
                (@fetch_tri_state _ Clients preload_Client
                   (fun c => Client_Id c =? clientId) Asc
                   "unable to fetch client from database" w3)))))
    as T4.
  rewrite <- GetClientById_fetch in T4.
  destruct (GetClientById clientId w3) as [[[client err]|msg] w4] eqn:E4;
    [|discriminate].
  simpl in F4.
  destruct err as [e|]; [discriminate|].
  destruct client as [client|]; [|discriminate].
  destruct (T4 client None eq_refl) as [_ [row [Hrow [Hid Hload]]]].
  rewrite bind_run.
  set (body := fun permission : Permission =>
                 DeleteClientPermission clientId (Permission_Id permission)).
  assert (forall B (f : Database -> B),
            (forall l d, f (put_clients_permissions l d) = f d) ->
            frames f (for_range (Client_Permissions client) body)) as F5.
  { intros B f Hf. apply frames_for_range. intros p.
    apply frames_DeleteClientPermission. exact Hf. }
  pose proof (@detach_loop clientId (Client_Permissions client) w4) as L5.
  fold body in L5.
  destruct (for_range (Client_Permissions client) body w4) as [[[e|]|msg] w5] eqn:E5;
    try discriminate.
  specialize (L5 w5 eq_refl). destruct L5 as [Hsub Hgone].
  assert (forall B (f : Database -> B),
            (forall l d, f (put_clients_permissions l d) = f d) ->
            f (db w5) = f (db w4)) as F5'.
  { intros B f Hf. specialize (F5 B f Hf w4). rewrite E5 in F5. exact F5. }
  rewrite bind_run, gorm_Delete_run.
  destruct (hd None (faults w5)); [discriminate|]. cbn [Error].
  intros H. inversion H; subst w'; clear H.
  cbn [db with_db with_faults rows put Clients user_consents redirect_uris codes
       clients clients_permissions put_clients].
  rewrite !F5' by (intros; reflexivity).
  rewrite !F4.
  split; [reflexivity|]. split; [reflexivity|]. split; [reflexivity|].
  split; [reflexivity|].
  intros p Hp Hin.
  assert (In (clientId, Permission_Id p) (clients_permissions (db w3))) as Hin3.
  { apply Hsub in Hin. rewrite F4 in Hin. exact Hin. }
  apply (Hgone (preload_Resource (db w3) p)); [|exact Hin].
  rewrite Hload. cbn [Client_Permissions preload_Client set_Client_assoc].
  apply in_map. apply In_joined.
  apply N.eqb_eq in Hid. rewrite Hid.
  split; [exact Hp | exact Hin3].
Qed.

Lemma healthy_pop w : healthy w -> healthy (with_faults (tl (faults w)) w).
Proof. intros H. exact (healthy_iter 1 H). Qed.

Lemma pick_exists {A} (T : Table A) o cond l x :
  In x l -> cond x = true -> exists y, pick T o (filter cond l) = Some y.
Proof.
  intros Hx Hc. destruct (pick T o (filter cond l)) as [y|] eqn:E; [eauto|].
  rewrite (proj1 (pick_filter_None T o cond l) E x Hx) in Hc. discriminate.
Qed.

Lemma DeleteClientPermission_returns cid pid w :
  healthy w ->
  (exists c, In c (clients (db w)) /\ Client_Id c = cid) ->
  (exists p, In p (permissions (db w)) /\ Permission_Id p = pid) ->
  exists w',
    DeleteClientPermission cid pid w = (Returned None, w') /\
    healthy w' /\
    clients (db w') = clients (db w) /\
    permissions (db w') = permissions (db w).
Proof.
  intros Hh [c [Hc Hcid]] [p [Hp Hpid]].
  pose proof (healthy_hd 0 Hh) as H0. pose proof (healthy_hd 1 Hh) as H1.
  pose proof (healthy_hd 2 Hh) as H2. pose proof (healthy_iter 3 Hh) as H3.
  simpl in H0, H1, H2, H3.
  unfold DeleteClientPermission.
  rewrite GetClientById_fetch, GetPermissionById_fetch.
  rewrite bind_run, fetch_run, H0.
  destruct (@pick_exists _ Clients Asc (fun c => Client_Id c =? cid) (clients (db w)) c Hc)
    as [c' Ec]; [apply N.eqb_eq; exact Hcid|].
  change (rows Clients (db w)) with (clients (db w)). rewrite Ec.
  rewrite bind_run, fetch_run. cbn [faults db with_faults]. rewrite H1.
  destruct (@pick_exists _ Permissions Asc (fun p => Permission_Id p =? pid)
              (permissions (db w)) p Hp) as [p' Ep]; [apply N.eqb_eq; exact Hpid|].
  change (rows Permissions (db w)) with (permissions (db w)). rewrite Ep.
  unfold Association_Permissions_Delete, bind, driver, modify_db, ret. simpl.
  rewrite H2. simpl.
  eexists. split; [reflexivity|]. simpl. split; [exact H3|]. split; reflexivity.
Qed.

Lemma detach_loop_returns cid (l : list Permission) w :
  healthy w ->
  (exists c, In c (clients (db w)) /\ Client_Id c = cid) ->
  (forall p, In p l ->
     exists p0, In p0 (permissions (db w)) /\ Permission_Id p0 = Permission_Id p) ->
  exists w',
    for_range l
      (fun permission => DeleteClientPermission cid (Permission_Id permission)) w
    = (Returned None, w') /\
    healthy w'.
Proof.
  revert w. induction l as [|p l IH]; intros w Hh Hc Hl.
  - exists w. split; [reflexivity|exact Hh].
  - simpl. rewrite bind_run.
    destruct (@DeleteClientPermission_returns cid (Permission_Id p) w Hh Hc
                (Hl p (or_introl eq_refl))) as [w1 [E [Hh1 [Hc1 Hp1]]]].
    rewrite E.
    apply IH; [exact Hh1| |].
    + rewrite Hc1. exact Hc.
    + intros q Hq. rewrite Hp1. apply Hl. right. exact Hq.
Qed.

Lemma healthy_with_db g w : healthy w -> healthy (with_db g w).
Proof. intros H. exact H. Qed.

(** On a database where no statement fails, deleting a client that exists
    returns no error. *)
Lemma DeleteClient_returns clientId w :
  healthy w ->
  (exists c, In c (clients (db w)) /\ Client_Id c = clientId) ->
  exists w', DeleteClient clientId w = (Returned None, w').
Proof.
  intros Hh [c [Hc Hcid]].
  unfold DeleteClient.
  rewrite bind_run, gorm_Delete_run, (healthy_hd0 Hh). cbn [Error].
  set (w1 := with_db _ (with_faults (tl (faults w)) w)).
  assert (healthy w1) as Hh1 by (apply healthy_with_db, healthy_pop, Hh).
  rewrite bind_run, gorm_Delete_run, (healthy_hd0 Hh1). cbn [Error].
  set (w2 := with_db _ (with_faults (tl (faults w1)) w1)).
  assert (healthy w2) as Hh2 by (apply healthy_with_db, healthy_pop, Hh1).
  rewrite bind_run, gorm_Delete_run, (healthy_hd0 Hh2). cbn [Error].
  set (w3 := with_db _ (with_faults (tl (faults w2)) w2)).
  assert (healthy w3) as Hh3 by (apply healthy_with_db, healthy_pop, Hh2).
  assert (clients (db w3) = clients (db w)) as Hc3 by reflexivity.
  rewrite bind_run, GetClientById_fetch, fetch_run, (healthy_hd0 Hh3).
  destruct (@pick_exists _ Clients Asc (fun c => Client_Id c =? clientId)
              (clients (db w3)) c Hc) as [c' Ec]; [apply N.eqb_eq; exact Hcid|].
  change (rows Clients (db w3)) with (clients (db w3)). rewrite Ec.
  cbv iota beta.
  rewrite bind_run.
  set (w4 := with_faults (tl (faults w3)) w3).
  assert (healthy w4) as Hh4 by (apply healthy_pop, Hh3).
  destruct (@detach_loop_returns clientId
              (Client_Permissions (preload_Client (db w3) c')) w4 Hh4) as [w5 [E5 Hh5]].
  - exists c. split; [exact Hc | exact Hcid].
  - intros p Hp. cbn [Client_Permissions preload_Client set_Client_assoc] in Hp.
    apply in_map_iff in Hp. destruct Hp as [p0 [<- Hp0]].
    apply In_joined in Hp0. exists p0. split; [apply Hp0 | reflexivity].
  - rewrite E5. rewrite bind_run, gorm_Delete_run, (healthy_hd0 Hh5). cbn [Error].
    eexists. reflexivity.
Qed.

(** C8. Deleting a client that exists, on a database where no statement
    fails, returns no error; and whenever [DeleteClient] returns no error,
    the codes, the user consents and the redirect URIs of that client are
    gone (the other rows of these tables are kept), the client row is gone,
    and no stored permission is attached to the client any more. *)
Theorem DeleteClient_cascades clientId w :
  (healthy w ->
   (exists c, In c (clients (db w)) /\ Client_Id c = clientId) ->
   exists w', DeleteClient clientId w = (Returned None, w')) /\
  (forall w',
     DeleteClient clientId w = (Returned None, w') ->
     (forall c, In c (codes (db w')) -> Code_ClientId c <> clientId) /\
     (forall c, In c (user_consents (db w')) -> UserConsent_ClientId c <> clientId) /\
     (forall r, In r (redirect_uris (db w')) -> RedirectURI_ClientId r <> clientId) /\
     (forall c, In c (clients (db w')) -> Client_Id c <> clientId) /\
     (forall p, In p (permissions (db w)) ->
                ~ In (clientId, Permission_Id p) (clients_permissions (db w'))) /\
     (forall c, In c (codes (db w)) -> Code_ClientId c <> clientId ->
                In c (codes (db w'))) /\
     (forall c, In c (user_consents (db w)) -> UserConsent_ClientId c <> clientId ->
                In c (user_consents (db w'))) /\
     (forall r, In r (redirect_uris (db w)) -> RedirectURI_ClientId r <> clientId ->
                In r (redirect_uris (db w')))).
Proof.
  split; [apply DeleteClient_returns|].
  intros w' H.
  destruct (@DeleteClient_ok clientId w w' H) as [Huc [Hru [Hco [Hcl Hperm]]]].
  rewrite Huc, Hru, Hco, Hcl.
  repeat split;
    try (intros x Hx; apply filter_In in Hx; destruct Hx as [_ Hx];
         apply negb_true_iff, N.eqb_neq in Hx; exact Hx);
    try (intros x Hx Hne; apply filter_In; split; [exact Hx|];
         apply negb_true_iff, N.eqb_neq; exact Hne).
  exact Hperm.
Qed.

Lemma DeleteClient_cascades_witness :
  exists w',
    DeleteClient 1 clientWorld = (Returned None, w') /\
    map Code_Id (codes (db w')) = [2] /\
    (forall c, In c (codes (db w')) -> Code_ClientId c <> 1).
Proof.
  destruct (DeleteClient_cascades 1 clientWorld) as [Hret Hpost].
  destruct Hret as [w' E].
  - unfold healthy. vm_compute. constructor.
  - exists (seeded_client (sampleExternals "" "") 0). split.
    + vm_compute. left. reflexivity.
    + reflexivity.
  - exists w'. split; [exact E|]. split.
    + vm_compute in E. inversion E. reflexivity.
    + apply (Hpost w' E).
Defined.

(** ** The authorization code *)

Lemma CreateCode_run row w :
  CreateCode row w =
  match hd None (faults w) with
  | Some msg =>
      (Returned (None, Some (errors_Wrap (DriverError msg)
                               "unable to create code in database")),
       with_faults (tl (faults w)) w)
  | None =>
      (Returned (Some (snd (insert Codes row (db w))), None),
       with_db (fun d => fst (insert Codes row d)) (with_faults (tl (faults w)) w))
  end.
Proof.
  unfold CreateCode, gorm_Create, no_before, no_after, bind, driver, get_db,
    modify_db, ret. simpl.
  destruct (hd None (faults w)); reflexivity.
Qed.

(** C6. When the random source gives strings of the length asked for,
    hashing does not fail and the insert runs, [issue_code] answers with a
    redirect to the redirect URI of the request, in the response mode of the
    request, whose [code] parameter has exactly 128 characters and whose
    [state] parameter is the state of the request; in query mode this is
    what [getCodeAndStateFromUrl] reads from it. *)
Theorem issued_redirect_carries_code_and_state X ctx now w :
  random_string_length X -> hashing_succeeds X -> hd None (faults w) = None ->
  exists rd w',
    IssueCode X ctx now w = (Returned (Some rd, None), w') /\
    redirect_to rd = AuthContext_RedirectURI ctx /\
    response_mode rd = AuthContext_ResponseMode ctx /\
    String.length (url_Values_Get "code" (params rd)) = 128%nat /\
    url_Values_Get "state" (params rd) = AuthContext_State ctx /\
    (AuthContext_ResponseMode ctx = response_mode_query ->
     String.length (fst (getCodeAndStateFromUrl rd)) = 128%nat /\
     snd (getCodeAndStateFromUrl rd) = AuthContext_State ctx).
Proof.
  intros Hlen Hhash Hf.
  unfold IssueCode, GenerateSecureRandomString.
  rewrite bind_run, bind_run. cbn [draw ret].
  set (code := lib_GenerateSecureRandomString X (rng w) 128).
  pose proof (Hhash code) as He.
  destruct (lib_HashString X code) as [codeHash err]. simpl in He. subst err.
  rewrite bind_run, CreateCode_run. cbn [faults]. rewrite Hf.
  eexists. eexists. split; [reflexivity|].
  cbn [redirect_to response_mode params url_Values_Get String.eqb Ascii.eqb Bool.eqb].
  split; [reflexivity|]. split; [reflexivity|].
  split; [apply Hlen|]. split; [reflexivity|].
  intros Hq. unfold getCodeAndStateFromUrl, Query.
  cbn [response_mode params]. rewrite Hq. simpl. split; [apply Hlen|reflexivity].
Qed.

Lemma replicate_length n c : String.length (replicate n c) = n.
Proof. induction n; simpl; congruence. Qed.

Lemma sample_random_string_length a p : random_string_length (sampleExternals a p).
Proof. intros n len. apply replicate_length. Qed.

Lemma sample_hashing_succeeds a p : hashing_succeeds (sampleExternals a p).
Proof. intros s. reflexivity. Qed.

Lemma issued_redirect_carries_code_and_state_witness :
  exists rd,
    fst (IssueCode (sampleExternals "" "") sampleAuthContext 1000 seededWorld)
    = Returned (Some rd, None) /\
    getCodeAndStateFromUrl rd = (replicate 128 "k"%char, "a1b2c3").
Proof.
  destruct (@issued_redirect_carries_code_and_state (sampleExternals "" "")
              sampleAuthContext 1000 seededWorld
              (@sample_random_string_length "" "") (@sample_hashing_succeeds "" "")
              eq_refl) as [rd [w' [E _]]].
  exists rd. rewrite E. split; [reflexivity|].
  vm_compute in E. inversion E. reflexivity.
Defined.

(** *** What the repository stores of a code, and how it finds it *)

Lemma filter_all_false {A} (c : A -> bool) (l : list A) :
  (forall x, In x l -> c x = false) -> filter c l = [].
Proof.
  induction l as [|x l IH]; intros H; simpl; [reflexivity|].
  rewrite (H x (or_introl eq_refl)). apply IH. intros y Hy. apply H. right. exact Hy.
Qed.





(** ** Further properties of the code *)

(** X1. [DeleteClient] for an identifier that no client has: when no
    statement fails, the consents, redirect URIs and codes that carry the
    identifier are deleted, and the call then dereferences the nil client
    instead of returning. *)
Theorem DeleteClient_of_missing_client_panics clientId w :
  healthy w ->
  (forall c, In c (clients (db w)) -> Client_Id c <> clientId) ->
  exists msg w',
    DeleteClient clientId w = (Panicked msg, w') /\
    user_consents (db w')
    = filter (fun c => negb (UserConsent_ClientId c =? clientId)) (user_consents (db w)) /\
    redirect_uris (db w')
    = filter (fun r => negb (RedirectURI_ClientId r =? clientId)) (redirect_uris (db w)) /\
    codes (db w')
    = filter (fun c => negb (Code_ClientId c =? clientId)) (codes (db w)) /\
    clients (db w') = clients (db w).
Proof.
  intros Hh Hnone.
  unfold DeleteClient.
  rewrite bind_run, gorm_Delete_run, (healthy_hd0 Hh). cbn [Error].
  set (w1 := with_db _ (with_faults (tl (faults w)) w)).
  assert (healthy w1) as Hh1 by (apply healthy_with_db, healthy_pop, Hh).
  rewrite bind_run, gorm_Delete_run, (healthy_hd0 Hh1). cbn [Error].
  set (w2 := with_db _ (with_faults (tl (faults w1)) w1)).
  assert (healthy w2) as Hh2 by (apply healthy_with_db, healthy_pop, Hh1).
  rewrite bind_run, gorm_Delete_run, (healthy_hd0 Hh2). cbn [Error].
  set (w3 := with_db _ (with_faults (tl (faults w2)) w2)).
  assert (healthy w3) as Hh3 by (apply healthy_with_db, healthy_pop, Hh2).
  rewrite bind_run, GetClientById_fetch, fetch_run, (healthy_hd0 Hh3).
  assert (pick Clients Asc (filter (fun c => Client_Id c =? clientId) (rows Clients (db w3)))
          = None) as Ep.
  { apply pick_filter_None. intros c Hc. apply N.eqb_neq. apply Hnone. exact Hc. }
  rewrite Ep. cbv iota beta.
  eexists. eexists. split; [reflexivity|].
  repeat split; reflexivity.
Qed.

Lemma DeleteClient_of_missing_client_panics_witness :
  exists msg w',
    DeleteClient 2 clientWorld = (Panicked msg, w') /\
    map Code_Id (codes (db w')) = [1].
Proof.
  destruct (@DeleteClient_of_missing_client_panics 2 clientWorld)
    as [msg [w' [E [_ [_ [Hc _]]]]]].
  - unfold healthy. vm_compute. constructor.
  - intros c Hc. vm_compute in Hc. destruct Hc as [<-|[]]. discriminate.
  - exists msg, w'. split; [exact E|]. rewrite Hc. reflexivity.
Defined.

(** X2. A boot on a database that holds a settings row writes nothing,
    whatever the driver does. *)
Theorem boot_after_seeding_writes_nothing X w :
  settings (db w) <> [] -> db (snd (NewDatabase X w)) = db w.
Proof. apply NewDatabase_seeded. Qed.

Lemma boot_after_seeding_writes_nothing_witness :
  db (snd (NewDatabase (sampleExternals "" "") seededWorld)) = db seededWorld.
Proof.
  apply (@boot_after_seeding_writes_nothing (sampleExternals "" "") seededWorld).
  vm_compute. discriminate.
Defined.

(** X3. [seed] is not one transaction, and it seeds whenever there is no
    settings row: when the key of the [next] key pair cannot be generated on
    the first boot, [seed] returns the error with the [current] key pair
    stored and no settings, and the next boot seeds again, after which two
    key pairs are [current]. *)
Theorem interrupted_seed_is_repeated :
  let X := interruptedExternals in
  let w1 := snd (seed X (freshWorld emptyDatabase)) in
  let w2 := snd (seed X w1) in
  (exists e, fst (seed X (freshWorld emptyDatabase)) = Returned (Some e)) /\
  count_state KeyStateCurrent (db w1) = 1%nat /\
  settings (db w1) = [] /\
  fst (seed X w1) = Returned None /\
  count_state KeyStateCurrent (db w2) = 2%nat /\
  count_state KeyStateNext (db w2) = 1%nat.
Proof.
  intros X w1 w2.
  split; [eexists; vm_compute; reflexivity|].
  repeat split; vm_compute; reflexivity.
Qed.

(** ** Listings *)

Lemma listing_run {A} (T : Table A) load cond msg w :
  listing T load cond msg w =
  (Returned
     match hd None (faults w) with
     | Some m => (None, Some (errors_Wrap (DriverError m) msg))
     | None => (Some (map (load (db w)) (filter cond (rows T (db w)))), None)
     end,
   with_faults (tl (faults w)) w).
Proof.
  unfold listing, gorm_Find, bind, driver, get_db, ret. simpl.
  destruct (hd None (faults w)); simpl; [reflexivity|].
  destruct (filter cond (rows T (db w))) as [|x l] eqn:E; simpl; [reflexivity|].
  destruct (N.of_nat (S (length l))) eqn:E2; [lia|]. reflexivity.
Qed.

Lemma listing_lists_matching {A} (T : Table A) load cond msg :
  lists_matching T load cond (listing T load cond msg).
Proof.
  intros w. rewrite listing_run. simpl. split; [reflexivity|]. split.
  - intros m Hm. rewrite Hm. eexists. reflexivity.
  - intros Hm. rewrite Hm. eexists. split; [reflexivity|]. split.
    + apply length_map.
    + intros y. rewrite in_map_iff. split.
      * intros [x [E Hx]]. apply filter_In in Hx. destruct Hx as [Hx Hc].
        exists x. repeat split; [exact Hx|exact Hc|symmetry; exact E].
      * intros [x [Hx [Hc E]]]. exists x. split; [symmetry; exact E|].
        apply filter_In. split; assumption.
Qed.

(** X4. The six listing methods return nil and the wrapped error of the
    driver when the statement fails; when it runs they return a slice, empty
    when nothing matches, that holds exactly the rows matching the filter,
    each once and with its preloads.  They change no row. *)
Theorem repository_listings_return_the_matching_rows :
  lists_matching Resources (@plain Resource) (fun _ => true) GetAllResources /\
  (forall resourceId,
     lists_matching Permissions (@plain Permission)
       (fun p => Permission_ResourceId p =? resourceId)
       (GetResourcePermissions resourceId)) /\
  (forall userId,
     lists_matching UserSessions preload_UserSession
       (fun s => UserSession_UserId s =? userId) (GetUserSessionsByUserId userId)) /\
  (forall userId,
     lists_matching UserConsents preload_UserConsent_Client
       (fun c => UserConsent_UserId c =? userId) (GetUserConsents userId)) /\
  lists_matching Clients (@plain Client) (fun _ => true) GetClients /\
  lists_matching Roles (@plain Role) (fun _ => true) GetAllRoles.
Proof.
  repeat apply conj; intros;
    first
      [ exact (listing_lists_matching _ _ _ "unable to fetch resources from database")
      | exact (listing_lists_matching _ _ _
                 "unable to fetch resource permissions from database")
      | exact (listing_lists_matching _ _ _ "unable to fetch user sessions from database")
      | exact (listing_lists_matching _ _ _ "unable to fetch user consents from database")
      | exact (listing_lists_matching _ _ _ "unable to fetch clients from database")
      | exact (listing_lists_matching _ _ _ "unable to fetch roles from database") ].
Qed.

(** ** Deletes by identifier *)

Lemma filter_none {A} (c : A -> bool) (l : list A) :
  (forall x, In x l -> c x = true) -> filter c l = l.
Proof.
  induction l as [|x l IH]; intros H; simpl; [reflexivity|].
  rewrite (H x (or_introl eq_refl)). f_equal. apply IH. intros y Hy. apply H. right. exact Hy.
Qed.

Lemma gorm_Delete_by_id {A} (T : Table A) (del : uint -> M (option error)) msg :
  lawful T ->
  (forall id,
     del id = (result <- gorm_Delete T (fun x => pk T x =? id) ;;
               match Error result with
               | Some e => ret (Some (errors_Wrap e msg))
               | None => ret None
               end)) ->
  deletes_by_id T del.
Proof.
  intros [Hrows Hput] Hdel id w w'. subst w'. rewrite Hdel.
  rewrite bind_run, gorm_Delete_run.
  split.
  - intros m Hm. rewrite Hm. simpl. split; [eexists; reflexivity|reflexivity].
  - intros Hm. rewrite Hm. simpl. split; [reflexivity|]. split; [apply Hrows|]. split.
    + intros B f Hf. apply Hf.
    + intros Hnone. rewrite filter_none; [apply Hput|].
      intros x Hx. apply negb_true_iff, N.eqb_neq, Hnone, Hx.
Qed.

Ltac lawful_tac := split; [reflexivity | intros []; reflexivity].

(** X5. [DeleteUserConsent], [DeleteUserSession], [DeletePreRegistration]
    and [DeleteRedirectURI] remove the rows with the given identifier and
    nothing else; for an identifier that no row has they return nil and
    change nothing; when the statement fails they return the wrapped error
    and change nothing. *)
Theorem deleting_by_id_removes_that_row_only :
  deletes_by_id UserConsents DeleteUserConsent /\
  deletes_by_id UserSessions DeleteUserSession /\
  deletes_by_id PreRegistrations DeletePreRegistration /\
  deletes_by_id RedirectURIs DeleteRedirectURI.
Proof.
  repeat apply conj;
    (eapply gorm_Delete_by_id; [lawful_tac | intros; reflexivity]).
Qed.

(** ** Writes of one row *)

Lemma next_id_fresh {A} (T : Table A) (l : list A) x :
  In x l -> pk T x < next_id T l.
Proof.
  unfold next_id. induction l as [|y l IH]; cbn [fold_right In]; [contradiction|].
  intros [<-|H]; [lia|]. specialize (IH H). lia.
Qed.

Lemma next_id_pos {A} (T : Table A) (l : list A) : next_id T l <> 0.
Proof. unfold next_id. lia. Qed.

Lemma gorm_Create_run {A} (T : Table A) after row w :
  gorm_Create T no_before after row w =
  match hd None (faults w) with
  | Some msg =>
      (Returned ({| Error := Some (DriverError msg); RowsAffected := 0 |}, row),
       with_faults (tl (faults w)) w)
  | None =>
      (Returned ({| Error := None; RowsAffected := 1 |}, snd (insert T row (db w))),
       with_db (fun _ => after (snd (insert T row (db w))) (fst (insert T row (db w))))
         (with_faults (tl (faults w)) w))
  end.
Proof.
  unfold gorm_Create, bind, driver, get_db, modify_db, ret, no_before. simpl.
  destruct (hd None (faults w)); reflexivity.
Qed.

Lemma gorm_Save_run {A} (T : Table A) after row w :
  gorm_Save T no_before after row w =
  match hd None (faults w) with
  | Some msg =>
      (Returned ({| Error := Some (DriverError msg); RowsAffected := 0 |}, row),
       with_faults (tl (faults w)) w)
  | None =>
      (Returned ({| Error := None; RowsAffected := 1 |}, snd (upsert T row (db w))),
       with_db (fun _ => after (snd (upsert T row (db w))) (fst (upsert T row (db w))))
         (with_faults (tl (faults w)) w))
  end.
Proof.
  unfold gorm_Save, bind, driver, get_db, modify_db, ret, no_before. simpl.
  destruct (hd None (faults w)); [reflexivity|].
  change (db (with_faults (tl (faults w)) w)) with (db w).
  destruct (upsert T row (db w)); reflexivity.
Qed.

Lemma upsert_new {A} (T : Table A) row d : pk T row = 0 -> upsert T row d = insert T row d.
Proof. intros E. unfold upsert. rewrite E. reflexivity. Qed.

Lemma found_again_generic {A} (T : Table A) load same_key after msg msg' store lookup :
  keyed T ->
  (forall r d, rows T (after r d) = rows T d) ->
  (forall i row, same_key row (columns T (set_pk T i row)) = true) ->
  writes T after msg store ->
  (forall row, lookup row = fetch T load (same_key row) Asc msg') ->
  found_again T load same_key store lookup.
Proof.
  intros [Hrows [Hpk Hcol]] Hafter Hkey Hstore Hlookup row w Hzero H0 H1 Hnone.
  assert (store row w =
          (Returned (Some (snd (insert T row (db w))), None),
           with_db (fun _ => after (snd (insert T row (db w))) (fst (insert T row (db w))))
             (with_faults (tl (faults w)) w))) as Hrun.
  { destruct Hstore as [Hs|Hs]; rewrite Hs, bind_run.
    - rewrite gorm_Create_run, H0. reflexivity.
    - rewrite gorm_Save_run, H0, (upsert_new T row (db w) Hzero). reflexivity. }
  unfold insert in Hrun. rewrite Hzero in Hrun. cbn [N.eqb fst snd] in Hrun.
  set (row' := set_pk T (next_id T (rows T (db w))) row) in *.
  eexists. eexists. split; [exact Hrun|].
  assert (pk T row' = next_id T (rows T (db w))) as Hid by apply Hpk.
  split; [rewrite Hid; reflexivity|].
  split; [rewrite Hid; apply next_id_pos|].
  split.
  { intros x Hx. rewrite Hid. pose proof (next_id_fresh T _ _ Hx). lia. }
  rewrite Hlookup, fetch_run. cbn [with_db with_faults faults db fst snd].
  rewrite H1, Hafter, Hrows, filter_app, (filter_all_false _ _ Hnone).
  cbn [filter app]. unfold row'. rewrite Hkey. reflexivity.
Qed.

Ltac keyed_tac := split; [reflexivity | split; intros; reflexivity].

Ltac after_tac :=
  first [ intros ? ?; reflexivity
        | intros r d; apply (after_User_untouched (f := users)); apart_tac
        | intros r d; apply (after_Client_untouched (f := clients)); apart_tac ].

Ltac writes_tac := first [ left; intros; reflexivity | right; intros; reflexivity ].

Ltac found_again_tac :=
  eapply found_again_generic;
  [ | | | writes_tac | intros; reflexivity ];
  [ keyed_tac
  | after_tac
  | intros i row; cbn;
    rewrite ?String.eqb_refl, ?N.eqb_refl, ?Bool.eqb_reflx; reflexivity ].

(** X6. What is stored is found again.  A session, a code, a consent, a
    pre-registration, a user, a client, a resource or a role that has no
    identifier yet and whose key (session identifier, code and used flag,
    user and client, email, client identifier, resource identifier, role
    identifier) no stored row has, is stored under a fresh identifier that is
    not zero, and the lookup by that key then returns it with its
    preloads. *)
Theorem stored_entities_are_found_again :
  found_again UserSessions preload_UserSession
    (fun row x => UserSession_SessionIdentifier x =? UserSession_SessionIdentifier row)%string
    CreateUserSession
    (fun row => GetUserSessionBySessionIdentifier (UserSession_SessionIdentifier row)) /\
  found_again Codes preload_Code
    (fun row x => (Code_Code x =? Code_Code row)%string
                  && Bool.eqb (Code_Used x) (Code_Used row))
    CreateCode
    (fun row => GetCode (Code_Code row) (Code_Used row)) /\
  found_again UserConsents preload_UserConsent
    (fun row x => (UserConsent_UserId x =? UserConsent_UserId row)
                  && (UserConsent_ClientId x =? UserConsent_ClientId row))
    SaveUserConsent
    (fun row => GetUserConsent (UserConsent_UserId row) (UserConsent_ClientId row)) /\
  found_again PreRegistrations (@plain PreRegistration)
    (fun row x => PreRegistration_Email x =? PreRegistration_Email row)%string
    CreatePreRegistration
    (fun row => GetPreRegistrationByEmail (PreRegistration_Email row)) /\
  found_again Users preload_User
    (fun row x => User_Email x =? User_Email row)%string
    CreateUser
    (fun row => GetUserByEmail (User_Email row)) /\
  found_again Clients preload_Client
    (fun row x => Client_ClientIdentifier x =? Client_ClientIdentifier row)%string
    CreateClient
    (fun row => GetClientByClientIdentifier (Client_ClientIdentifier row)) /\
  found_again Resources (@plain Resource)
    (fun row x => Resource_ResourceIdentifier x =? Resource_ResourceIdentifier row)%string
    CreateResource
    (fun row => GetResourceByResourceIdentifier (Resource_ResourceIdentifier row)) /\
  found_again Roles (@plain Role)
    (fun row x => Role_RoleIdentifier x =? Role_RoleIdentifier row)%string
    CreateRole
    (fun row => GetRoleByRoleIdentifier (Role_RoleIdentifier row)).
Proof.
  repeat apply conj; found_again_tac.
Qed.

Lemma upsert_stored {A} (T : Table A) row d :
  pk T row <> 0 ->
  (exists x, In x (rows T d) /\ pk T x = pk T row) ->
  upsert T row d =
  (put T (map (fun x => if pk T x =? pk T row then columns T row else x) (rows T d)) d,
   row).
Proof.
  intros Hnz [x [Hx E]]. unfold upsert.
  apply N.eqb_neq in Hnz. rewrite Hnz.
  replace (existsb (fun x0 => pk T x0 =? pk T row) (rows T d)) with true; [reflexivity|].
  symmetry. apply existsb_exists. exists x. split; [exact Hx|]. apply N.eqb_eq, E.
Qed.

Lemma replaces_row_generic {A} (T : Table A) after msg save :
  keyed T ->
  (forall r d, rows T (after r d) = rows T d) ->
  (forall row,
     save row = ('(result, r) <- gorm_Save T no_before after row ;;
                 match Error result with
                 | Some e => ret (None, Some (errors_Wrap e msg))
                 | None => ret (Some r, None)
                 end)) ->
  replaces_row T save.
Proof.
  intros [Hrows _] Hafter Hsave row w H0 Hnz Hex.
  rewrite Hsave, bind_run, gorm_Save_run, H0, (upsert_stored T row (db w) Hnz Hex).
  cbn [fst snd Error db with_db with_faults ret].
  rewrite Hafter, Hrows. split; [reflexivity|]. split; [reflexivity|]. apply length_map.
Qed.

Ltac replaces_tac :=
  eapply replaces_row_generic; [ | | intros; reflexivity ]; [ keyed_tac | after_tac ].

(** X7. A write through [Save] of a row whose identifier is stored replaces
    the stored row and adds none; the other rows of the table stay.  This
    holds for the update methods and also for [CreateUserSession] and
    [CreateUser], which overwrite a stored row with the same identifier. *)
Theorem saving_replaces_the_stored_row :
  replaces_row UserSessions UpdateUserSession /\
  replaces_row UserSessions CreateUserSession /\
  replaces_row Users UpdateUser /\
  replaces_row Users CreateUser /\
  replaces_row UserConsents SaveUserConsent /\
  replaces_row Codes UpdateCode /\
  replaces_row Clients UpdateClient /\
  replaces_row Resources UpdateResource /\
  replaces_row Roles UpdateRole.
Proof.
  repeat apply conj; replaces_tac.
Qed.

Ltac fails_tac :=
  intros row w msg H;
  unfold gorm_Create, gorm_Save, bind, driver, ret; simpl; rewrite H; simpl;
  split; [eexists; reflexivity | reflexivity].

(** X8. When its statement fails, a method that writes one row returns nil
    with the error of the driver, wrapped with the message of the method,
    and no row has changed. *)
Theorem failed_writes_change_nothing :
  fails_cleanly CreateCode /\ fails_cleanly UpdateCode /\
  fails_cleanly CreateUserSession /\ fails_cleanly UpdateUserSession /\
  fails_cleanly CreateUser /\ fails_cleanly UpdateUser /\
  fails_cleanly SaveUserConsent /\ fails_cleanly CreatePreRegistration /\
  fails_cleanly CreateClient /\ fails_cleanly UpdateClient /\
  fails_cleanly CreateRedirectURI /\
  fails_cleanly CreateResource /\ fails_cleanly UpdateResource /\
  fails_cleanly CreatePermission /\ fails_cleanly UpdatePermission /\
  fails_cleanly CreateRole /\ fails_cleanly UpdateRole.
Proof.
  repeat apply conj;
    [ unfold CreateCode | unfold UpdateCode | unfold CreateUserSession
    | unfold UpdateUserSession | unfold CreateUser | unfold UpdateUser
    | unfold SaveUserConsent | unfold CreatePreRegistration | unfold CreateClient
    | unfold UpdateClient | unfold CreateRedirectURI | unfold CreateResource
    | unfold UpdateResource | unfold CreatePermission | unfold UpdatePermission
    | unfold CreateRole | unfold UpdateRole ];
    fails_tac.
Qed.

(** ** Deletes that cascade *)

Lemma gorm_Exec_run g w :
  gorm_Exec g w =
  match hd None (faults w) with
  | Some msg =>
      (Returned {| Error := Some (DriverError msg); RowsAffected := 0 |},
       with_faults (tl (faults w)) w)
  | None =>
      (Returned {| Error := None; RowsAffected := 0 |},
       with_db g (with_faults (tl (faults w)) w))
  end.
Proof.
  unfold gorm_Exec, bind, driver, modify_db, ret. simpl.
  destruct (hd None (faults w)); reflexivity.
Qed.

(** The database after [DeletePermission] has run all its statements. *)
Lemma DeletePermission_run permissionId w :
  healthy w ->
  DeletePermission permissionId w =
  (Returned None,
   {| db := put_permissions
              (filter (fun p => negb (Permission_Id p =? permissionId)) (permissions (db w)))
              (put_clients_permissions
                 (without_permission permissionId (clients_permissions (db w)))
                 (put_users_permissions
                    (without_permission permissionId (users_permissions (db w))) (db w)));
      faults := Nat.iter 4 (@tl _) (faults w);
      rng := rng w;
      audit := audit w |}).
Proof.
  intros Hh.
  pose proof (healthy_hd 0 Hh) as H0. pose proof (healthy_hd 1 Hh) as H1.
  pose proof (healthy_hd 2 Hh) as H2. pose proof (healthy_hd 3 Hh) as H3.
  simpl in H0, H1, H2, H3.
  unfold DeletePermission.
  rewrite bind_run, gorm_Exec_run, H0. cbn [Error].
  rewrite bind_run, gorm_Exec_run. cbn [faults with_db with_faults]. rewrite H1. cbn [Error].
  rewrite bind_run, gorm_Exec_run. cbn [faults with_db with_faults]. rewrite H2. cbn [Error].
  rewrite bind_run, gorm_Delete_run. cbn [faults with_db with_faults]. rewrite H3. cbn [Error].
  reflexivity.
Qed.
Lemma filter_filter {A} (f g : A -> bool) (l : list A) :
  filter f (filter g l) = filter (fun x => g x && f x) l.
Proof.
  induction l as [|x l IH]; simpl; [reflexivity|].
  destruct (g x); simpl; [destruct (f x)|]; rewrite IH; reflexivity.
Qed.

Lemma healthy_drop (k : nat) w :
  healthy w ->
  healthy {| db := db w; faults := Nat.iter k (@tl _) (faults w);
             rng := rng w; audit := audit w |}.
Proof. intros H. exact (healthy_iter k H). Qed.



Lemma without_permissions_nil d : without_permissions [] d = d.
Proof.
  unfold without_permissions. cbn [existsb negb].
  rewrite !filter_all. destruct d; reflexivity.
Qed.

Lemma without_permissions_one permissionId d :
  put_permissions
    (filter (fun p => negb (Permission_Id p =? permissionId)) (permissions d))
    (put_clients_permissions
       (without_permission permissionId (clients_permissions d))
       (put_users_permissions
          (without_permission permissionId (users_permissions d)) d))
  = without_permissions [permissionId] d.
Proof.
  unfold without_permissions, without_permission. cbn [existsb].
  f_equal; [|f_equal; [|f_equal]];
    apply filter_ext; intros x; rewrite orb_false_r; reflexivity.
Qed.

Lemma filter_not_in {A} (sel : A -> uint) permissionId ids (l : list A) :
  filter (fun x => negb (existsb (N.eqb (sel x)) ids))
    (filter (fun x => negb (existsb (N.eqb (sel x)) [permissionId])) l)
  = filter (fun x => negb (existsb (N.eqb (sel x)) (permissionId :: ids))) l.
Proof.
  rewrite filter_filter. apply filter_ext. intros x. cbn [existsb].
  rewrite orb_false_r, negb_orb. reflexivity.
Qed.

Lemma put_permissions_absorbs l1 l2 l3 a b c d :
  put_permissions l1
    (put_clients_permissions l2
       (put_users_permissions l3
          (put_permissions a (put_clients_permissions b (put_users_permissions c d)))))
  = put_permissions l1 (put_clients_permissions l2 (put_users_permissions l3 d)).
Proof. reflexivity. Qed.

Lemma without_permissions_cons permissionId ids d :
  without_permissions ids (without_permissions [permissionId] d)
  = without_permissions (permissionId :: ids) d.
Proof.
  unfold without_permissions at 1.
  change (permissions (without_permissions [permissionId] d))
    with (filter (fun p => negb (existsb (N.eqb (Permission_Id p)) [permissionId]))
            (permissions d)).
  change (clients_permissions (without_permissions [permissionId] d))
    with (filter (fun j => negb (existsb (N.eqb (snd j)) [permissionId]))
            (clients_permissions d)).
  change (users_permissions (without_permissions [permissionId] d))
    with (filter (fun j => negb (existsb (N.eqb (snd j)) [permissionId]))
            (users_permissions d)).
  rewrite (filter_not_in Permission_Id), !(filter_not_in (@snd uint uint)).
  unfold without_permissions. apply put_permissions_absorbs.
Qed.

Lemma iter_tl_add {A} (n m : nat) (l : list A) :
  Nat.iter n (@tl _) (Nat.iter m (@tl _) l) = Nat.iter (n + m) (@tl _) l.
Proof. induction n as [|n IH]; simpl; [reflexivity|]. rewrite IH. reflexivity. Qed.

(** The loop of [DeleteResource] over the permissions of the resource. *)
Lemma purge_loop (l : list Permission) w :
  healthy w ->
  for_range l (fun permission => DeletePermission (Permission_Id permission)) w =
  (Returned None,
   {| db := without_permissions (map Permission_Id l) (db w);
      faults := Nat.iter (4 * length l) (@tl _) (faults w);
      rng := rng w;
      audit := audit w |}).
Proof.
  revert w. induction l as [|p l IH]; intros w Hh.
  - cbn [for_range map length Nat.mul Nat.iter]. rewrite without_permissions_nil.
    destruct w; reflexivity.
  - cbn [for_range]. rewrite bind_run, (DeletePermission_run (Permission_Id p) Hh).
    rewrite IH by (apply (healthy_drop 4 Hh)).
    cbn [db faults rng audit map length].
    rewrite without_permissions_one, without_permissions_cons, iter_tl_add.
    replace (4 * length l + 4)%nat with (4 * S (length l))%nat by lia.
    reflexivity.
Qed.

Lemma map_plain {A} d (l : list A) : map (plain d) l = l.
Proof. induction l as [|x l IH]; simpl; [reflexivity|]. rewrite IH. reflexivity. Qed.

Lemma DeleteResource_run resourceId w :
  healthy w ->
  let ids :=
    map Permission_Id
      (filter (fun p => Permission_ResourceId p =? resourceId) (permissions (db w))) in
  DeleteResource resourceId w =
  (Returned None,
   {| db := put_resources
              (filter (fun r => negb (Resource_Id r =? resourceId)) (resources (db w)))
              (without_permissions ids (db w));
      faults := Nat.iter (2 + 4 * length ids) (@tl _) (faults w);
      rng := rng w;
      audit := audit w |}).
Proof.
  intros Hh ids.
  unfold DeleteResource.
  change (GetResourcePermissions resourceId)
    with (listing Permissions (@plain Permission)
            (fun p => Permission_ResourceId p =? resourceId)
            "unable to fetch resource permissions from database").
  rewrite bind_run, listing_run, (healthy_hd0 Hh), map_plain.
  change (rows Permissions (db w)) with (permissions (db w)).
  set (l := filter (fun p => Permission_ResourceId p =? resourceId) (permissions (db w))).
  assert (healthy (with_faults (tl (faults w)) w)) as Hh1 by (apply healthy_pop, Hh).
  rewrite bind_run, (purge_loop l Hh1).
  rewrite bind_run, gorm_Delete_run. cbn [faults db with_faults].
  assert (hd None (Nat.iter (4 * length l) (@tl _) (tl (faults w))) = None) as Hd.
  { exact (healthy_hd (4 * length l) Hh1). }
  rewrite Hd. cbn [Error ret with_db with_faults db faults rng audit].
  unfold ids. rewrite length_map. fold l.
  replace (tl (Nat.iter (4 * length l) (@tl _) (tl (faults w))))
    with (Nat.iter (2 + 4 * length l) (@tl _) (faults w)).
  - reflexivity.
  - change (tl (faults w)) with (Nat.iter 1 (@tl _) (faults w)).
    rewrite iter_tl_add.
    replace (2 + 4 * length l)%nat with (S (4 * length l + 1)) by lia. reflexivity.
Qed.

Lemma existsb_eqb_In (x : uint) (ids : list uint) :
  existsb (N.eqb x) ids = true <-> In x ids.
Proof.
  rewrite existsb_exists. split.
  - intros [y [Hy E]]. apply N.eqb_eq in E. subst. exact Hy.
  - intros H. exists x. split; [exact H|apply N.eqb_refl].
Qed.

(** X10. [DeleteResource], when no statement fails, returns nil, also for
    an identifier that no resource has.  Afterwards the resource is gone, no
    permission of the resource is left, and no pair of [users_permissions]
    or [clients_permissions] names a permission that the resource had;
    nothing is added; clients, users and roles are as before; and when the
    identifiers of the permissions are distinct, the permissions of the
    other resources are all kept. *)
Theorem DeleteResource_cascades resourceId w :
  healthy w ->
  exists w',
    DeleteResource resourceId w = (Returned None, w') /\
    resources (db w')
    = filter (fun r => negb (Resource_Id r =? resourceId)) (resources (db w)) /\
    (forall p, In p (permissions (db w')) ->
       In p (permissions (db w)) /\ Permission_ResourceId p <> resourceId) /\
    (forall j, In j (users_permissions (db w')) ->
       In j (users_permissions (db w)) /\
       forall p, In p (permissions (db w)) -> Permission_ResourceId p = resourceId ->
                 snd j <> Permission_Id p) /\
    (forall j, In j (clients_permissions (db w')) ->
       In j (clients_permissions (db w)) /\
       forall p, In p (permissions (db w)) -> Permission_ResourceId p = resourceId ->
                 snd j <> Permission_Id p) /\
    (NoDup (map Permission_Id (permissions (db w))) ->
     permissions (db w')
     = filter (fun p => negb (Permission_ResourceId p =? resourceId))
         (permissions (db w))) /\
    clients (db w') = clients (db w) /\
    users (db w') = users (db w) /\
    roles (db w') = roles (db w).
Proof.
  intros Hh. eexists. split; [apply (DeleteResource_run resourceId Hh)|].
  cbn [db]. unfold without_permissions.
  cbn [resources permissions users_permissions clients_permissions clients users roles
       put_resources put_permissions put_users_permissions put_clients_permissions].
  set (l := filter (fun p => Permission_ResourceId p =? resourceId) (permissions (db w))).
  assert (forall p, In p (permissions (db w)) -> Permission_ResourceId p = resourceId ->
                    In (Permission_Id p) (map Permission_Id l)) as Hids.
  { intros p Hp E. apply in_map. apply filter_In. split; [exact Hp|]. apply N.eqb_eq, E. }
  assert (forall (j : uint * uint) (js : list (uint * uint)),
            In j (filter (fun j => negb (existsb (N.eqb (snd j)) (map Permission_Id l))) js) ->
            In j js /\
            forall p, In p (permissions (db w)) -> Permission_ResourceId p = resourceId ->
                      snd j <> Permission_Id p) as Hjoin.
  { intros j js Hj. apply filter_In in Hj. destruct Hj as [Hj C].
    split; [exact Hj|]. intros p Hp E Heq.
    apply negb_true_iff in C.
    assert (existsb (N.eqb (snd j)) (map Permission_Id l) = true) as C'.
    { apply existsb_eqb_In. rewrite Heq. apply Hids; assumption. }
    pose proof (eq_trans (eq_sym C') C) as Habs. discriminate Habs. }
  split; [reflexivity|]. split.
  { intros p Hp. apply filter_In in Hp. destruct Hp as [Hp C].
    split; [exact Hp|]. intros E. apply negb_true_iff in C.
    assert (existsb (N.eqb (Permission_Id p)) (map Permission_Id l) = true) as C'.
    { apply existsb_eqb_In. apply Hids; assumption. }
    pose proof (eq_trans (eq_sym C') C) as Habs. discriminate Habs. }
  split; [intros j; apply Hjoin|]. split; [intros j; apply Hjoin|].
  split; [|repeat split].
  intros Hnd. apply filter_ext_in. intros p Hp. f_equal.
  destruct (Permission_ResourceId p =? resourceId) eqn:C.
  - apply existsb_eqb_In. apply Hids; [exact Hp|]. apply N.eqb_eq, C.
  - destruct (existsb _ _) eqn:C'; [|reflexivity].
    apply existsb_eqb_In, in_map_iff in C'. destruct C' as [q [Eq Hq]].
    apply filter_In in Hq. destruct Hq as [Hq Cq].
    assert (q = p) by (apply (NoDup_map_eq Permission_Id (permissions (db w))); assumption).
    subst q. congruence.
Qed.

Lemma DeleteResource_cascades_witness :
  exists w',
    DeleteResource 1 clientWorld = (Returned None, w') /\
    resources (db w') = [] /\ permissions (db w') = [] /\
    users_permissions (db w') = [] /\ clients_permissions (db w') = [] /\
    map Client_Id (clients (db w')) = [1].
Proof.
  destruct (@DeleteResource_cascades 1 clientWorld) as [w' [E _]].
  - unfold healthy. vm_compute. constructor.
  - exists w'. split; [exact E|].
    replace w' with (snd (DeleteResource 1 clientWorld)) by (rewrite E; reflexivity).
    vm_compute. repeat split.
Defined.

(** X11. [DeleteClient] is not one transaction.  Whenever it returns an
    error the client row is still stored; and when its first three
    statements run and the fourth (the lookup of the client) fails, it
    returns that error with the consents, redirect URIs and codes of the
    client already deleted. *)
Theorem DeleteClient_is_not_atomic clientId w :
  (forall e w',
     DeleteClient clientId w = (Returned (Some e), w') ->
     clients (db w') = clients (db w)) /\
  (forall msg,
     hd None (faults w) = None ->
     hd None (tl (faults w)) = None ->
     hd None (tl (tl (faults w))) = None ->
     hd None (tl (tl (tl (faults w)))) = Some msg ->
     exists w',
       DeleteClient clientId w
       = (Returned (Some (errors_Wrap (DriverError msg)
                            "unable to fetch client from database")), w') /\
       user_consents (db w')
       = filter (fun c => negb (UserConsent_ClientId c =? clientId))
           (user_consents (db w)) /\
       redirect_uris (db w')
       = filter (fun r => negb (RedirectURI_ClientId r =? clientId))
           (redirect_uris (db w)) /\
       codes (db w')
       = filter (fun c => negb (Code_ClientId c =? clientId)) (codes (db w)) /\
       clients (db w') = clients (db w) /\
       clients_permissions (db w') = clients_permissions (db w)).
Proof.
  split.
  - intros e w'. unfold DeleteClient.
    rewrite bind_run, gorm_Delete_run.
    destruct (hd None (faults w));
      [intros H; inversion H; reflexivity|]. cbn [Error].
    set (w1 := with_db _ (with_faults (tl (faults w)) w)).
    rewrite bind_run, gorm_Delete_run.
    destruct (hd None (faults w1));
      [intros H; inversion H; reflexivity|]. cbn [Error].
    set (w2 := with_db _ (with_faults (tl (faults w1)) w1)).
    rewrite bind_run, gorm_Delete_run.
    destruct (hd None (faults w2));
      [intros H; inversion H; reflexivity|]. cbn [Error].
    set (w3 := with_db _ (with_faults (tl (faults w2)) w2)).
    rewrite bind_run.
    pose proof (@frames_GetClientById _ clients clientId w3) as F4.
    destruct (GetClientById clientId w3) as [[[client err]|m] w4]; [|discriminate].
    simpl in F4.
    destruct err as [e4|]; [intros H; inversion H; subst; exact F4|].
    destruct client as [client|]; [|discriminate].
    rewrite bind_run.
    assert (frames clients
              (for_range (Client_Permissions client)
                 (fun permission =>
                    DeleteClientPermission clientId (Permission_Id permission)))) as F5.
    { apply frames_for_range. intros p. apply frames_DeleteClientPermission.
      intros; reflexivity. }
    specialize (F5 w4).
    destruct (for_range _ _ w4) as [[[e5|]|m] w5]; [| |discriminate]; simpl in F5.
    + intros H; inversion H; subst. rewrite F5. exact F4.
    + rewrite bind_run, gorm_Delete_run.
      destruct (hd None (faults w5)); [|discriminate].
      intros H; inversion H; subst. cbn [db with_faults]. rewrite F5. exact F4.
  - intros msg H0 H1 H2 H3. unfold DeleteClient.
    rewrite bind_run, gorm_Delete_run, H0. cbn [Error].
    rewrite bind_run, gorm_Delete_run. cbn [faults with_db with_faults]. rewrite H1.
    cbn [Error].
    rewrite bind_run, gorm_Delete_run. cbn [faults with_db with_faults]. rewrite H2.
    cbn [Error].
    rewrite bind_run, GetClientById_fetch, fetch_run. cbn [faults with_db with_faults].
    rewrite H3. cbv iota beta.
    eexists. split; [reflexivity|]. repeat split.
Qed.

Lemma DeleteClient_is_not_atomic_witness :
  exists w',
    DeleteClient 1 (with_faults [None; None; None; Some "connection lost"] clientWorld)
    = (Returned (Some (errors_Wrap (DriverError "connection lost")
                         "unable to fetch client from database")), w') /\
    map Client_Id (clients (db w')) = [1] /\
    map Code_Id (codes (db w')) = [2] /\
    user_consents (db w') = [].
Proof.
  destruct (DeleteClient_is_not_atomic 1
              (with_faults [None; None; None; Some "connection lost"] clientWorld))
    as [_ H].
  destruct (H "connection lost" eq_refl eq_refl eq_refl eq_refl)
    as [w' [E [Hu [_ [Hc [Hcl _]]]]]].
  exists w'. split; [exact E|]. rewrite Hu, Hc, Hcl. vm_compute. repeat split.
Defined.

(** ** Permissions of a client *)

Lemma existsb_pair (cid pid : uint) (join : list (uint * uint)) :
  existsb (fun j => (fst j =? cid) && (snd j =? pid)) join = true <-> In (cid, pid) join.
Proof.
  rewrite existsb_exists. split.
  - intros [[a b] [Hj C]]. simpl in C. apply andb_true_iff in C. destruct C as [C1 C2].
    apply N.eqb_eq in C1, C2. subst. exact Hj.
  - intros H. exists (cid, pid). split; [exact H|]. simpl. rewrite !N.eqb_refl. reflexivity.
Qed.

Lemma without_pair_absent cid pid join :
  ~ In (cid, pid) join -> without_pair cid pid join = join.
Proof.
  intros H. unfold without_pair. apply filter_none. intros [a b] Hj. simpl.
  apply negb_true_iff. destruct ((a =? cid) && (b =? pid)) eqn:C; [|reflexivity].
  apply andb_true_iff in C. destruct C as [C1 C2]. apply N.eqb_eq in C1, C2. subst.
  contradiction.
Qed.

(** What [AddClientPermission] does for a stored client and a stored
    permission when no statement fails. *)
Lemma AddClientPermission_run clientId permissionId w :
  healthy w -> permissionId <> 0 ->
  (exists c, In c (clients (db w)) /\ Client_Id c = clientId) ->
  (exists p, In p (permissions (db w)) /\ Permission_Id p = permissionId) ->
  AddClientPermission clientId permissionId w =
  (Returned None,
   {| db := if existsb (fun j => (fst j =? clientId) && (snd j =? permissionId))
                 (clients_permissions (db w))
            then db w
            else put_clients_permissions
                   (clients_permissions (db w) ++ [(clientId, permissionId)]) (db w);
      faults := Nat.iter 3 (@tl _) (faults w);
      rng := rng w;
      audit := audit w |}).
Proof.
  intros Hh Hnz [c [Hc Hcid]] [p [Hp Hpid]].
  pose proof (healthy_hd 0 Hh) as H0. pose proof (healthy_hd 1 Hh) as H1.
  pose proof (healthy_hd 2 Hh) as H2. simpl in H0, H1, H2.
  unfold AddClientPermission.
  rewrite GetClientById_fetch, GetPermissionById_fetch.
  rewrite bind_run, fetch_run, H0.
  destruct (@pick_exists _ Clients Asc (fun c => Client_Id c =? clientId)
              (clients (db w)) c Hc) as [c' Ec]; [apply N.eqb_eq; exact Hcid|].
  change (rows Clients (db w)) with (clients (db w)). rewrite Ec.
  rewrite bind_run, fetch_run. cbn [faults db with_faults]. rewrite H1.
  destruct (@pick_exists _ Permissions Asc (fun p => Permission_Id p =? permissionId)
              (permissions (db w)) p Hp) as [p' Ep]; [apply N.eqb_eq; exact Hpid|].
  change (rows Permissions (db w)) with (permissions (db w)). rewrite Ep.
  apply pick_filter_Some in Ec, Ep. destruct Ec as [_ Ec], Ep as [Hp' Ep].
  apply N.eqb_eq in Ec, Ep.
  unfold Association_Permissions_Append, bind, driver, modify_db, ret.
  cbn [faults db with_faults with_db fst snd]. rewrite H2.
  unfold save_Permissions. cbn [fold_left].
  cbn [preload_Client set_Client_assoc Client_Id preload_Permission preload_Resource
       set_Permission_Resource Permission_Id].
  rewrite Ec, Ep.
  apply N.eqb_neq in Hnz. rewrite Hnz. cbn [orb].
  unfold with_db. cbn [db faults rng audit with_faults Nat.iter].
  replace (existsb (fun x => Permission_Id x =? permissionId) (permissions (db w)))
    with true.
  2:{ symmetry. apply existsb_exists. exists p'. split; [exact Hp'|].
      apply N.eqb_eq. exact Ep. }
  cbn [negb]. cbv iota beta zeta.
  cbn [preload_Permission preload_Resource set_Permission_Resource Permission_Id].
  rewrite Ep.
  destruct (existsb (fun j : N * N => (fst j =? clientId) && (snd j =? permissionId))
              (clients_permissions (db w))); reflexivity.
Qed.
(** X12. [AddClientPermission] for a stored client and a stored permission,
    when no statement fails, returns nil and leaves the pair in
    [clients_permissions] exactly once: a pair that is already there is not
    added again and nothing changes.  The client read back then lists the
    permission, and [DeleteClientPermission] takes a newly added pair away
    again. *)
Theorem AddClientPermission_links_once clientId permissionId w :
  healthy w -> permissionId <> 0 ->
  (exists c, In c (clients (db w)) /\ Client_Id c = clientId) ->
  (exists p, In p (permissions (db w)) /\ Permission_Id p = permissionId) ->
  exists w',
    AddClientPermission clientId permissionId w = (Returned None, w') /\
    In (clientId, permissionId) (clients_permissions (db w')) /\
    (In (clientId, permissionId) (clients_permissions (db w)) -> db w' = db w) /\
    (~ In (clientId, permissionId) (clients_permissions (db w)) ->
     clients_permissions (db w')
     = (clients_permissions (db w) ++ [(clientId, permissionId)])%list) /\
    permissions (db w') = permissions (db w) /\
    clients (db w') = clients (db w) /\
    (exists c',
       fst (GetClientById clientId w') = Returned (Some c', None) /\
       In permissionId (map Permission_Id (Client_Permissions c'))) /\
    (~ In (clientId, permissionId) (clients_permissions (db w)) ->
     exists w'',
       DeleteClientPermission clientId permissionId w' = (Returned None, w'') /\
       clients_permissions (db w'') = clients_permissions (db w)).
Proof.
  intros Hh Hnz Hc Hp.
  eexists. split; [apply (AddClientPermission_run Hh Hnz Hc Hp)|].
  set (w' := {| db := _; faults := _; rng := rng w; audit := audit w |}).
  assert (healthy w') as Hh' by (exact (healthy_iter 3 Hh)).
  assert (In (clientId, permissionId) (clients_permissions (db w'))) as Hin.
  { unfold w'. cbn [db].
    destruct (existsb _ _) eqn:C.
    - apply existsb_pair. exact C.
    - cbn [clients_permissions put_clients_permissions]. apply in_or_app. right. left.
      reflexivity. }
  assert (permissions (db w') = permissions (db w)) as Eperm.
  { unfold w'. cbn [db]. destruct (existsb _ _); reflexivity. }
  assert (clients (db w') = clients (db w)) as Ecl.
  { unfold w'. cbn [db]. destruct (existsb _ _); reflexivity. }
  assert (~ In (clientId, permissionId) (clients_permissions (db w)) ->
          clients_permissions (db w')
          = (clients_permissions (db w) ++ [(clientId, permissionId)])%list) as Enew.
  { intros Hn. unfold w'. cbn [db].
    destruct (existsb _ _) eqn:C; [apply existsb_pair in C; contradiction|reflexivity]. }
  split; [exact Hin|]. split.
  { intros Hold. apply existsb_pair in Hold. unfold w'. cbn [db]. rewrite Hold.
    reflexivity. }
  split; [exact Enew|]. split; [exact Eperm|]. split; [exact Ecl|]. split.
  - destruct Hc as [c [Hc Hcid]]. destruct Hp as [p [Hp Hpid]].
    rewrite GetClientById_fetch, fetch_run, (healthy_hd0 Hh').
    change (rows Clients (db w')) with (clients (db w')). rewrite Ecl.
    destruct (@pick_exists _ Clients Asc (fun c => Client_Id c =? clientId)
                (clients (db w)) c Hc) as [c' Ec]; [apply N.eqb_eq; exact Hcid|].
    rewrite Ec. cbv iota beta. cbn [fst].
    eexists. split; [reflexivity|].
    apply pick_filter_Some in Ec. destruct Ec as [_ Ec]. apply N.eqb_eq in Ec.
    cbn [preload_Client set_Client_assoc Client_Permissions]. rewrite map_map.
    apply in_map_iff. exists p. split; [exact Hpid|].
    apply In_joined. rewrite Eperm, Ec, Hpid. split; [exact Hp | exact Hin].
  - intros Hn.
    destruct (@DeleteClientPermission_returns clientId permissionId w' Hh')
      as [w'' [E _]].
    + rewrite Ecl. exact Hc.
    + rewrite Eperm. exact Hp.
    + exists w''. split; [exact E|].
      rewrite (DeleteClientPermission_ok _ _ _ E), (Enew Hn).
      unfold without_pair. rewrite filter_app. cbn [filter fst snd].
      rewrite !N.eqb_refl. cbn [andb negb]. rewrite app_nil_r.
      apply without_pair_absent. exact Hn.
Qed.

Lemma AddClientPermission_links_once_witness :
  exists w',
    AddClientPermission 1 2 clientWorld = (Returned None, w') /\
    clients_permissions (db w') = [(1, 1); (1, 3); (1, 2)].
Proof.
  destruct (@AddClientPermission_links_once 1 2 clientWorld)
    as [w' [E [_ [_ [Hnew _]]]]].
  - unfold healthy. vm_compute. constructor.
  - discriminate.
  - eexists. split; [vm_compute; left; reflexivity | reflexivity].
  - eexists. split; [vm_compute; right; left; reflexivity | reflexivity].
  - exists w'. split; [exact E|]. rewrite Hnew; [reflexivity|].
    vm_compute. intros [H|[H|[]]]; discriminate.
Defined.
(** ** Logout: the other paths of the handler *)

(** X13. A logout request that carries no session identifier, an empty
    one, or one that no stored session has, when the cookie session decodes
    and the lookup runs: no row changes, nothing is audited, and the answer
    is the same as for a logged-in user, the cleared cookie and a 302 to the
    profile page (or a 500 when the cookie cannot be written). *)
Theorem logout_without_session_changes_nothing X r w :
  snd (sessionStore_Get r) = None ->
  hd None (faults w) = None ->
  (forall sid s, ContextKeySessionIdentifier r = Some sid -> sid <> "" ->
                 In s (user_sessions (db w)) ->
                 UserSession_SessionIdentifier s <> sid) ->
  let out := handleAccountLogoutGet X r w in
  db (snd out) = db w /\
  audit (snd out) = audit w /\
  fst out =
  Returned
    match sess_Save r with
    | Some e => {| response := internalServerError e; saved_session := None |}
    | None =>
        {| response := http_Redirect (lib_GetBaseUrl X ++ "/account/profile") StatusFound;
           saved_session := Some [] |}
    end.
Proof.
  intros Hget H0 Hnone out. subst out.
  unfold handleAccountLogoutGet.
  destruct (sessionStore_Get r) as [sess err]. simpl in Hget. subst err.
  destruct (Nat.ltb 0 _) eqn:Hlen.
  - rewrite GetUserSessionBySessionIdentifier_fetch.
    rewrite bind_run, bind_run, fetch_run, H0.
    assert (pick UserSessions Asc
              (filter (fun s => (UserSession_SessionIdentifier s =?
                                 match ContextKeySessionIdentifier r with
                                 | Some v => v
                                 | None => ""
                                 end)%string) (rows UserSessions (db w))) = None) as Ep.
    { apply pick_filter_None. intros s Hs. apply String.eqb_neq.
      destruct (ContextKeySessionIdentifier r) as [sid|] eqn:Ectx.
      - apply (Hnone sid s eq_refl); [|exact Hs].
        intros ->. simpl in Hlen. discriminate.
      - simpl in Hlen. discriminate. }
    rewrite Ep. cbv iota beta. cbn [ret].
    destruct (sess_Save r); simpl; repeat split.
  - simpl. destruct (sess_Save r); simpl; repeat split.
Qed.

Lemma logout_without_session_changes_nothing_witness :
  db (snd (handleAccountLogoutGet (sampleExternals "" "") logoutRequest seededWorld))
  = db seededWorld /\
  audit (snd (handleAccountLogoutGet (sampleExternals "" "") logoutRequest seededWorld))
  = [].
Proof.
  destruct (@logout_without_session_changes_nothing (sampleExternals "" "")
              logoutRequest seededWorld) as [Hdb [Ha _]].
  - reflexivity.
  - reflexivity.
  - intros sid s _ _ Hs. vm_compute in Hs. contradiction.
  - split; [exact Hdb|]. rewrite Ha. reflexivity.
Defined.

(** X14. The handler is not one transaction either.  When the session
    resolves and its row is deleted but the cookie cannot be written back,
    the answer is a 500 with that error: the session row is gone, its
    deletion is audited, and the logout itself is not. *)
Theorem logout_fails_after_deleting_the_session X r w sid us e :
  snd (sessionStore_Get r) = None ->
  ContextKeySessionIdentifier r = Some sid ->
  sid <> "" ->
  fst (GetUserSessionBySessionIdentifier sid w) = Returned (Some us, None) ->
  hd None (tl (faults w)) = None ->
  sess_Save r = Some e ->
  let out := handleAccountLogoutGet X r w in
  fst out = Returned {| response := internalServerError e; saved_session := None |} /\
  user_sessions (db (snd out))
  = filter (fun s => negb (UserSession_Id s =? UserSession_Id us)) (user_sessions (db w)) /\
  audit (snd out)
  = (audit w ++ [AuditDeletedUserSession (UserSession_UserId us) (UserSession_Id us)
                   (getLoggedInSubject r)])%list.
Proof.
  intros Hget Hctx Hsid Hus Hdel Hsave out. subst out.
  rewrite (handleAccountLogoutGet_run X r w Hget Hctx Hsid Hus Hdel).
  rewrite Hsave. cbn [fst snd db audit user_sessions put_user_sessions].
  rewrite app_nil_r. repeat split.
Qed.

Lemma logout_fails_after_deleting_the_session_witness :
  let r := {| sessionStore_Get := ([], None);
              ContextKeySessionIdentifier := Some "sid-7";
              URL_Query := [];
              getLoggedInSubject := "uuu";
              sess_Save := Some (errors_New "securecookie: the value is too long") |} in
  user_sessions (db (snd (handleAccountLogoutGet (sampleExternals "" "") r loggedInWorld)))
  = [] /\
  audit (snd (handleAccountLogoutGet (sampleExternals "" "") r loggedInWorld))
  = [AuditDeletedUserSession 1 7 "uuu"].
Proof.
  intros r.
  destruct (@logout_fails_after_deleting_the_session (sampleExternals "" "") r
              loggedInWorld "sid-7"
              (preload_UserSession (db loggedInWorld) sampleSession)
              (errors_New "securecookie: the value is too long"))
    as [_ [H1 H2]].
  - reflexivity.
  - reflexivity.
  - discriminate.
  - vm_compute. reflexivity.
  - reflexivity.
  - reflexivity.
  - split; [rewrite H1 | rewrite H2]; reflexivity.
Defined.

(** ** Seeding: what it hides and what it grants *)



Lemma ensures_weaken {A} (P Q : A -> Prop) (m : M A) :
  (forall a, P a -> Q a) -> ensures P m -> ensures Q m.
Proof. intros H Hm w. destruct (Hm w) as [a [E Pa]]. exists a. auto. Qed.

Lemma ensures_driver : ensures (fun _ => True) driver.
Proof. intros w. eexists. split; [reflexivity|exact I]. Qed.

Lemma ensures_draw : ensures (fun _ => True) draw.
Proof. intros w. eexists. split; [reflexivity|exact I]. Qed.









(** The other rows that [seed] leaves in an empty database. *)
Lemma seed_run_grants X w0 :
  db w0 = emptyDatabase -> healthy w0 -> keygen_ok X ->
  exists w1,
    seed X w0 = (Returned None, w1) /\
    resources (db w1) = [seeded_resource] /\
    permissions (db w1) = seeded_permissions /\
    users_permissions (db w1) = [(1, 1); (1, 2)] /\
    clients_permissions (db w1) = [] /\
    redirect_uris (db w1) = [seeded_redirect_uri X] /\
    roles (db w1) = [].
Proof.
  intros Hdb Hh [Hgen [Hder Hjwk]].
  destruct w0 as [d fs n a]. simpl in Hdb. subst d. unfold healthy in Hh. simpl in Hh.
  pose proof (healthy_hd 0 Hh) as H0. pose proof (healthy_hd 1 Hh) as H1.
  pose proof (healthy_hd 2 Hh) as H2. pose proof (healthy_hd 3 Hh) as H3.
  pose proof (healthy_hd 4 Hh) as H4. pose proof (healthy_hd 5 Hh) as H5.
  pose proof (healthy_hd 6 Hh) as H6. pose proof (healthy_hd 7 Hh) as H7.
  pose proof (healthy_hd 8 Hh) as H8. pose proof (healthy_hd 9 Hh) as H9.
  simpl in H0, H1, H2, H3, H4, H5, H6, H7, H8, H9.
  destruct (Hgen (3 + n)%nat 4096%nat) as [k1 E1].
  destruct (Hgen (5 + n)%nat 4096%nat) as [k2 E2].
  simpl in E1, E2.
  pose proof (Hder (PrivateKey_PublicKey X k1)) as D1.
  pose proof (Hder (PrivateKey_PublicKey X k2)) as D2.
  pose proof (Hjwk (PrivateKey_PublicKey X k1) (uuid_New X (S (S (S (S n)))))) as J1.
  pose proof (Hjwk (PrivateKey_PublicKey X k2)
                (uuid_New X (S (S (S (S (S (S n)))))))) as J2.
  run. rewrite H0. run.
  destruct (lib_EncryptText X _ _) as [enc encerr] eqn:Eenc. run. rewrite H1. run.
  destruct (lib_HashPassword X _) as [ph pherr] eqn:Eph. run. rewrite H2. run.
  rewrite H3. run. rewrite H4. run. rewrite H5. run. rewrite H6. run.
  rewrite E1. run.
  destruct (x509_MarshalPKIXPublicKey X (PrivateKey_PublicKey X k1)) as [der1 e1] eqn:ED1.
  simpl in D1. subst e1. run.
  destruct (lib_MarshalRSAPublicKeyToJWK X (PrivateKey_PublicKey X k1) _) as [jwk1 e1] eqn:EJ1.
  simpl in J1. subst e1. run. rewrite H7. run.
  rewrite E2. run.
  destruct (x509_MarshalPKIXPublicKey X (PrivateKey_PublicKey X k2)) as [der2 e2] eqn:ED2.
  simpl in D2. subst e2. run.
  destruct (lib_MarshalRSAPublicKeyToJWK X (PrivateKey_PublicKey X k2) _) as [jwk2 e2] eqn:EJ2.
  simpl in J2. subst e2. run. rewrite H8. run. rewrite H9. run.
  eexists. split; [reflexivity|]. run.
  unfold seeded_resource, seeded_permissions, seeded_redirect_uri. run.
  repeat split; reflexivity.
Qed.

Lemma GetUserByEmail_fetch email :
  GetUserByEmail email
  = fetch Users preload_User (fun u => User_Email u =? email)%string Asc
      "unable to fetch user from database".
Proof. reflexivity. Qed.

(** X16. After the first seeding of an empty database (no statement
    failing, keys generated) the resource [authserver] has the three
    permissions [account], [admin-website] and [admin-rest-api]; the
    administrator, read back by email, holds the first two and not
    [admin-rest-api], which is created after the user is stored; and no
    client holds a permission. *)
Theorem seeded_administrator_grants X w0 :
  db w0 = emptyDatabase -> healthy w0 -> keygen_ok X ->
  exists w1 admin,
    seed X w0 = (Returned None, w1) /\
    fst (GetUserByEmail (seeded_admin_email X) w1) = Returned (Some admin, None) /\
    map Permission_PermissionIdentifier (User_Permissions admin)
    = ["account"; "admin-website"] /\
    map Permission_PermissionIdentifier (permissions (db w1))
    = ["account"; "admin-website"; "admin-rest-api"] /\
    resources (db w1) = [seeded_resource] /\
    (forall p, In p (permissions (db w1)) ->
               Permission_ResourceId p = Resource_Id seeded_resource) /\
    clients_permissions (db w1) = [].
Proof.
  intros Hdb Hh Hk.
  destruct (seed_run Hdb Hh Hk) as [w1 [Hrun [_ [Hu [_ [_ [_ [_ [_ Hh1]]]]]]]]].
  destruct (seed_run_grants Hdb Hh Hk) as [w1' [Hrun' [Hres [Hperm [Hup [Hcp _]]]]]].
  assert (w1' = w1) by congruence. subst w1'.
  exists w1. eexists. split; [exact Hrun|]. split.
  - rewrite GetUserByEmail_fetch, fetch_run, (healthy_hd0 Hh1).
    change (rows Users (db w1)) with (users (db w1)). rewrite Hu.
    cbn [filter seeded_user User_Email]. rewrite String.eqb_refl.
    cbn [pick least fst]. reflexivity.
  - cbn [preload_User set_User_Permissions User_Permissions seeded_user User_Id].
    unfold joined. rewrite Hperm, Hup, Hres, Hcp.
    split; [reflexivity|]. split; [reflexivity|]. split; [reflexivity|].
    split; [|reflexivity].
    intros p Hp. unfold seeded_permissions in Hp.
    destruct Hp as [<-|[<-|[<-|[]]]]; reflexivity.
Qed.

Lemma seeded_administrator_grants_witness :
  exists admin,
    fst (GetUserByEmail "admin@example.com" seededWorld) = Returned (Some admin, None) /\
    map Permission_Id (User_Permissions admin) = [1; 2].
Proof.
  destruct (@seeded_administrator_grants (sampleExternals "" "")
              (freshWorld emptyDatabase) eq_refl (fresh_healthy _)
              (sample_keygen_ok "" ""))
    as [w1 [admin [Hrun [Hget _]]]].
  exists admin. unfold seededWorld. rewrite Hrun. cbn [snd].
  split; [exact Hget|].
  assert (Returned (Some admin, @None error)
          = fst (GetUserByEmail "admin@example.com" seededWorld)) as E.
  { unfold seededWorld. rewrite Hrun. cbn [snd]. symmetry. exact Hget. }
  vm_compute in E. inversion E. reflexivity.
Defined.

(** X17. The client that the first seeding stores, read back by its
    identifier [system-website]: it is enabled and confidential, the
    authorization-code flow is on and client credentials are off, no consent
    is required, its default level is [AcrLevel2], it holds no permission,
    and its one redirect URI is the callback under the base URL. *)
Theorem seeded_client_redirects_to_the_callback X w0 :
  db w0 = emptyDatabase -> healthy w0 -> keygen_ok X ->
  exists w1 client,
    seed X w0 = (Returned None, w1) /\
    fst (GetClientByClientIdentifier "system-website" w1)
    = Returned (Some client, None) /\
    map RedirectURI_URI (Client_RedirectURIs client)
    = [lib_GetBaseUrl X ++ "/auth/callback"] /\
    redirect_uris (db w1) = Client_RedirectURIs client /\
    Client_Permissions client = [] /\
    Client_Enabled client = true /\ Client_IsPublic client = false /\
    Client_AuthorizationCodeEnabled client = true /\
    Client_ClientCredentialsEnabled client = false /\
    Client_ConsentRequired client = false /\
    Client_DefaultAcrLevel client = AcrLevel2.
Proof.
  intros Hdb Hh Hk.
  destruct (seed_run Hdb Hh Hk) as [w1 [Hrun [Hc [_ [_ [_ [_ [_ [_ Hh1]]]]]]]]].
  destruct (seed_run_grants Hdb Hh Hk) as [w1' [Hrun' [Hres [Hperm [Hup [Hcp [Hru _]]]]]]].
  assert (w1' = w1) by congruence. subst w1'.
  exists w1. eexists. split; [exact Hrun|]. split.
  - rewrite GetClientByClientIdentifier_fetch, fetch_run, (healthy_hd0 Hh1).
    change (rows Clients (db w1)) with (clients (db w1)). rewrite Hc.
    cbn [filter seeded_client Client_ClientIdentifier String.eqb Ascii.eqb Bool.eqb
         pick least fst].
    reflexivity.
  - cbn [preload_Client set_Client_assoc Client_RedirectURIs Client_Permissions
         Client_Enabled Client_IsPublic Client_AuthorizationCodeEnabled
         Client_ClientCredentialsEnabled Client_ConsentRequired Client_DefaultAcrLevel
         seeded_client Client_Id].
    unfold joined. rewrite Hru, Hcp, Hperm.
    repeat split; reflexivity.
Qed.

Lemma seeded_client_redirects_to_the_callback_witness :
  exists client,
    fst (GetClientByClientIdentifier "system-website" seededWorld)
    = Returned (Some client, None) /\
    map RedirectURI_URI (Client_RedirectURIs client)
    = ["https://auth.example/auth/callback"].
Proof.
  destruct (@seeded_client_redirects_to_the_callback (sampleExternals "" "")
              (freshWorld emptyDatabase) eq_refl (fresh_healthy _)
              (sample_keygen_ok "" ""))
    as [w1 [client [Hrun [Hget [Huri _]]]]].
  exists client. unfold seededWorld. rewrite Hrun. cbn [snd].
  split; [exact Hget | exact Huri].
Defined.

(** ** Helpers of the integration tests *)

Lemma GetUserConsent_fetch userId clientId :
  GetUserConsent userId clientId
  = fetch UserConsents preload_UserConsent
      (fun c => (UserConsent_UserId c =? userId) && (UserConsent_ClientId c =? clientId))
      Asc "unable to fetch user consent from database".
Proof. reflexivity. Qed.

(** X18. [deleteAllUserConsents] followed by [grantConsent] for a stored
    client and a stored user, no statement failing: both go on, the table of
    consents then holds exactly one row, with the identifiers of that client
    and user, the scope and the time given, and [GetUserConsent] returns
    it. *)
Theorem grantConsent_after_deleteAllUserConsents now clientIdentifier email scope w :
  healthy w ->
  (exists c, In c (clients (db w)) /\ Client_ClientIdentifier c = clientIdentifier) ->
  (exists u, In u (users (db w)) /\ User_Email u = email) ->
  exists w1 w2 c u consent,
    deleteAllUserConsents w = (Returned (Went tt), w1) /\
    grantConsent now clientIdentifier email scope w1 = (Returned (Went tt), w2) /\
    In c (clients (db w)) /\ Client_ClientIdentifier c = clientIdentifier /\
    In u (users (db w)) /\ User_Email u = email /\
    consent = {| UserConsent_Id := 1;
                 UserConsent_ClientId := Client_Id c;
                 UserConsent_UserId := User_Id u;
                 UserConsent_Scope := scope;
                 UserConsent_GrantedAt := now;
                 UserConsent_Client := zero_Client;
                 UserConsent_User := zero_User |} /\
    user_consents (db w2) = [consent] /\
    fst (GetUserConsent (User_Id u) (Client_Id c) w2)
    = Returned (Some (preload_UserConsent (db w2) consent), None).
Proof.
  intros Hh [c0 [Hc0 Hci]] [u0 [Hu0 Hem]].
  pose proof (healthy_hd 0 Hh) as H0. pose proof (healthy_hd 1 Hh) as H1.
  pose proof (healthy_hd 2 Hh) as H2. pose proof (healthy_hd 3 Hh) as H3.
  pose proof (healthy_hd 4 Hh) as H4. simpl in H0, H1, H2, H3, H4.
  destruct (@pick_exists _ Clients Asc
              (fun c => Client_ClientIdentifier c =? clientIdentifier)%string
              (clients (db w)) c0 Hc0) as [c Ec]; [apply String.eqb_eq; exact Hci|].
  destruct (@pick_exists _ Users Asc (fun u => User_Email u =? email)%string
              (users (db w)) u0 Hu0) as [u Eu]; [apply String.eqb_eq; exact Hem|].
  pose proof (pick_filter_Some _ _ _ _ Ec) as [Hc Hcc].
  pose proof (pick_filter_Some _ _ _ _ Eu) as [Hu Huc].
  apply String.eqb_eq in Hcc, Huc.
  eexists. eexists. exists c, u. eexists.
  split.
  { unfold deleteAllUserConsents, gorm_Exec, bind, driver, modify_db, ret. simpl.
    rewrite H0. reflexivity. }
  split.
  { unfold grantConsent.
    rewrite GetClientByClientIdentifier_fetch, GetUserByEmail_fetch.
    rewrite bind_run, fetch_run. cbn [faults db with_db with_faults]. rewrite H1.
    change (rows Clients (put_user_consents [] (db w))) with (clients (db w)).
    rewrite Ec. cbv iota beta.
    rewrite bind_run, fetch_run. cbn [faults db with_db with_faults]. rewrite H2.
    change (rows Users (put_user_consents [] (db w))) with (users (db w)).
    rewrite Eu. cbv iota beta.
    unfold gorm_Create, no_before, no_after, insert, bind, driver, get_db, modify_db, ret.
    cbn [faults db with_db with_faults fst snd]. rewrite H3.
    cbn [pk UserConsents UserConsent_Id N.eqb]. reflexivity. }
  split; [exact Hc|]. split; [exact Hcc|]. split; [exact Hu|]. split; [exact Huc|].
  split; [reflexivity|].
  split; [reflexivity|].
  rewrite GetUserConsent_fetch, fetch_run. cbn [faults db with_db with_faults fst].
  rewrite H4.
  cbn [rows put UserConsents user_consents put_user_consents columns set_pk next_id
       fold_right app filter set_UserConsent_assoc UserConsent_UserId
       UserConsent_ClientId preload_Client set_Client_assoc Client_Id
       preload_User set_User_Permissions User_Id].
  rewrite !N.eqb_refl. cbn [andb pick least]. reflexivity.
Qed.

Lemma grantConsent_after_deleteAllUserConsents_witness :
  exists w1 w2,
    deleteAllUserConsents clientWorld = (Returned (Went tt), w1) /\
    grantConsent 2000 "system-website" "admin@example.com" "openid" w1
    = (Returned (Went tt), w2) /\
    map UserConsent_Scope (user_consents (db w2)) = ["openid"].
Proof.
  destruct (@grantConsent_after_deleteAllUserConsents 2000 "system-website"
              "admin@example.com" "openid" clientWorld)
    as [w1 [w2 [c [u [consent [E1 [E2 [_ [_ [_ [_ [Hcon [Hrows _]]]]]]]]]]]]].
  - unfold healthy. vm_compute. constructor.
  - eexists. split; [vm_compute; left; reflexivity | reflexivity].
  - eexists. split; [vm_compute; left; reflexivity | reflexivity].
  - exists w1, w2. split; [exact E1|]. split; [exact E2|].
    rewrite Hrows, Hcon. reflexivity.
Defined.

(** X19. [getAnyUserWithOtpDisabled], when its statement runs: if some
    stored user is enabled and has OTP off, it goes on with such a user, the
    one with the greatest identifier, with its permissions loaded; if there
    is none, it ends the test with [ErrRecordNotFound]. *)
Theorem getAnyUserWithOtpDisabled_picks_the_latest w :
  hd None (faults w) = None ->
  ((exists u, In u (users (db w)) /\ User_Enabled u = true /\ User_OTPEnabled u = false) ->
   exists u,
     fst (getAnyUserWithOtpDisabled w) = Returned (Went (preload_User (db w) u)) /\
     In u (users (db w)) /\ User_Enabled u = true /\ User_OTPEnabled u = false /\
     forall v, In v (users (db w)) -> User_Enabled v = true -> User_OTPEnabled v = false ->
               User_Id v <= User_Id u) /\
  ((forall u, In u (users (db w)) -> User_Enabled u = true -> User_OTPEnabled u = true) ->
   fst (getAnyUserWithOtpDisabled w) = Returned (Fatal ErrRecordNotFound)).
Proof.
  intros H0.
  set (cond := fun u => Bool.eqb (User_Enabled u) true && Bool.eqb (User_OTPEnabled u) false).
  assert (forall u, cond u = true <-> User_Enabled u = true /\ User_OTPEnabled u = false)
    as Hcond.
  { intros u. unfold cond. rewrite andb_true_iff.
    destruct (User_Enabled u), (User_OTPEnabled u); simpl; intuition congruence. }
  assert (fst (getAnyUserWithOtpDisabled w)
          = Returned match greatest Users (filter cond (users (db w))) with
                     | Some u => Went (preload_User (db w) u)
                     | None => Fatal ErrRecordNotFound
                     end) as Hrun.
  { unfold getAnyUserWithOtpDisabled, gorm_First, bind, driver, get_db, ret. simpl.
    rewrite H0. simpl. fold cond.
    destruct (greatest Users (filter cond (users (db w)))); reflexivity. }
  split.
  - intros [u0 [Hu0 [He Ho]]].
    destruct (greatest Users (filter cond (users (db w)))) as [u|] eqn:E.
    + exists u. split; [exact Hrun|].
      pose proof (greatest_In _ _ E) as Hin. apply filter_In in Hin.
      destruct Hin as [Hin Hc]. apply Hcond in Hc. destruct Hc as [He' Ho'].
      split; [exact Hin|]. split; [exact He'|]. split; [exact Ho'|].
      intros v Hv Hve Hvo.
      apply (greatest_max _ _ E). apply filter_In. split; [exact Hv|].
      apply Hcond. split; assumption.
    + apply greatest_None in E.
      assert (In u0 (filter cond (users (db w)))) as Hin.
      { apply filter_In. split; [exact Hu0|]. apply Hcond. split; assumption. }
      rewrite E in Hin. contradiction.
  - intros Hnone. rewrite Hrun.
    rewrite (filter_all_false cond (users (db w))); [reflexivity|].
    intros u Hu. destruct (cond u) eqn:C; [|reflexivity].
    apply Hcond in C. destruct C as [He Ho].
    rewrite (Hnone u Hu He) in Ho. discriminate.
Qed.

Lemma getAnyUserWithOtpDisabled_picks_the_latest_witness :
  exists u,
    fst (getAnyUserWithOtpDisabled seededWorld) = Returned (Went u) /\
    User_Email u = "admin@example.com".
Proof.
  destruct (@getAnyUserWithOtpDisabled_picks_the_latest seededWorld eq_refl) as [H _].
  destruct H as [u [E [Hin _]]].
  - eexists. split; [vm_compute; left; reflexivity|]. split; reflexivity.
  - exists (preload_User (db seededWorld) u). split; [exact E|].
    vm_compute in Hin. destruct Hin as [<-|[]]. reflexivity.
Defined.

(** X20. [getClientSecret] does not end the test for a client that does
    not exist or for a database without settings: with both lookups running,
    it dereferences the nil client or the nil settings. *)
Theorem getClientSecret_of_missing_client_panics X clientIdentifier w :
  hd None (faults w) = None -> hd None (tl (faults w)) = None ->
  (forall c, In c (clients (db w)) -> Client_ClientIdentifier c <> clientIdentifier)
  \/ settings (db w) = [] ->
  exists msg w', getClientSecret X clientIdentifier w = (Panicked msg, w') /\ db w' = db w.
Proof.
  intros H0 H1 Hmiss. unfold getClientSecret.
  rewrite GetClientByClientIdentifier_fetch, GetSettings_fetch.
  rewrite bind_run, fetch_run, H0.
  destruct Hmiss as [Hnone|Hempty].
  - assert (pick Clients Asc
              (filter (fun c => (Client_ClientIdentifier c =? clientIdentifier)%string)
                 (rows Clients (db w))) = None) as Ep.
    { apply pick_filter_None. intros c Hc. apply String.eqb_neq. apply Hnone. exact Hc. }
    rewrite Ep. cbv iota beta.
    rewrite bind_run, fetch_run. cbn [faults db with_faults]. rewrite H1.
    destruct (pick SettingsT Asc _); eexists; eexists; split; reflexivity.
  - destruct (pick Clients Asc _) as [c|]; cbv iota beta;
      rewrite bind_run, fetch_run; cbn [faults db with_faults]; rewrite H1;
      change (rows SettingsT (db w)) with (settings (db w)); rewrite Hempty;
      cbn [filter pick least]; eexists; eexists; split; reflexivity.
Qed.

Lemma getClientSecret_of_missing_client_panics_witness :
  exists msg w',
    getClientSecret (sampleExternals "" "") "test-client-1" seededWorld = (Panicked msg, w').
Proof.
  destruct (@getClientSecret_of_missing_client_panics (sampleExternals "" "")
              "test-client-1" seededWorld eq_refl eq_refl) as [msg [w' [E _]]].
  - left. intros c Hc. vm_compute in Hc. destruct Hc as [<-|[]]. discriminate.
  - exists msg, w'. exact E.
Defined.

(** ** The routes *)

(** X21. Every route that [initRoutes] registers under [/admin] is wrapped
    by [withJwt]; under [/account] all are but the redirect at its root, the
    two registration routes and the activation route; and nothing outside
    [/admin] and [/account] is wrapped, the logout route under [/auth]
    included. *)
Theorem admin_routes_are_behind_jwt :
  (forall r, In r initRoutes ->
     prefix "/admin/" (Route_Pattern r) = true ->
     behind_jwt (Route_Handler r) = true) /\
  (forall r, In r initRoutes ->
     prefix "/account/" (Route_Pattern r) = true ->
     behind_jwt (Route_Handler r) = false ->
     Route_Pattern r = "/account/" \/ Route_Pattern r = "/account/register"
     \/ Route_Pattern r = "/account/activate") /\
  (forall r, In r initRoutes ->
     behind_jwt (Route_Handler r) = true ->
     prefix "/admin/" (Route_Pattern r) = true
     \/ prefix "/account/" (Route_Pattern r) = true) /\
  In (router_Get "/auth/logout" (handler "handleAccountLogoutGet")) initRoutes.
Proof.
  assert (forallb
            (fun r =>
               implb (prefix "/admin/" (Route_Pattern r)) (behind_jwt (Route_Handler r))
               && implb (prefix "/account/" (Route_Pattern r)
                         && negb (behind_jwt (Route_Handler r)))
                    ((Route_Pattern r =? "/account/")%string
                     || (Route_Pattern r =? "/account/register")%string
                     || (Route_Pattern r =? "/account/activate")%string)
               && implb (behind_jwt (Route_Handler r))
                    (prefix "/admin/" (Route_Pattern r)
                     || prefix "/account/" (Route_Pattern r)))
            initRoutes = true) as Hall by (vm_compute; reflexivity).
  rewrite forallb_forall in Hall.
  repeat apply conj.
  - intros r Hr Hp. specialize (Hall r Hr).
    apply andb_true_iff in Hall. destruct Hall as [Hall _].
    apply andb_true_iff in Hall. destruct Hall as [Hall _].
    rewrite Hp in Hall. exact Hall.
  - intros r Hr Hp Hj. specialize (Hall r Hr).
    apply andb_true_iff in Hall. destruct Hall as [Hall _].
    apply andb_true_iff in Hall. destruct Hall as [_ Hall].
    rewrite Hp, Hj in Hall. cbn [negb andb implb] in Hall.
    apply orb_true_iff in Hall. destruct Hall as [Hall|Hall].
    + apply orb_true_iff in Hall. destruct Hall as [Hall|Hall];
        apply String.eqb_eq in Hall; auto.
    + apply String.eqb_eq in Hall. auto.
  - intros r Hr Hj. specialize (Hall r Hr).
    apply andb_true_iff in Hall. destruct Hall as [_ Hall].
    rewrite Hj in Hall. cbn [implb] in Hall.
    apply orb_true_iff in Hall. exact Hall.
  - vm_compute. do 15 right. left. reflexivity.
Qed.

Lemma admin_routes_are_behind_jwt_witness :
  behind_jwt
    (Route_Handler
       (router_Post "/admin/clients/{clientID}/delete"
          (withJwt (handler "handleAdminClientsDeletePost")))) = true.
Proof.
  apply (proj1 admin_routes_are_behind_jwt).
  - vm_compute. do 55 right. left. reflexivity.
  - reflexivity.
Defined.

(** ** The registration form *)

(** X22. The registration form never validates.  [sameAs] was given the
    empty string that the password field held when the component was set
    up, so [confirmPassword] passes it only when empty, and then [required]
    rejects it: whatever the user types, [$v.$invalid] holds and the submit
    button stays disabled. *)
Theorem register_form_is_never_valid V f :
  vuelidate_contract V -> v_invalid V f = true.
Proof.
  intros [Hreq Hsame]. unfold v_invalid, validators.
  cbn [existsb fst snd withMessage formValues Register_password].
  destruct (validators_sameAs V "" (Register_confirmPassword f)) eqn:Es.
  - apply Hsame in Es. rewrite Es, Hreq. cbn [negb].
    rewrite !orb_true_r. reflexivity.
  - cbn [negb]. rewrite !orb_true_r. reflexivity.
Qed.

Lemma register_form_is_never_valid_witness :
  v_invalid sampleVuelidate
    {| Register_email := "ana@example.com"; Register_password := "s3cret-pw";
       Register_confirmPassword := "s3cret-pw" |} = true.
Proof.
  apply register_form_is_never_valid.
  split; [reflexivity|]. intros x v H. apply String.eqb_eq in H. exact H.
Defined.
